(** * The referral economy and duel engine of the Cupid bot

    A shallow embedding of the ledger, referral, verification, wager and
    milestone logic of [roombot.py] (module [Roombot]) together with the
    places of the refactored bot ([user_manager.py], [invite_manager.py],
    [callbacks.py], [message_handlers.py]; modules [Modular],
    [InviteManager], [UserManager] and [MessageHandlers]) that take a
    different road, and the properties of the specification settled on them.

    Conventions of the embedding.
    - Python floats (points, timestamps) are rationals [Q]; equalities
      between amounts are stated with [==].  In [Roombot] a stored number is
      kept exact: one addition or subtraction of the code is one here, and
      the properties about balances are stated one step at a time, because a
      double rounds each step ([double_arithmetic_is_inexact]).  Where a
      rounded value decides the result (the heat score, the XP of a duel,
      the cascade of the refactored bot) the operations are those of
      [Binary64].  [float()] also accepts ["nan"] and the infinities, which
      are not amounts here.
    - Python ints are [Z]; [//] is [Z.div], [int(x)] is [py_int].
    - A [dict] keyed by strings is a [gmap string _]; a missing key raises
      [KeyError], which the state-and-exception monad [M] keeps apart from
      the state: what a handler wrote before it raised stays written.
    - [time.time()] is the argument [now] of a handler, [random.choice] and
      [random.sample] are arguments too ([coin], [sample]).
    - Message text is a list of Unicode code points. *)

From Stdlib Require Import QArith Qround Qpower Qabs Lqa ZArith Lia Sorted.
From stdpp Require Import gmap strings list fin_maps pretty.

Local Open Scope Q_scope.

(** ** Python numbers *)

Module Num.

Definition Qltb (a b : Q) : bool := negb (Qle_bool b a).

(** [int(x)]: truncation toward zero. *)
Definition py_int (q : Q) : Z :=
  if Qle_bool 0 q then Qfloor q else Qceiling q.

(** [round(x)] to the nearest integer, a tie going to the even one. *)
Definition round_half_even (q : Q) : Z :=
  let f := Qfloor q in
  match Qcompare (q - inject_Z f) (1 # 2) with
  | Lt => f
  | Gt => (f + 1)%Z
  | Eq => if Z.even f then f else (f + 1)%Z
  end.

(** The decimal with two places nearest to [q], a tie going to the even
    one: the decimal that [round(x, 2)] rounds a double [x] of value [q]
    to.  What [round] returns is the double nearest to that decimal,
    [Binary64.round2] below. *)
Definition round2 (q : Q) : Q := round_half_even (q * 100) # 100.

(** [max(0, x)]. *)
Definition max0 (q : Q) : Q := if Qle_bool 0 q then q else 0.

End Num.

Import Num.

(** ** Python floats: binary64

    A Python float is an IEEE 754 double; here it is the rational number it
    stands for.  [fl q] is the double nearest to [q], a tie going to the
    even significand: what every arithmetic operation of the interpreter
    returns for an exact result [q].  Infinities, nan, the sign of zero and
    the overflow above 1.8e308 are not represented; a division by zero, for
    which Python raises, does not occur with the divisors of the code
    (3600, 24, 100, 2). *)

Module Binary64.

(** The weight of the last bit of the double nearest to [q >= 0]: the [e]
    with [2^52 <= q / 2^e < 2^53], and -1074 below the normal range. *)
Definition exponent (q : Q) : Z :=
  Z.max (Z.log2 (Qfloor (q * 2 ^ 1074)) - 1074 - 52) (-1074).

Definition fl (q : Q) : Q :=
  let e := exponent (Qabs q) in
  inject_Z (round_half_even (q / 2 ^ e)) * 2 ^ e.

Definition add (x y : Q) : Q := fl (x + y).
Definition sub (x y : Q) : Q := fl (x - y).
Definition mul (x y : Q) : Q := fl (x * y).
Definition div (x y : Q) : Q := fl (x / y).

(** [float(n)] of an integer. *)
Definition of_int (n : Z) : Q := fl (inject_Z n).

(** [round(x, 2)] of a double: the nearest decimal with two places, a tie
    going to the even one, and then the double nearest to that decimal. *)
Definition round2 (x : Q) : Q := fl (Num.round2 x).

End Binary64.

(** ** Python strings as code points *)

Abbreviation text := (list N).

Module Text.

Definition of_string (s : string) : text :=
  Ascii.N_of_ascii <$> String.list_ascii_of_string s.

(** [str.isspace] on one character. *)
Definition isspace (c : N) : bool :=
  ((9 <=? c) && (c <=? 13) || (28 <=? c) && (c <=? 32) || (c =? 133)
   || (c =? 160) || (c =? 5760) || (8192 <=? c) && (c <=? 8202)
   || (c =? 8232) || (c =? 8233) || (c =? 8239) || (c =? 8287)
   || (c =? 12288))%N.

Fixpoint lstrip (t : text) : text :=
  match t with
  | c :: t' => if isspace c then lstrip t' else t
  | [] => []
  end.

(** [t.strip()] *)
Definition strip (t : text) : text := rev (lstrip (rev (lstrip t))).

(** [t.replace(' ', '')] *)
Definition remove_spaces (t : text) : text :=
  List.filter (fun c => negb (c =? 32)%N) t.

Definition eqb (a b : text) : bool := bool_decide (a = b).

(** [sep.join(parts)] *)
Fixpoint join (sep : text) (parts : list text) : text :=
  match parts with
  | [] => []
  | [p] => p
  | p :: ps => p ++ sep ++ join sep ps
  end.

End Text.

(** ** [roombot.py] *)

Module Roombot.

(** *** Constants *)

Definition VERIFICATION_TIMEOUT : Q := 300.
Definition WAGER_EXPIRY : Q := 60.
Definition BLACKLIST_DURATION : Q := 86400.
Definition DAILY_BONUS_COOLDOWN : Q := 86400.
Definition INVITE_BASE_POINTS : Q := 1.
Definition ACTIVITY_XP_MESSAGE : Z := 1.
Definition ACTIVITY_XP_DAILY : Z := 50.
Definition LEVEL_XP_REQUIRED : Z := 100.
Definition WAGER_XP_MULTIPLIER : Q := 1 # 10.
Definition MESSAGE_COOLDOWN : Q := 30.
Definition ACTIVITY_DECAY_DAYS : Q := 7.
Definition STREAK_BONUS_MULTIPLIER : Q := 1 # 10.
Definition HEAT_DECAY_HOURS : Q := 24.
Definition MILESTONE_ANNOUNCES : list Z := [10; 25; 50; 100; 250; 500; 1000]%Z.

(** *** The stored data

    One entry of [bot_data["users"]].  The first block holds the keys
    [init_user] creates (those no modelled function reads or writes,
    [invite_code], [invites_sent], [last_invite_time] and
    [verification_attempts], are left out); the second block holds the keys
    that other functions create or expect, [None] standing for a key that is
    not in the dict. *)
Record user := mk_user {
  lover_points : Q;
  xp : Z;
  level : Z;
  invites_successful : Z;
  last_message_xp : Q;
  last_daily_bonus : Q;
  blacklisted_until : Q;
  messages_sent : Z;
  days_active : Z;
  last_active : Q;
  loveliness_score : Q;
  wagers_won : Z;
  wagers_lost : Z;
  total_points_earned : Q;
  total_points_spent : Q;
  invite_streak : option Z;
  last_invite_success : option Q;
  heat_score : option Q;
  milestones_reached : option (list Z);
  total_xp_earned : option Z
}.

Definition set_lover_points (v : Q) (u : user) : user :=
  mk_user v (xp u) (level u) (invites_successful u) (last_message_xp u)
    (last_daily_bonus u) (blacklisted_until u) (messages_sent u)
    (days_active u) (last_active u) (loveliness_score u) (wagers_won u)
    (wagers_lost u) (total_points_earned u) (total_points_spent u)
    (invite_streak u) (last_invite_success u) (heat_score u)
    (milestones_reached u) (total_xp_earned u).

Definition set_xp (v : Z) (u : user) : user :=
  mk_user (lover_points u) v (level u) (invites_successful u)
    (last_message_xp u) (last_daily_bonus u) (blacklisted_until u)
    (messages_sent u) (days_active u) (last_active u) (loveliness_score u)
    (wagers_won u) (wagers_lost u) (total_points_earned u)
    (total_points_spent u) (invite_streak u) (last_invite_success u)
    (heat_score u) (milestones_reached u) (total_xp_earned u).

Definition set_level (v : Z) (u : user) : user :=
  mk_user (lover_points u) (xp u) v (invites_successful u)
    (last_message_xp u) (last_daily_bonus u) (blacklisted_until u)
    (messages_sent u) (days_active u) (last_active u) (loveliness_score u)
    (wagers_won u) (wagers_lost u) (total_points_earned u)
    (total_points_spent u) (invite_streak u) (last_invite_success u)
    (heat_score u) (milestones_reached u) (total_xp_earned u).

Definition set_invites_successful (v : Z) (u : user) : user :=
  mk_user (lover_points u) (xp u) (level u) v (last_message_xp u)
    (last_daily_bonus u) (blacklisted_until u) (messages_sent u)
    (days_active u) (last_active u) (loveliness_score u) (wagers_won u)
    (wagers_lost u) (total_points_earned u) (total_points_spent u)
    (invite_streak u) (last_invite_success u) (heat_score u)
    (milestones_reached u) (total_xp_earned u).

Definition set_last_message_xp (v : Q) (u : user) : user :=
  mk_user (lover_points u) (xp u) (level u) (invites_successful u) v
    (last_daily_bonus u) (blacklisted_until u) (messages_sent u)
    (days_active u) (last_active u) (loveliness_score u) (wagers_won u)
    (wagers_lost u) (total_points_earned u) (total_points_spent u)
    (invite_streak u) (last_invite_success u) (heat_score u)
    (milestones_reached u) (total_xp_earned u).

Definition set_last_daily_bonus (v : Q) (u : user) : user :=
  mk_user (lover_points u) (xp u) (level u) (invites_successful u)
    (last_message_xp u) v (blacklisted_until u) (messages_sent u)
    (days_active u) (last_active u) (loveliness_score u) (wagers_won u)
    (wagers_lost u) (total_points_earned u) (total_points_spent u)
    (invite_streak u) (last_invite_success u) (heat_score u)
    (milestones_reached u) (total_xp_earned u).

Definition set_blacklisted_until (v : Q) (u : user) : user :=
  mk_user (lover_points u) (xp u) (level u) (invites_successful u)
    (last_message_xp u) (last_daily_bonus u) v (messages_sent u)
    (days_active u) (last_active u) (loveliness_score u) (wagers_won u)
    (wagers_lost u) (total_points_earned u) (total_points_spent u)
    (invite_streak u) (last_invite_success u) (heat_score u)
    (milestones_reached u) (total_xp_earned u).

Definition set_messages_sent (v : Z) (u : user) : user :=
  mk_user (lover_points u) (xp u) (level u) (invites_successful u)
    (last_message_xp u) (last_daily_bonus u) (blacklisted_until u) v
    (days_active u) (last_active u) (loveliness_score u) (wagers_won u)
    (wagers_lost u) (total_points_earned u) (total_points_spent u)
    (invite_streak u) (last_invite_success u) (heat_score u)
    (milestones_reached u) (total_xp_earned u).

Definition set_days_active (v : Z) (u : user) : user :=
  mk_user (lover_points u) (xp u) (level u) (invites_successful u)
    (last_message_xp u) (last_daily_bonus u) (blacklisted_until u)
    (messages_sent u) v (last_active u) (loveliness_score u) (wagers_won u)
    (wagers_lost u) (total_points_earned u) (total_points_spent u)
    (invite_streak u) (last_invite_success u) (heat_score u)
    (milestones_reached u) (total_xp_earned u).

Definition set_last_active (v : Q) (u : user) : user :=
  mk_user (lover_points u) (xp u) (level u) (invites_successful u)
    (last_message_xp u) (last_daily_bonus u) (blacklisted_until u)
    (messages_sent u) (days_active u) v (loveliness_score u) (wagers_won u)
    (wagers_lost u) (total_points_earned u) (total_points_spent u)
    (invite_streak u) (last_invite_success u) (heat_score u)
    (milestones_reached u) (total_xp_earned u).

Definition set_loveliness_score (v : Q) (u : user) : user :=
  mk_user (lover_points u) (xp u) (level u) (invites_successful u)
    (last_message_xp u) (last_daily_bonus u) (blacklisted_until u)
    (messages_sent u) (days_active u) (last_active u) v (wagers_won u)
    (wagers_lost u) (total_points_earned u) (total_points_spent u)
    (invite_streak u) (last_invite_success u) (heat_score u)
    (milestones_reached u) (total_xp_earned u).

Definition set_wagers_won (v : Z) (u : user) : user :=
  mk_user (lover_points u) (xp u) (level u) (invites_successful u)
    (last_message_xp u) (last_daily_bonus u) (blacklisted_until u)
    (messages_sent u) (days_active u) (last_active u) (loveliness_score u) v
    (wagers_lost u) (total_points_earned u) (total_points_spent u)
    (invite_streak u) (last_invite_success u) (heat_score u)
    (milestones_reached u) (total_xp_earned u).

Definition set_wagers_lost (v : Z) (u : user) : user :=
  mk_user (lover_points u) (xp u) (level u) (invites_successful u)
    (last_message_xp u) (last_daily_bonus u) (blacklisted_until u)
    (messages_sent u) (days_active u) (last_active u) (loveliness_score u)
    (wagers_won u) v (total_points_earned u) (total_points_spent u)
    (invite_streak u) (last_invite_success u) (heat_score u)
    (milestones_reached u) (total_xp_earned u).

Definition set_total_points_earned (v : Q) (u : user) : user :=
  mk_user (lover_points u) (xp u) (level u) (invites_successful u)
    (last_message_xp u) (last_daily_bonus u) (blacklisted_until u)
    (messages_sent u) (days_active u) (last_active u) (loveliness_score u)
    (wagers_won u) (wagers_lost u) v (total_points_spent u)
    (invite_streak u) (last_invite_success u) (heat_score u)
    (milestones_reached u) (total_xp_earned u).

Definition set_total_points_spent (v : Q) (u : user) : user :=
  mk_user (lover_points u) (xp u) (level u) (invites_successful u)
    (last_message_xp u) (last_daily_bonus u) (blacklisted_until u)
    (messages_sent u) (days_active u) (last_active u) (loveliness_score u)
    (wagers_won u) (wagers_lost u) (total_points_earned u) v
    (invite_streak u) (last_invite_success u) (heat_score u)
    (milestones_reached u) (total_xp_earned u).

Definition set_invite_streak (v : option Z) (u : user) : user :=
  mk_user (lover_points u) (xp u) (level u) (invites_successful u)
    (last_message_xp u) (last_daily_bonus u) (blacklisted_until u)
    (messages_sent u) (days_active u) (last_active u) (loveliness_score u)
    (wagers_won u) (wagers_lost u) (total_points_earned u)
    (total_points_spent u) v (last_invite_success u) (heat_score u)
    (milestones_reached u) (total_xp_earned u).

Definition set_last_invite_success (v : option Q) (u : user) : user :=
  mk_user (lover_points u) (xp u) (level u) (invites_successful u)
    (last_message_xp u) (last_daily_bonus u) (blacklisted_until u)
    (messages_sent u) (days_active u) (last_active u) (loveliness_score u)
    (wagers_won u) (wagers_lost u) (total_points_earned u)
    (total_points_spent u) (invite_streak u) v (heat_score u)
    (milestones_reached u) (total_xp_earned u).

Definition set_heat_score (v : option Q) (u : user) : user :=
  mk_user (lover_points u) (xp u) (level u) (invites_successful u)
    (last_message_xp u) (last_daily_bonus u) (blacklisted_until u)
    (messages_sent u) (days_active u) (last_active u) (loveliness_score u)
    (wagers_won u) (wagers_lost u) (total_points_earned u)
    (total_points_spent u) (invite_streak u) (last_invite_success u) v
    (milestones_reached u) (total_xp_earned u).

Definition set_milestones_reached (v : option (list Z)) (u : user) : user :=
  mk_user (lover_points u) (xp u) (level u) (invites_successful u)
    (last_message_xp u) (last_daily_bonus u) (blacklisted_until u)
    (messages_sent u) (days_active u) (last_active u) (loveliness_score u)
    (wagers_won u) (wagers_lost u) (total_points_earned u)
    (total_points_spent u) (invite_streak u) (last_invite_success u)
    (heat_score u) v (total_xp_earned u).

Definition set_total_xp_earned (v : option Z) (u : user) : user :=
  mk_user (lover_points u) (xp u) (level u) (invites_successful u)
    (last_message_xp u) (last_daily_bonus u) (blacklisted_until u)
    (messages_sent u) (days_active u) (last_active u) (loveliness_score u)
    (wagers_won u) (wagers_lost u) (total_points_earned u)
    (total_points_spent u) (invite_streak u) (last_invite_success u)
    (heat_score u) (milestones_reached u) v.

(** One entry of [bot_data["invites"]], with the keys [cmd_invite] and
    [cmd_newinvite] create.  The fields of the three records below carry a
    one-letter prefix ([i_], [v_], [w_]) before the name of the dict key. *)
Record invite := mk_invite {
  i_inviter_id : string;
  i_group_id : Z;
  i_created_at : Q;
  i_active : bool;
  i_total_uses : Z;
  i_used_by_list : list string
}.

(** One entry of [bot_data["verifications"]] (its ["type"] is always
    ["emoji"]). *)
Record verification := mk_verification {
  v_answer : text;
  v_invite_code : string;
  v_expires_at : Q;
  v_attempts : Z
}.

(** One entry of [bot_data["pending_wagers"]]. *)
Record wager := mk_wager {
  w_challenger_id : string;
  w_challenger_name : string;
  w_points : Q;
  w_expires_at : Q;
  w_accepted : bool
}.

(** What [award_points] writes through [logger.info]: who was awarded how
    much, and the cascade depth and streak factor of its [reason]. *)
Record award := mk_award {
  award_to : string;
  award_points_of : Q;
  award_depth : nat;
  award_streak : Q
}.

(** The global [bot_data], and the award lines of the log. *)
Record bot_data := mk_bot_data {
  users : gmap string user;
  invites : gmap string invite;
  verifications : gmap string verification;
  relationships : gmap string string;
  pending_wagers : gmap string wager;
  activity_tracking : gmap string (gset string);
  award_log : list award
}.

Definition set_users (v : gmap string user) (st : bot_data) : bot_data :=
  mk_bot_data v (invites st) (verifications st) (relationships st)
    (pending_wagers st) (activity_tracking st) (award_log st).

Definition set_invites (v : gmap string invite) (st : bot_data) : bot_data :=
  mk_bot_data (users st) v (verifications st) (relationships st)
    (pending_wagers st) (activity_tracking st) (award_log st).

Definition set_verifications (v : gmap string verification) (st : bot_data)
  : bot_data :=
  mk_bot_data (users st) (invites st) v (relationships st)
    (pending_wagers st) (activity_tracking st) (award_log st).

Definition set_relationships (v : gmap string string) (st : bot_data)
  : bot_data :=
  mk_bot_data (users st) (invites st) (verifications st) v
    (pending_wagers st) (activity_tracking st) (award_log st).

Definition set_pending_wagers (v : gmap string wager) (st : bot_data)
  : bot_data :=
  mk_bot_data (users st) (invites st) (verifications st) (relationships st)
    v (activity_tracking st) (award_log st).

Definition set_activity_tracking (v : gmap string (gset string))
  (st : bot_data) : bot_data :=
  mk_bot_data (users st) (invites st) (verifications st) (relationships st)
    (pending_wagers st) v (award_log st).

Definition set_award_log (v : list award) (st : bot_data) : bot_data :=
  mk_bot_data (users st) (invites st) (verifications st) (relationships st)
    (pending_wagers st) (activity_tracking st) v.

(** [initialize_data] *)
Definition initialize_data : bot_data := mk_bot_data ∅ ∅ ∅ ∅ ∅ ∅ [].

(** *** State and exceptions *)

Inductive exn := KeyError (key : string).

Inductive res (A : Type) :=
  | Ok (a : A)
  | Raise (e : exn).
Arguments Ok {A} a.
Arguments Raise {A} e.

Definition M (A : Type) : Type := bot_data -> res A * bot_data.

Definition ret {A} (a : A) : M A := fun st => (Ok a, st).

Definition bind {A B} (m : M A) (f : A -> M B) : M B :=
  fun st =>
    match m st with
    | (Ok a, st') => f a st'
    | (Raise e, st') => (Raise e, st')
    end.

Definition raise {A} (e : exn) : M A := fun st => (Raise e, st).

Notation "x <- m ;; k" := (bind m (fun x => k))
  (at level 100, m at next level, right associativity).
Notation "m ;;; k" := (bind m (fun _ => k))
  (at level 100, right associativity).

Definition gets {A} (f : bot_data -> A) : M A := fun st => (Ok (f st), st).

Definition modify (f : bot_data -> bot_data) : M unit :=
  fun st => (Ok tt, f st).

(** [bot_data["users"][user_id]] read. *)
Definition user_of (user_id : string) : M user :=
  fun st =>
    match users st !! user_id with
    | Some u => (Ok u, st)
    | None => (Raise (KeyError user_id), st)
    end.

(** [bot_data["users"][user_id][...] = ...]: an update of the stored entry. *)
Definition update_user (user_id : string) (f : user -> user) : M unit :=
  fun st =>
    match users st !! user_id with
    | Some u => (Ok tt, set_users (<[user_id := f u]> (users st)) st)
    | None => (Raise (KeyError user_id), st)
    end.

(** The state a handler leaves, and what it returned. *)
Definition state_after {A} (m : M A) (st : bot_data) : bot_data := (m st).2.
Definition result_of {A} (m : M A) (st : bot_data) : res A := (m st).1.

(** *** User management *)

(** [init_user]; [now] is the [time.time()] stored as [last_active]. *)
Definition fresh_user (now : Q) : user :=
  mk_user 0 0 1 0 0 0 0 0 0 now 0 0 0 0 0 None None None None None.

Definition init_user (user_id : string) (now : Q) : M unit :=
  modify (fun st =>
    match users st !! user_id with
    | Some _ => st
    | None => set_users (<[user_id := fresh_user now]> (users st)) st
    end).

Definition calculate_level_xp (level : Z) : Z :=
  (LEVEL_XP_REQUIRED * level * (1 + level / 10))%Z.

(** [check_level_up]: one comparison, at most one level gained. *)
Definition check_level_up (user_id : string) : M bool :=
  user <- user_of user_id ;;
  let required_xp := calculate_level_xp (level user) in
  if (required_xp <=? xp user)%Z then
    update_user user_id (fun u => set_level (level u + 1) u) ;;;
    update_user user_id (fun u => set_xp (xp u - required_xp) u) ;;;
    ret true
  else ret false.

(** [calculate_heat_score] on a stored entry, over the rationals: the
    operations are exact and the rounding is to the decimal;
    [user.get("last_invite_success", 0)] is the [default]. *)
Definition heat_of (user : user) (now : Q) : Q :=
  let last_success := default 0 (last_invite_success user) in
  let hours_since := (now - last_success) / 3600 in
  if Qltb HEAT_DECAY_HOURS hours_since then 0
  else
    let base_heat := inject_Z (invites_successful user) in
    let decay := (HEAT_DECAY_HOURS - hours_since) / HEAT_DECAY_HOURS in
    round2 (base_heat * decay).

Definition calculate_heat_score (user_id : string) (now : Q) : M Q :=
  user <- user_of user_id ;;
  ret (heat_of user now).

(** [calculate_heat_score] as the interpreter computes it: [now] and the
    stored time are doubles and every operation rounds.  [heat_of] is the
    same expression over the rationals; the two differ where the rounded
    product falls on the other side of a half hundredth. *)
Definition heat_binary64 (user : user) (now : Q) : Q :=
  let last_success := default 0 (last_invite_success user) in
  let hours_since := Binary64.div (Binary64.sub now last_success) 3600 in
  if Qltb HEAT_DECAY_HOURS hours_since then 0
  else
    let base_heat := Binary64.of_int (invites_successful user) in
    let decay :=
      Binary64.div (Binary64.sub HEAT_DECAY_HOURS hours_since)
        HEAT_DECAY_HOURS in
    Binary64.round2 (Binary64.mul base_heat decay).

Definition calculate_heat_score_binary64 (user_id : string) (now : Q) : M Q :=
  user <- user_of user_id ;;
  ret (heat_binary64 user now).

(** [update_invite_streak]: [user["invite_streak"] += 1] needs the key. *)
Definition update_invite_streak (user_id : string) (now : Q) : M unit :=
  user <- user_of user_id ;;
  let last_success := default 0 (last_invite_success user) in
  (if Qltb (now - last_success) 86400 then
     match invite_streak user with
     | Some k => update_user user_id (set_invite_streak (Some (k + 1)%Z))
     | None => raise (KeyError "invite_streak")
     end
   else update_user user_id (set_invite_streak (Some 1%Z))) ;;;
  update_user user_id (set_last_invite_success (Some now)) ;;;
  heat <- calculate_heat_score user_id now ;;
  update_user user_id (set_heat_score (Some heat)).

(** [check_milestones] (the later, announcing definition).  [successful] is
    read once; [user["milestones_reached"]] is read in each round, after the
    comparison with the counter ([and] short-circuits).  The value returned
    is [milestones_hit]: one announcement is attempted for each element. *)
Fixpoint milestones_loop (user_id : string) (successful : Z)
  (todo : list Z) : M (list Z) :=
  match todo with
  | [] => ret []
  | milestone :: todo' =>
      user <- user_of user_id ;;
      if (milestone <=? successful)%Z then
        match milestones_reached user with
        | None => raise (KeyError "milestones_reached")
        | Some reached =>
            if bool_decide (milestone ∈ reached) then
              milestones_loop user_id successful todo'
            else
              update_user user_id
                (set_milestones_reached (Some (reached ++ [milestone]))) ;;;
              hit <- milestones_loop user_id successful todo' ;;
              ret (milestone :: hit)
        end
      else milestones_loop user_id successful todo'
  end.

Definition check_milestones (user_id : string) : M (list Z) :=
  user <- user_of user_id ;;
  milestones_loop user_id (invites_successful user) MILESTONE_ANNOUNCES.

(** *** Verification *)

Definition is_blacklisted (user_id : string) (now : Q) : M bool :=
  user <- user_of user_id ;;
  ret (Qltb now (blacklisted_until user)).

Definition blacklist_user (user_id : string) (now : Q) : M unit :=
  update_user user_id (set_blacklisted_until (now + BLACKLIST_DURATION)).

(** The palette of [create_verification], as code points. *)
Definition emojis : list text :=
  [ [10084; 65039]; [128149]; [128150]; [128151];
    [128157]; [128152]; [128156]; [128153] ]%N.

(** [random.sample(emojis, 4)] for a draw of positions [sample]. *)
Definition sampled (sample : list nat) : list text :=
  (fun i => default [] (emojis !! i)) <$> sample.

(** What [random.sample(emojis, 4)] can draw: four different positions of
    the palette, in any order. *)
Definition valid_sample (sample : list nat) : Prop :=
  length sample = 4%nat /\ NoDup sample /\ Forall (fun i => (i < 8)%nat) sample.

Definition create_verification (user_id invite_code : string) (now : Q)
  (sample : list nat) : M (option text) :=
  blocked <- is_blacklisted user_id now ;;
  if blocked then ret None
  else
    let selected := sampled sample in
    let question :=
      Text.of_string "Type these emojis in order: "
      ++ Text.join [32%N] selected in
    let answer := concat selected in
    modify (fun st =>
      set_verifications
        (<[user_id := mk_verification answer invite_code
                        (now + VERIFICATION_TIMEOUT) 0]> (verifications st))
        st) ;;;
    ret (Some question).

Definition drop_verification (user_id : string) : M unit :=
  modify (fun st => set_verifications (delete user_id (verifications st)) st).

Definition verify_answer (user_id : string) (answer : text) (now : Q)
  : M (bool * option string) :=
  pending <- gets verifications ;;
  match pending !! user_id with
  | None => ret (false, None)
  | Some verif =>
      if Qltb (v_expires_at verif) now then
        drop_verification user_id ;;;
        ret (false, None)
      else
        let tried := (v_attempts verif + 1)%Z in
        modify (fun st =>
          set_verifications
            (<[user_id := mk_verification (v_answer verif)
                            (v_invite_code verif) (v_expires_at verif) tried]>
               (verifications st))
            st) ;;;
        let answer_clean := Text.remove_spaces (Text.strip answer) in
        let expected_clean := Text.remove_spaces (v_answer verif) in
        if Text.eqb answer_clean expected_clean then
          drop_verification user_id ;;;
          ret (true, Some (v_invite_code verif))
        else
          (if (3 <=? tried)%Z then
             blacklist_user user_id now ;;;
             drop_verification user_id
           else ret tt) ;;;
          ret (false, None)
  end.

(** *** Points *)

Definition award_points (user_id : string) (points : Q) (depth : nat)
  (streak_bonus : Q) : M unit :=
  update_user user_id (fun u => set_lover_points (lover_points u + points) u) ;;;
  update_user user_id
    (fun u => set_total_points_earned (total_points_earned u + points) u) ;;;
  modify (fun st =>
    set_award_log
      (award_log st ++ [mk_award user_id points depth streak_bonus]) st).

(** The [while] of [award_points_cascade].  The test is the source's;
    [fuel] only makes the recursion structural, and ten rounds are enough
    because [depth] grows by one in each. *)
Fixpoint cascade_loop (fuel : nat) (current_id : string) (current_points : Q)
  (depth : nat) (streak_bonus : Q) : M unit :=
  match fuel with
  | O => ret tt
  | S fuel' =>
      if negb (String.eqb current_id "")
         && Qle_bool (1 # 100) current_points
         && (depth <? 10)%nat
      then
        award_points current_id current_points depth streak_bonus ;;;
        parents <- gets relationships ;;
        match parents !! current_id with
        | Some parent =>
            cascade_loop fuel' parent (current_points / 2) (S depth) 1
        | None => ret tt
        end
      else ret tt
  end.

Definition award_points_cascade (user_id : string) (base_points : Q)
  : M unit :=
  user <- user_of user_id ;;
  let streak_bonus :=
    1 + inject_Z (default 0%Z (invite_streak user)) * STREAK_BONUS_MULTIPLIER in
  cascade_loop 10 user_id (base_points * streak_bonus) 0 streak_bonus.

(** *** Activity

    [0.95 ** x] has no rational value in general: the power is a parameter
    of the functions that reach it ([calculate_loveliness_score] and its
    callers). *)
Section Loveliness.

Variable pow095 : Q -> Q.

Definition loveliness_of (user : user) (now : Q) : Q :=
  let days_inactive := (now - last_active user) / 86400 in
  let base_score :=
    inject_Z (messages_sent user) * (1 # 10) + inject_Z (days_active user) * 5 in
  round2
    (if Qltb ACTIVITY_DECAY_DAYS days_inactive
     then base_score * pow095 (days_inactive - ACTIVITY_DECAY_DAYS)
     else base_score).

Definition calculate_loveliness_score (user_id : string) (now : Q) : M Q :=
  user <- user_of user_id ;;
  ret (loveliness_of user now).

(** [track_activity]; [today] is [datetime.now().date().isoformat()]. *)
Definition track_activity (user_id : string) (now : Q) (today : string)
  : M bool :=
  user <- user_of user_id ;;
  if Qle_bool MESSAGE_COOLDOWN (now - last_message_xp user) then
    update_user user_id (fun u => set_xp (xp u + ACTIVITY_XP_MESSAGE) u) ;;;
    update_user user_id (fun u =>
      set_total_xp_earned
        (Some (default 0%Z (total_xp_earned u) + ACTIVITY_XP_MESSAGE)%Z) u) ;;;
    update_user user_id (set_last_message_xp now) ;;;
    update_user user_id (fun u => set_messages_sent (messages_sent u + 1) u) ;;;
    tracking <- gets activity_tracking ;;
    (if bool_decide (today ∈ default ∅ (tracking !! user_id)) then ret tt
     else
       update_user user_id (fun u => set_days_active (days_active u + 1) u) ;;;
       modify (fun st =>
         set_activity_tracking
           (<[user_id := {[ today ]} ∪ default ∅ (activity_tracking st !! user_id)]>
              (activity_tracking st)) st)) ;;;
    update_user user_id (set_last_active now) ;;;
    score <- calculate_loveliness_score user_id now ;;
    update_user user_id (set_loveliness_score score) ;;;
    check_level_up user_id
  else ret false.

(** *** Wagers *)

(** The refunds of [cleanup_expired_wagers], one round for each expired
    wager of the first loop. *)
Fixpoint refund_expired (expired : list (string * wager)) : M unit :=
  match expired with
  | [] => ret tt
  | (_, wager) :: expired' =>
      (if w_accepted wager then ret tt
       else
         known <- gets users ;;
         match known !! w_challenger_id wager with
         | Some _ =>
             update_user (w_challenger_id wager)
               (fun u => set_lover_points (lover_points u + w_points wager) u)
         | None => ret tt
         end) ;;;
      refund_expired expired'
  end.

(** [cleanup_expired_wagers]; the wagers are visited in the order of their
    ids (the refunds are sums, whose order does not matter in [Q]). *)
Definition cleanup_expired_wagers (now : Q) : M unit :=
  pending <- gets pending_wagers ;;
  let expired :=
    List.filter (fun entry => Qltb (w_expires_at entry.2) now)
      (map_to_list pending) in
  refund_expired expired ;;;
  modify (fun st =>
    set_pending_wagers
      (foldr (fun entry m => delete entry.1 m) (pending_wagers st) expired) st).

(** [context.args[0]] of [/wager] and [/gift], after [float()]; the number
    is finite. *)
Inductive amount_arg :=
  | NoArgs
  | NotANumber
  | Amount (raw : Q).

Inductive wager_reply :=
  | WagerUsage
  | WagerBadAmount
  | WagerInsufficient
  | WagerOpened (wager_id : string) (points : Q).

Definition cmd_wager (challenger_id first_name : string) (arg : amount_arg)
  (now : Q) : M wager_reply :=
  init_user challenger_id now ;;;
  cleanup_expired_wagers now ;;;
  match arg with
  | NoArgs => ret WagerUsage
  | NotANumber => ret WagerBadAmount
  | Amount raw =>
      if Qle_bool raw 0 || Qltb 1000 raw then ret WagerBadAmount
      else
        let points := round2 raw in
        challenger <- user_of challenger_id ;;
        if Qltb (lover_points challenger) points then ret WagerInsufficient
        else
          let wager_id :=
            ("wager_" +:+ pretty (py_int now) +:+ "_"
             +:+ String.substring 0 8 challenger_id)%string in
          modify (fun st =>
            set_pending_wagers
              (<[wager_id := mk_wager challenger_id first_name points
                               (now + WAGER_EXPIRY) false]> (pending_wagers st))
              st) ;;;
          update_user challenger_id
            (fun u => set_lover_points (lover_points u - points) u) ;;;
          ret (WagerOpened wager_id points)
  end.

Inductive gift_reply :=
  | GiftUsage
  | GiftNoAmount
  | GiftNotPositive
  | GiftTooGenerous
  | GiftInvalid
  | GiftSelf
  | GiftInsufficient (have need : Q)
  | GiftSent (points : Q).

(** [cmd_gift]; [recipient] is the author of the message replied to. *)
Definition cmd_gift (giver_id : string) (recipient : option string)
  (arg : amount_arg) (now : Q) : M gift_reply :=
  init_user giver_id now ;;;
  match recipient with
  | None => ret GiftUsage
  | Some recipient_id =>
      match arg with
      | NoArgs => ret GiftNoAmount
      | NotANumber => ret GiftInvalid
      | Amount raw =>
          if Qle_bool raw 0 then ret GiftNotPositive
          else if Qltb 10000 raw then ret GiftTooGenerous
          else
            let points := round2 raw in
            if String.eqb recipient_id giver_id then ret GiftSelf
            else
              init_user recipient_id now ;;;
              giver <- user_of giver_id ;;
              if Qltb (lover_points giver) points then
                ret (GiftInsufficient (lover_points giver) points)
              else
                update_user giver_id
                  (fun u => set_lover_points (lover_points u - points) u) ;;;
                update_user giver_id (fun u =>
                  set_total_points_spent (total_points_spent u + points) u) ;;;
                update_user recipient_id
                  (fun u => set_lover_points (lover_points u + points) u) ;;;
                update_user recipient_id (fun u =>
                  set_total_points_earned (total_points_earned u + points) u) ;;;
                ret (GiftSent points)
      end
  end.

Inductive daily_reply :=
  | DailyWait (remaining : Q)
  | DailyClaimed (total_bonus : Z) (leveled : bool).

Definition cmd_daily (user_id : string) (now : Q) : M daily_reply :=
  init_user user_id now ;;;
  user <- user_of user_id ;;
  if Qltb (now - last_daily_bonus user) DAILY_BONUS_COOLDOWN then
    ret (DailyWait (DAILY_BONUS_COOLDOWN - (now - last_daily_bonus user)))
  else
    let base_bonus := 10%Z in
    let level_bonus := (level user * 2)%Z in
    let streak_bonus := Z.min (days_active user) 30 in
    let total_bonus := (base_bonus + level_bonus + streak_bonus)%Z in
    update_user user_id
      (fun u => set_lover_points (lover_points u + inject_Z total_bonus) u) ;;;
    update_user user_id (fun u =>
      set_total_points_earned (total_points_earned u + inject_Z total_bonus) u) ;;;
    update_user user_id (fun u => set_xp (xp u + ACTIVITY_XP_DAILY) u) ;;;
    update_user user_id (fun u =>
      set_total_xp_earned
        (Some (default 0%Z (total_xp_earned u) + ACTIVITY_XP_DAILY)%Z) u) ;;;
    update_user user_id (set_last_daily_bonus now) ;;;
    leveled <- check_level_up user_id ;;
    ret (DailyClaimed total_bonus leveled).

Inductive callback_reply :=
  | CbGone
  | CbExpired
  | CbOwnDuel
  | CbAlreadyAccepted
  | CbNeedPoints (points : Q)
  | CbSettled (winner_id loser_id : string) (points : Q)
      (challenger_xp acceptor_xp : Z) (challenger_leveled acceptor_leveled : bool)
  | CbNotChallenger
  | CbCancelled
  | CbNoAction.

(** [bot_data["users"][user_id]["total_xp_earned"] += amount] *)
Definition add_total_xp_earned (user_id : string) (amount : Z) : M unit :=
  user <- user_of user_id ;;
  match total_xp_earned user with
  | Some total => update_user user_id (set_total_xp_earned (Some (total + amount)%Z))
  | None => raise (KeyError "total_xp_earned")
  end.

(** [int(points * WAGER_XP_MULTIPLIER * (1 + loveliness / 100))] in binary64:
    the stake and the loveliness are stored as decimals here, and the code
    holds the doubles nearest to them. *)
Definition wager_xp (points loveliness : Q) : Z :=
  py_int
    (Binary64.mul
       (Binary64.mul (Binary64.fl points) (Binary64.fl WAGER_XP_MULTIPLIER))
       (Binary64.add 1 (Binary64.div (Binary64.fl loveliness) 100))).

(** The duel of the [accept] branch, from [# Execute the duel] on;
    [coin] is [true] when [random.choice] draws the challenger. *)
Definition execute_duel (wager_id : string) (wager : wager) (user_id : string)
  (now : Q) (coin : bool) : M callback_reply :=
  let challenger_id := w_challenger_id wager in
  let points := w_points wager in
  challenger_loveliness <- calculate_loveliness_score challenger_id now ;;
  acceptor_loveliness <- calculate_loveliness_score user_id now ;;
  let challenger_xp := wager_xp points challenger_loveliness in
  let acceptor_xp := wager_xp points acceptor_loveliness in
  update_user challenger_id (fun u => set_xp (xp u + challenger_xp) u) ;;;
  add_total_xp_earned challenger_id challenger_xp ;;;
  update_user user_id (fun u => set_xp (xp u + acceptor_xp) u) ;;;
  add_total_xp_earned user_id acceptor_xp ;;;
  let winner_id := if coin then challenger_id else user_id in
  let loser_id :=
    if String.eqb winner_id challenger_id then user_id else challenger_id in
  update_user winner_id
    (fun u => set_lover_points (lover_points u + points * 2) u) ;;;
  update_user winner_id (fun u => set_wagers_won (wagers_won u + 1) u) ;;;
  update_user winner_id
    (fun u => set_total_points_earned (total_points_earned u + points) u) ;;;
  update_user loser_id
    (fun u => set_lover_points (lover_points u - points) u) ;;;
  update_user loser_id (fun u => set_wagers_lost (wagers_lost u + 1) u) ;;;
  update_user loser_id
    (fun u => set_total_points_spent (total_points_spent u + points) u) ;;;
  challenger_leveled <- check_level_up challenger_id ;;
  acceptor_leveled <- check_level_up user_id ;;
  modify (fun st => set_pending_wagers (delete wager_id (pending_wagers st)) st) ;;;
  ret (CbSettled winner_id loser_id points challenger_xp acceptor_xp
         challenger_leveled acceptor_leveled).

(** [handle_callback_query]; [action] and [wager_id] are the two parts of
    [query.data]. *)
Definition handle_callback_query (user_id : string) (action wager_id : string)
  (now : Q) (coin : bool) : M callback_reply :=
  pending <- gets pending_wagers ;;
  match pending !! wager_id with
  | None => ret CbGone
  | Some wager =>
      if Qltb (w_expires_at wager) now then
        update_user (w_challenger_id wager)
          (fun u => set_lover_points (lover_points u + w_points wager) u) ;;;
        modify (fun st =>
          set_pending_wagers (delete wager_id (pending_wagers st)) st) ;;;
        ret CbExpired
      else if String.eqb action "accept" then
        if String.eqb user_id (w_challenger_id wager) then ret CbOwnDuel
        else if w_accepted wager then ret CbAlreadyAccepted
        else
          init_user user_id now ;;;
          acceptor <- user_of user_id ;;
          if Qltb (lover_points acceptor) (w_points wager) then
            ret (CbNeedPoints (w_points wager))
          else
            modify (fun st =>
              set_pending_wagers
                (<[wager_id := mk_wager (w_challenger_id wager)
                                 (w_challenger_name wager) (w_points wager)
                                 (w_expires_at wager) true]> (pending_wagers st))
                st) ;;;
            execute_duel wager_id wager user_id now coin
      else if String.eqb action "cancel" then
        if negb (String.eqb user_id (w_challenger_id wager)) then
          ret CbNotChallenger
        else
          update_user (w_challenger_id wager)
            (fun u => set_lover_points (lover_points u + w_points wager) u) ;;;
          modify (fun st =>
            set_pending_wagers (delete wager_id (pending_wagers st)) st) ;;;
          ret CbCancelled
      else ret CbNoAction
  end.

(** *** Group membership *)

(** One round of the loop of [handle_new_member]. *)
Definition welcome_member (user_id : string) (now : Q) : M bool :=
  init_user user_id now ;;;
  parents <- gets relationships ;;
  match parents !! user_id with
  | Some inviter_id =>
      update_invite_streak inviter_id now ;;;
      award_points_cascade inviter_id INVITE_BASE_POINTS ;;;
      update_user inviter_id
        (fun u => set_invites_successful (invites_successful u + 1) u) ;;;
      check_milestones inviter_id ;;;
      ret true
  | None => ret false
  end.

Fixpoint handle_new_member (new_chat_members : list string) (now : Q)
  : M unit :=
  match new_chat_members with
  | [] => ret tt
  | member :: others =>
      welcome_member member now ;;;
      handle_new_member others now
  end.

Definition handle_member_left (user_id : string) (now : Q) : M unit :=
  parents <- gets relationships ;;
  match parents !! user_id with
  | Some inviter_id =>
      known <- gets users ;;
      match known !! inviter_id with
      | Some _ =>
          let penalty := 1 # 2 in
          update_user inviter_id
            (fun u => set_lover_points (lover_points u - penalty) u) ;;;
          update_user inviter_id
            (fun u => set_lover_points (max0 (lover_points u)) u) ;;;
          heat <- calculate_heat_score inviter_id now ;;
          update_user inviter_id (set_heat_score (Some heat))
      | None => ret tt
      end
  | None => ret tt
  end.

(** *** Redeeming an invite *)

Inductive start_reply :=
  | StartWelcome
  | StartNoInvite
  | StartDeactivated
  | StartAlreadyJoined
  | StartSelfInvite
  | StartChallenge (question : text)
  | StartBlocked.

(** [cmd_start]; [arg] is [context.args[0]] when there is one. *)
Definition cmd_start (user_id : string) (arg : option string) (now : Q)
  (sample : list nat) : M start_reply :=
  init_user user_id now ;;;
  match arg with
  | None => ret StartWelcome
  | Some invite_code =>
      known <- gets invites ;;
      match known !! invite_code with
      | None => ret StartNoInvite
      | Some invite_data =>
          if negb (i_active invite_data) then ret StartDeactivated
          else
            parents <- gets relationships ;;
            if bool_decide (parents !! user_id = Some (i_inviter_id invite_data))
            then ret StartAlreadyJoined
            else if String.eqb (i_inviter_id invite_data) user_id
            then ret StartSelfInvite
            else
              question <- create_verification user_id invite_code now sample ;;
              match question with
              | Some q => ret (StartChallenge q)
              | None => ret StartBlocked
              end
      end
  end.

Inductive private_reply :=
  | PmAlreadyMember
  | PmEntry
  | PmLinkFailed
  | PmWrong (remaining : Z)
  | PmBlocked
  | PmActivity (leveled : bool).

(** [handle_private_message]; [link_ok] tells whether
    [create_chat_invite_link] returned ([false]: it raised, and the [except]
    branch answered). *)
Definition handle_private_message (user_id : string) (message : text)
  (now : Q) (link_ok : bool) (today : string) : M private_reply :=
  init_user user_id now ;;;
  let text := Text.strip message in
  verdict <- verify_answer user_id text now ;;
  let verified := verdict.1 in
  let truthy_code :=
    match verdict.2 with
    | Some code => negb (String.eqb code "")
    | None => false
    end in
  pending <- gets verifications ;;
  if verified && truthy_code then
    let invite_code := default ""%string verdict.2 in
    known <- gets invites ;;
    match known !! invite_code with
    | None => raise (KeyError invite_code)
    | Some invite_data =>
        parents <- gets relationships ;;
        match parents !! user_id with
        | Some _ => ret PmAlreadyMember
        | None =>
            if link_ok then
              modify (fun st =>
                set_invites
                  (<[invite_code :=
                       mk_invite (i_inviter_id invite_data)
                         (i_group_id invite_data) (i_created_at invite_data)
                         (i_active invite_data)
                         (i_total_uses invite_data + 1)
                         (i_used_by_list invite_data ++ [user_id])]>
                     (invites st)) st) ;;;
              modify (fun st =>
                set_relationships
                  (<[user_id := i_inviter_id invite_data]> (relationships st))
                  st) ;;;
              ret PmEntry
            else ret PmLinkFailed
        end
    end
  else if negb verified && bool_decide (is_Some (pending !! user_id)) then
    let remaining := (3 - default 0%Z (v_attempts <$> pending !! user_id))%Z in
    if (0 <? remaining)%Z then ret (PmWrong remaining) else ret PmBlocked
  else
    leveled <- track_activity user_id now today ;;
    ret (PmActivity leveled).

(** *** Sequences of operations

    The operations on the ledger: a wager is created ([cmd_wager]), accepted,
    cancelled or found expired ([handle_callback_query], and the sweep at
    the head of [cmd_wager]), a gift, a daily bonus, a join with its cascade,
    and a leave with its penalty.  What a handler answers, or that it raised,
    is dropped: the next operation starts from the state it left. *)
Inductive ledger_event :=
  | EvWager (challenger_id first_name : string) (arg : amount_arg) (now : Q)
  | EvCallback (user_id action wager_id : string) (now : Q) (coin : bool)
  | EvGift (giver_id : string) (recipient : option string) (arg : amount_arg)
      (now : Q)
  | EvDaily (user_id : string) (now : Q)
  | EvNewMembers (new_chat_members : list string) (now : Q)
  | EvMemberLeft (user_id : string) (now : Q).

Definition ledger_step (st : bot_data) (ev : ledger_event) : bot_data :=
  match ev with
  | EvWager challenger_id first_name arg now =>
      state_after (cmd_wager challenger_id first_name arg now) st
  | EvCallback user_id action wager_id now coin =>
      state_after (handle_callback_query user_id action wager_id now coin) st
  | EvGift giver_id recipient arg now =>
      state_after (cmd_gift giver_id recipient arg now) st
  | EvDaily user_id now => state_after (cmd_daily user_id now) st
  | EvNewMembers new_chat_members now =>
      state_after (handle_new_member new_chat_members now) st
  | EvMemberLeft user_id now => state_after (handle_member_left user_id now) st
  end.

Definition ledger_run (evs : list ledger_event) (st : bot_data) : bot_data :=
  foldl ledger_step st evs.

(** The two steps of redeeming an invite: [/start <code>], and the private
    message that answers the challenge. *)
Inductive redeem_event :=
  | EvStart (user_id : string) (arg : option string) (now : Q)
      (sample : list nat)
  | EvPrivateMessage (user_id : string) (message : text) (now : Q)
      (link_ok : bool) (today : string).

Definition redeem_step (st : bot_data) (ev : redeem_event) : bot_data :=
  match ev with
  | EvStart user_id arg now sample =>
      state_after (cmd_start user_id arg now sample) st
  | EvPrivateMessage user_id message now link_ok today =>
      state_after (handle_private_message user_id message now link_ok today) st
  end.

Definition redeem_run (evs : list redeem_event) (st : bot_data) : bot_data :=
  foldl redeem_step st evs.

End Loveliness.

(** *** Activity in groups *)

(** [handle_group_message]; [effective_user] is [None] for a message without
    an author. *)
Definition handle_group_message (pow095 : Q -> Q) (effective_user : option string)
  (now : Q) (today : string) : M bool :=
  match effective_user with
  | Some user_id =>
      init_user user_id now ;;;
      track_activity pow095 user_id now today
  | None => ret false
  end.

(** *** Invite links

    [generate_invite_code] hashes the clock and a random number: the code is
    an argument of the two commands.  Their writes to [invite_code] and
    [invites_sent] of the user entry, which cannot fail after [init_user],
    are to keys that are not in [user]. *)

Definition fresh_invite (user_id : string) (group_id : Z) (now : Q) : invite :=
  mk_invite user_id group_id now true 0 [].

(** The test of the loops of [cmd_invite] and [cmd_newinvite]; [group_id] is
    [update.effective_chat.id], which both sides of the comparison pass
    through [str]. *)
Definition own_active_invite (user_id : string) (group_id : Z)
  (invite_data : invite) : bool :=
  String.eqb (i_inviter_id invite_data) user_id
  && (i_group_id invite_data =? group_id)%Z
  && i_active invite_data.

Inductive invite_reply :=
  | InviteGroupOnly
  | InviteBlocked
  | InviteExisting (code : string) (total_uses : Z) (heat : Q) (streak : Z)
  | InviteCreated (code : string) (heat : Q).

(** [cmd_invite].  The loop stops at the first invite of the dict that
    passes the test; [if existing_code] is false for an empty code.  The dict
    is read in the order of [map_to_list], which is the order of the source's
    dict only up to a permutation: it matters when several invites pass the
    test, and no property below depends on it. *)
Definition cmd_invite (chat_type user_id : string) (group_id : Z) (now : Q)
  (code : string) : M invite_reply :=
  if bool_decide (chat_type ∈ ["private"; "channel"]%string) then
    ret InviteGroupOnly
  else
    init_user user_id now ;;;
    blocked <- is_blacklisted user_id now ;;
    if blocked then ret InviteBlocked
    else
      known <- gets invites ;;
      let found :=
        head (List.filter
                (fun entry => own_active_invite user_id group_id entry.2)
                (map_to_list known)) in
      match found with
      | Some (existing_code, invite_data) =>
          if negb (String.eqb existing_code "") then
            heat <- calculate_heat_score user_id now ;;
            user <- user_of user_id ;;
            ret (InviteExisting existing_code (i_total_uses invite_data) heat
                   (default 0%Z (invite_streak user)))
          else
            user_of user_id ;;;
            modify (fun st =>
              set_invites
                (<[code := fresh_invite user_id group_id now]> (invites st)) st) ;;;
            heat <- calculate_heat_score user_id now ;;
            ret (InviteCreated code heat)
      | None =>
          user_of user_id ;;;
          modify (fun st =>
            set_invites
              (<[code := fresh_invite user_id group_id now]> (invites st)) st) ;;;
          heat <- calculate_heat_score user_id now ;;
          ret (InviteCreated code heat)
      end.

Definition deactivated (invite_data : invite) : invite :=
  mk_invite (i_inviter_id invite_data) (i_group_id invite_data)
    (i_created_at invite_data) false (i_total_uses invite_data)
    (i_used_by_list invite_data).

Inductive newinvite_reply :=
  | NewInviteGroupOnly
  | NewInviteBlocked
  | NewInviteCreated (old_links : nat) (code : string).

(** [cmd_newinvite]: every invite that passes the test is marked inactive,
    then the new one is stored. *)
Definition cmd_newinvite (chat_type user_id : string) (group_id : Z) (now : Q)
  (code : string) : M newinvite_reply :=
  if bool_decide (chat_type ∈ ["private"; "channel"]%string) then
    ret NewInviteGroupOnly
  else
    init_user user_id now ;;;
    blocked <- is_blacklisted user_id now ;;
    if blocked then ret NewInviteBlocked
    else
      known <- gets invites ;;
      let old_links :=
        length (List.filter
                  (fun entry => own_active_invite user_id group_id entry.2)
                  (map_to_list known)) in
      modify (fun st =>
        set_invites
          ((fun invite_data =>
              if own_active_invite user_id group_id invite_data
              then deactivated invite_data else invite_data) <$> invites st)
          st) ;;;
      user_of user_id ;;;
      modify (fun st =>
        set_invites
          (<[code := fresh_invite user_id group_id now]> (invites st)) st) ;;;
      ret (NewInviteCreated old_links code).

(** *** Statistics and boards *)

Record stats := mk_stats {
  total_users : nat;
  total_invites : nat;
  successful_invites : nat;
  total_points : Q;
  total_messages : Z;
  active_wagers : nat
}.

(** [cmd_stats].  The count of successful invites reads [inv["used"]], a key
    that no invite has: the sum raises at the first invite. *)
Definition cmd_stats : M stats :=
  st <- gets (fun st => st) ;;
  match map_to_list (invites st) with
  | _ :: _ => raise (KeyError "used")
  | [] =>
      let accounts := (map_to_list (users st)).*2 in
      ret (mk_stats (size (users st)) (size (invites st)) 0
             (foldr Qplus 0 (lover_points <$> accounts))
             (foldr Z.add 0%Z (messages_sent <$> accounts))
             (size (pending_wagers st)))
  end.

Definition reset_points (u : user) : user :=
  set_wagers_lost 0
    (set_wagers_won 0
       (set_total_points_spent 0
          (set_total_points_earned 0 (set_lover_points 0 u)))).

(** [cmd_resetleaderboard] *)
Definition cmd_resetleaderboard : M unit :=
  modify (fun st => set_users (reset_points <$> users st) st).








(** The operations on invite links: a link is asked for ([cmd_invite]),
    replaced ([cmd_newinvite]) or redeemed (the two steps of
    [redeem_event]). *)
Inductive link_event :=
  | EvInvite (chat_type user_id : string) (group_id : Z) (now : Q)
      (code : string)
  | EvNewInvite (chat_type user_id : string) (group_id : Z) (now : Q)
      (code : string)
  | EvRedeem (ev : redeem_event).

Definition link_step (pow095 : Q -> Q) (st : bot_data) (ev : link_event)
  : bot_data :=
  match ev with
  | EvInvite chat_type user_id group_id now code =>
      state_after (cmd_invite chat_type user_id group_id now code) st
  | EvNewInvite chat_type user_id group_id now code =>
      state_after (cmd_newinvite chat_type user_id group_id now code) st
  | EvRedeem ev => redeem_step pow095 st ev
  end.

Definition link_run (pow095 : Q -> Q) (evs : list link_event) (st : bot_data)
  : bot_data :=
  foldl (link_step pow095) st evs.

End Roombot.

(** ** The refactored bot, where it differs

    [main.py] wires [handlers.py], [callbacks.py] and [message_handlers.py]
    over [user_manager.py] (a MySQL table of integer points, and a session
    cache) and [invite_manager.py].  Only the places that the properties
    below compare with [roombot.py] are embedded. *)

Module Modular.

(** The points of [CallbackHandlers._execute_wager_duel]:
    [(challenger_new_points, acceptor_new_points)] as stored, from the stored
    points of the two users (the challenger's after the escrow). *)
Definition execute_wager_duel (challenger_points acceptor_points : Z)
  (points : Q) (challenger_wins : bool) : Z * Z :=
  if challenger_wins then
    (py_int (inject_Z challenger_points + points * 2),
     py_int (inject_Z acceptor_points - points))
  else
    (py_int (inject_Z challenger_points),
     py_int (inject_Z acceptor_points + points)).

(** [InviteManager]: the invites, without their [group_id] and
    [created_at], which [use_invite] does not read, and the relationships
    (a [user_id] key is [str(user_id)], here the integer itself). *)
Record invite := mk_invite {
  inviter_id : Z;
  active : bool;
  total_uses : Z;
  used_by_list : list Z
}.

Record invite_manager := mk_invite_manager {
  invites : gmap string invite;
  relationships : gmap Z Z
}.

(** [InviteManager.use_invite] *)
Definition use_invite (invite_code : string) (user_id : Z)
  (self : invite_manager) : bool * invite_manager :=
  match invites self !! invite_code with
  | None => (false, self)
  | Some invite =>
      if bool_decide (user_id ∈ used_by_list invite) then (false, self)
      else
        (true,
         mk_invite_manager
           (<[invite_code := mk_invite (inviter_id invite) (active invite)
                               (total_uses invite + 1)
                               (used_by_list invite ++ [user_id])]>
              (invites self))
           (<[user_id := inviter_id invite]> (relationships self)))
  end.

End Modular.

(** ** [invite_manager.py]

    The three dicts of [InviteManager] and its methods.  [save_data] writes
    the dicts to a file and swallows what goes wrong: it leaves the object as
    it is.  A [user_id] key of [relationships] is [str(user_id)], here the
    integer itself; [time.time()] is the argument [now].  An invite and a
    wager have the keys that [create_invite] and [create_wager] give them. *)

Module InviteManager.

Record invite := mk_invite {
  inviter_id : Z;
  group_id : Z;
  created_at : Q;
  active : bool;
  total_uses : Z;
  used_by_list : list Z
}.

(** A wager as [create_wager] stores it: there is no ["wager_id"] key. *)
Record wager := mk_wager {
  challenger_id : Z;
  challenger_name : string;
  points : Q;
  expires_at : Q;
  accepted : bool
}.

Record invite_manager := mk_invite_manager {
  invites : gmap string invite;
  relationships : gmap Z Z;
  pending_wagers : gmap string wager
}.

Definition set_invites (v : gmap string invite) (self : invite_manager)
  : invite_manager :=
  mk_invite_manager v (relationships self) (pending_wagers self).

Definition set_relationships (v : gmap Z Z) (self : invite_manager)
  : invite_manager :=
  mk_invite_manager (invites self) v (pending_wagers self).

Definition set_pending_wagers (v : gmap string wager) (self : invite_manager)
  : invite_manager :=
  mk_invite_manager (invites self) (relationships self) v.

Definition initialize_data : invite_manager := mk_invite_manager ∅ ∅ ∅.

Definition set_active (v : bool) (invite_data : invite) : invite :=
  mk_invite (inviter_id invite_data) (group_id invite_data)
    (created_at invite_data) v (total_uses invite_data)
    (used_by_list invite_data).

Definition create_invite (invite_code : string) (inviter_id group_id : Z)
  (now : Q) (self : invite_manager) : bool * invite_manager :=
  (true,
   set_invites
     (<[invite_code := mk_invite inviter_id group_id now true 0 []]>
        (invites self)) self).

Definition get_invite (invite_code : string) (self : invite_manager)
  : option invite :=
  invites self !! invite_code.

(** [is_invite_active], as a condition: [None] counts as false. *)
Definition is_invite_active (invite_code : string) (self : invite_manager)
  : bool :=
  match get_invite invite_code self with
  | Some invite => active invite
  | None => false
  end.

Definition deactivate_invite (invite_code : string) (self : invite_manager)
  : bool * invite_manager :=
  match invites self !! invite_code with
  | Some invite =>
      (true,
       set_invites (<[invite_code := set_active false invite]> (invites self))
         self)
  | None => (false, self)
  end.

Definition use_invite (invite_code : string) (user_id : Z)
  (self : invite_manager) : bool * invite_manager :=
  match invites self !! invite_code with
  | None => (false, self)
  | Some invite =>
      if bool_decide (user_id ∈ used_by_list invite) then (false, self)
      else
        (true,
         set_relationships
           (<[user_id := inviter_id invite]> (relationships self))
           (set_invites
              (<[invite_code :=
                   mk_invite (inviter_id invite) (group_id invite)
                     (created_at invite) (active invite)
                     (total_uses invite + 1)
                     (used_by_list invite ++ [user_id])]> (invites self))
              self))
  end.

(** The test of [get_active_invite_for_user] and
    [deactivate_user_invites]. *)
Definition active_for (inviter group : Z) (invite_data : invite) : bool :=
  (inviter_id invite_data =? inviter)%Z && (group_id invite_data =? group)%Z
  && active invite_data.

(** [get_user_invites]: each invite with its code, in the order of the
    dict. *)
Definition get_user_invites (inviter : Z) (group : option Z)
  (self : invite_manager) : list (string * invite) :=
  List.filter
    (fun entry =>
       (inviter_id entry.2 =? inviter)%Z
       && match group with
          | None => true
          | Some g => (group_id entry.2 =? g)%Z
          end)
    (map_to_list (invites self)).

Definition get_active_invite_for_user (inviter group : Z)
  (self : invite_manager) : option string :=
  fst <$> head (List.filter (fun entry => active_for inviter group entry.2)
                  (map_to_list (invites self))).

Definition deactivate_user_invites (inviter group : Z) (self : invite_manager)
  : nat * invite_manager :=
  (length (List.filter (fun entry => active_for inviter group entry.2)
             (map_to_list (invites self))),
   set_invites
     ((fun invite =>
         if active_for inviter group invite then set_active false invite
         else invite) <$> invites self) self).

Definition get_inviter (user_id : Z) (self : invite_manager) : option Z :=
  relationships self !! user_id.

Definition get_invited_users (inviter : Z) (self : invite_manager) : list Z :=
  fst <$> List.filter (fun entry => (entry.2 =? inviter)%Z)
            (map_to_list (relationships self)).

Definition WAGER_EXPIRY : Q := 60.

Definition create_wager (wager_id : string) (challenger_id : Z)
  (challenger_name : string) (points : Q) (now : Q) (self : invite_manager)
  : bool * invite_manager :=
  (true,
   set_pending_wagers
     (<[wager_id := mk_wager challenger_id challenger_name points
                      (now + WAGER_EXPIRY) false]> (pending_wagers self))
     self).

Definition get_wager (wager_id : string) (self : invite_manager)
  : option wager :=
  pending_wagers self !! wager_id.

Definition accept_wager (wager_id : string) (self : invite_manager)
  : bool * invite_manager :=
  match pending_wagers self !! wager_id with
  | Some wager =>
      (true,
       set_pending_wagers
         (<[wager_id := mk_wager (challenger_id wager) (challenger_name wager)
                          (points wager) (expires_at wager) true]>
            (pending_wagers self)) self)
  | None => (false, self)
  end.

Definition remove_wager (wager_id : string) (self : invite_manager)
  : bool * invite_manager :=
  match pending_wagers self !! wager_id with
  | Some _ =>
      (true, set_pending_wagers (delete wager_id (pending_wagers self)) self)
  | None => (false, self)
  end.

(** [cleanup_expired_wagers]: the expired wagers, each with its id, are
    returned and deleted. *)
Definition cleanup_expired_wagers (now : Q) (self : invite_manager)
  : list (string * wager) * invite_manager :=
  let expired :=
    List.filter (fun entry => Qltb (expires_at entry.2) now)
      (map_to_list (pending_wagers self)) in
  (expired,
   set_pending_wagers
     (foldr (fun entry m => delete entry.1 m) (pending_wagers self) expired)
     self).

(** What [_handle_accept_wager] and [_execute_wager_duel] of [callbacks.py]
    do to the wagers when a duel is fought: [accept_wager(wager_id)], and at
    the end [remove_wager(wager["wager_id"] if "wager_id" in wager else "")],
    where [wager] is the stored dict, which has no such key. *)
Definition fight_duel (wager_id : string) (self : invite_manager)
  : invite_manager :=
  (remove_wager "" (accept_wager wager_id self).2).2.

End InviteManager.

(** ** [user_manager.py]

    [UserManager] holds the database and the session cache.  Of the table
    [users] the functions below read and write the column [Points], a whole
    number, by [TelegramID]; a query is taken to succeed.  Of a session they
    use the five keys of [session], which [get_or_create_user] creates with
    every session (['last_invite_success'] apart, which is set later).
    Floats are doubles ([Binary64]). *)

Module UserManager.

Inductive error :=
  | NameError (name : string)
  | TypeError.

Inductive result (A : Type) :=
  | Done (a : A)
  | Failed (e : error).
Arguments Done {A} a.
Arguments Failed {A} e.

Record session := mk_session {
  invites_successful : Z;
  invite_streak : Z;
  last_invite_success : option Q;
  total_points_earned : Q;
  milestones_reached : list Z
}.

Record user_manager := mk_user_manager {
  db : gmap Z Z;
  user_cache : gmap Z session
}.

Definition HEAT_DECAY_HOURS : Q := 24.

Definition get_user_session_data (telegram_id : Z) (self : user_manager)
  : option session :=
  user_cache self !! telegram_id.

(** [award_points]: nothing for a user without a session; [TypeError] when
    the user has no row ([None['points']]); else the sum goes to the
    database through [int()] and the session counts the points in full. *)
Definition award_points (telegram_id : Z) (points : Q) (self : user_manager)
  : result bool * user_manager :=
  match get_user_session_data telegram_id self with
  | None => (Done false, self)
  | Some user =>
      match db self !! telegram_id with
      | None => (Failed TypeError, self)
      | Some current_points =>
          let new_points :=
            Binary64.add (Binary64.of_int current_points) points in
          (Done true,
           mk_user_manager
             (<[telegram_id := py_int new_points]> (db self))
             (<[telegram_id :=
                  mk_session (invites_successful user) (invite_streak user)
                    (last_invite_success user)
                    (Binary64.add (total_points_earned user) points)
                    (milestones_reached user)]> (user_cache self)))
      end
  end.

(** [calculate_heat_score]; [now] is [time.time()]. *)
Definition calculate_heat_score (telegram_id : Z) (now : Q)
  (self : user_manager) : Q :=
  match get_user_session_data telegram_id self with
  | None => 0
  | Some user_session =>
      let last_success := default 0 (last_invite_success user_session) in
      let hours_since := Binary64.div (Binary64.sub now last_success) 3600 in
      if Qltb HEAT_DECAY_HOURS hours_since then 0
      else
        let base_heat := Binary64.of_int (invites_successful user_session) in
        let decay :=
          Binary64.div (Binary64.sub HEAT_DECAY_HOURS hours_since)
            HEAT_DECAY_HOURS in
        Binary64.round2 (Binary64.mul base_heat decay)
  end.

End UserManager.

(** ** [message_handlers.py]: milestones

    [_check_milestones] on the session of the inviter: [reached] is
    [inviter_session.get('milestones_reached', [])], to which the thresholds
    are appended, and [stored] is the entry of the session, written at each
    append.  The result is the entry and the thresholds for which an
    announcement is attempted. *)

Module MessageHandlers.

Definition MILESTONE_ANNOUNCES : list Z := [10; 25; 50; 100; 250; 500; 1000]%Z.

Fixpoint milestones_loop (successful : Z) (todo : list Z) (reached : list Z)
  (stored : option (list Z)) : option (list Z) * list Z :=
  match todo with
  | [] => (stored, [])
  | milestone :: todo' =>
      if (milestone <=? successful)%Z && negb (bool_decide (milestone ∈ reached))
      then
        let reached' := reached ++ [milestone] in
        let rest := milestones_loop successful todo' reached' (Some reached') in
        (rest.1, milestone :: rest.2)
      else milestones_loop successful todo' reached stored
  end.

Definition check_milestones (successful : Z) (stored : option (list Z))
  : option (list Z) * list Z :=
  milestones_loop successful MILESTONE_ANNOUNCES (default [] stored) stored.

(** *** Successful invites

    The handlers hold a [UserManager] and an [InviteManager].  The module
    imports [logging], [telegram], [config], [user_manager] and
    [invite_manager], and not [time]: the [time.time()] of
    [_process_successful_invite] raises [NameError]. *)

Record message_handlers := mk_message_handlers {
  user_manager : UserManager.user_manager;
  invite_manager : InviteManager.invite_manager
}.

Definition INVITE_BASE_POINTS : Q := 10.
Definition STREAK_BONUS_MULTIPLIER : Q := 1 # 10.

(** The [while] of [_award_cascade_points]; an id or a parent that is [0]
    or [None] is false.  The test is the source's: [fuel] only makes the
    recursion structural, [depth] growing by one in each round. *)
Fixpoint cascade_loop (fuel : nat) (current_id : Z) (current_points : Q)
  (depth : nat) (self : message_handlers)
  : UserManager.result unit * message_handlers :=
  match fuel with
  | O => (UserManager.Done tt, self)
  | S fuel' =>
      if negb (current_id =? 0)%Z
         && Qle_bool (Binary64.fl (1 # 100)) current_points
         && (depth <? 10)%nat
      then
        match UserManager.award_points current_id current_points
                (user_manager self) with
        | (UserManager.Failed e, um) =>
            (UserManager.Failed e, mk_message_handlers um (invite_manager self))
        | (UserManager.Done _, um) =>
            let self' := mk_message_handlers um (invite_manager self) in
            match InviteManager.get_inviter current_id (invite_manager self) with
            | Some parent_id =>
                if (parent_id =? 0)%Z then (UserManager.Done tt, self')
                else
                  cascade_loop fuel' parent_id (Binary64.div current_points 2)
                    (S depth) self'
            | None => (UserManager.Done tt, self')
            end
        end
      else (UserManager.Done tt, self)
  end.

(** [_award_cascade_points] *)
Definition award_cascade_points (user_id : Z) (base_points : Q)
  (self : message_handlers) : UserManager.result unit * message_handlers :=
  let current_points :=
    match UserManager.get_user_session_data user_id (user_manager self) with
    | Some user_session =>
        let streak := UserManager.invite_streak user_session in
        let streak_bonus :=
          Binary64.add 1
            (Binary64.mul (Binary64.of_int streak)
               (Binary64.fl STREAK_BONUS_MULTIPLIER)) in
        Binary64.mul base_points streak_bonus
    | None => base_points
    end in
  cascade_loop 10 user_id current_points 0 self.

(** [_check_milestones] on the handlers; what it sends is not kept. *)
Definition check_milestones_of (inviter_id : Z) (self : message_handlers)
  : message_handlers :=
  match UserManager.get_user_session_data inviter_id (user_manager self) with
  | None => self
  | Some inviter_session =>
      let checked :=
        check_milestones (UserManager.invites_successful inviter_session)
          (Some (UserManager.milestones_reached inviter_session)) in
      mk_message_handlers
        (UserManager.mk_user_manager (UserManager.db (user_manager self))
           (<[inviter_id :=
                UserManager.mk_session
                  (UserManager.invites_successful inviter_session)
                  (UserManager.invite_streak inviter_session)
                  (UserManager.last_invite_success inviter_session)
                  (UserManager.total_points_earned inviter_session)
                  (default [] checked.1)]>
              (UserManager.user_cache (user_manager self))))
        (invite_manager self)
  end.

(** [_process_successful_invite].  With a session the two counters are
    raised and the next line, [... = time.time()], raises; without one the
    cascade and the milestone check run, and the heat score and the welcome
    message change nothing. *)
Definition process_successful_invite (inviter_id : Z) (self : message_handlers)
  : UserManager.result unit * message_handlers :=
  match UserManager.get_user_session_data inviter_id (user_manager self) with
  | Some inviter_session =>
      (UserManager.Failed (UserManager.NameError "time"),
       mk_message_handlers
         (UserManager.mk_user_manager (UserManager.db (user_manager self))
            (<[inviter_id :=
                 UserManager.mk_session
                   (UserManager.invites_successful inviter_session + 1)
                   (UserManager.invite_streak inviter_session + 1)
                   (UserManager.last_invite_success inviter_session)
                   (UserManager.total_points_earned inviter_session)
                   (UserManager.milestones_reached inviter_session)]>
               (UserManager.user_cache (user_manager self))))
         (invite_manager self))
  | None =>
      match award_cascade_points inviter_id INVITE_BASE_POINTS self with
      | (UserManager.Failed e, self') => (UserManager.Failed e, self')
      | (UserManager.Done _, self') =>
          (UserManager.Done tt, check_milestones_of inviter_id self')
      end
  end.

End MessageHandlers.

(** * Vocabulary

    The predicates, plans and example stores the properties are stated
    with. *)

Import Roombot.

(** ** Stores *)

(** A store with one account. *)
Definition one_user (uid : string) (u : user) : bot_data :=
  set_users {[ uid := u ]} initialize_data.

(** ** Heat *)

(** An account with 5 successful invites, the last one 43200 seconds ago. *)
Definition warm_user : user :=
  set_last_invite_success (Some 1700000000)
    (set_invites_successful 5 (fresh_user 1700000000)).

(** The score for a gap of [gap] seconds since the last success. *)
Definition heat_after (gap : Q) (invites_successful : Z) : Q :=
  let hours_since := Binary64.div (Binary64.fl gap) 3600 in
  if Qltb 24 hours_since then 0
  else
    Binary64.round2
      (Binary64.mul (Binary64.of_int invites_successful)
         (Binary64.div (Binary64.sub 24 hours_since) 24)).

(** ** Milestones *)

(** Ten accounts that redeemed an invite of the account "1" and now join the
    group, one after the other. *)
Definition ten_members : list string :=
  ["m0"; "m1"; "m2"; "m3"; "m4"; "m5"; "m6"; "m7"; "m8"; "m9"]%string.

(** The store before they join: the inviter "1" as [init_user] creates it,
    and the ten parent pointers. *)
Definition before_tenth_invite : bot_data :=
  set_relationships (list_to_map ((fun m => (m, "1"%string)) <$> ten_members))
    (state_after (init_user "1" 1700000000) initialize_data).

(** Every threshold of [todo] that [successful] has passed is in
    [reached]. *)
Definition reached_all (successful : Z) (todo reached : list Z) : Prop :=
  forall m, m ∈ todo -> (m <= successful)%Z -> m ∈ reached.

(** ** Verification *)

(** [answer] is not the sequence of the challenge, as [verify_answer]
    compares them: stripped, spaces removed. *)
Definition wrong (verif : verification) (answer : text) : Prop :=
  Text.remove_spaces (Text.strip answer) <> Text.remove_spaces (v_answer verif).

(** The challenge after [n] more attempts. *)
Definition tried (n : Z) (verif : verification) : verification :=
  mk_verification (v_answer verif) (v_invite_code verif) (v_expires_at verif)
    (v_attempts verif + n).

(** A pending challenge with two attempts made, for the account "7". *)
Definition stale_challenge : verification :=
  mk_verification (concat (sampled [0; 1; 2; 3]%nat)) "LOVE0001" 1700000200 2.

(** The account "7" with the pending challenge [verif]. *)
Definition challenged (verif : verification) : bot_data :=
  set_verifications {[ "7"%string := verif ]}
    (one_user "7" (fresh_user 1700000000)).

(** A challenge as issued: no attempt made yet. *)
Definition issued_challenge : verification :=
  mk_verification (concat (sampled [0; 1; 2; 3]%nat)) "LOVE0001" 1700000300 0.

(** The positions of the palette that an answer is made of, read off the
    first code points of the symbols. *)
Definition drawn_of (answer : text) : list nat :=
  omap (fun c => fst <$> list_find (fun symbol => head symbol = Some c) emojis)
    answer.

(** ** Reading the monad *)

(** Run from [st], [m] returns a value and a store in [Q], or raises and
    leaves a store in [E]. *)
Definition wp {A} (m : M A) (Q : A -> bot_data -> Prop) (E : bot_data -> Prop)
  (st : bot_data) : Prop :=
  match m st with
  | (Ok a, st') => Q a st'
  | (Raise _, st') => E st'
  end.

(** The same from every store in [P]. *)
Definition triple {A} (P : bot_data -> Prop) (m : M A)
  (Q : A -> bot_data -> Prop) (E : bot_data -> Prop) : Prop :=
  forall st, P st -> wp m Q E st.

(** [m] keeps [P], whether it returns or raises. *)
Definition keeps {A} (P : bot_data -> Prop) (m : M A) : Prop :=
  triple P m (fun _ => P) P.

(** ** The cascade *)

(** The awards the walk makes, read off the parent map: the test of the
    loop, without the store. *)
Fixpoint cascade_plan (parents : gmap string string) (fuel : nat)
  (current_id : string) (current_points : Q) (depth : nat) (streak_bonus : Q)
  : list award :=
  match fuel with
  | O => []
  | S fuel' =>
      if negb (String.eqb current_id "")
         && Qle_bool (1 # 100) current_points
         && (depth <? 10)%nat
      then
        mk_award current_id current_points depth streak_bonus ::
        match parents !! current_id with
        | Some parent =>
            cascade_plan parents fuel' parent (current_points / 2) (S depth) 1
        | None => []
        end
      else []
  end.

(** One award booked on the account and logged. *)
Definition credit (p : Q) (u : user) : user :=
  set_total_points_earned (total_points_earned u + p)
    (set_lover_points (lover_points u + p) u).

(** The store after one award: the credit and the log entry of
    [award_points]. *)
Definition pay_one (st : bot_data) (a : award) : bot_data :=
  match users st !! award_to a with
  | Some u =>
      set_award_log (award_log st ++ [a])
        (set_users (<[award_to a := credit (award_points_of a) u]> (users st)) st)
  | None => st
  end.

(** The store after the awards of a plan, in order. *)
Definition pay (plan : list award) (st : bot_data) : bot_data :=
  foldl pay_one st plan.

(** The [k]-th ancestor, the account itself being the 0-th. *)
Fixpoint ancestor (parents : gmap string string) (k : nat) (id : string)
  : option string :=
  match k with
  | O => Some id
  | S k' =>
      match parents !! id with
      | Some parent => ancestor parents k' parent
      | None => None
      end
  end.

(** [k] halvings. *)
Definition halved (k : nat) (p : Q) : Q := Nat.iter k (fun q => q / 2) p.

(** What a plan pays to one account. *)
Definition sum_to (r : string) (plan : list award) : Q :=
  foldr (fun a acc => if String.eqb (award_to a) r then award_points_of a + acc else acc)
    0 plan.

(** A chain of five accounts: "5" invited "4", who invited "3", and so on
    down to "1". *)
Definition chain5 : bot_data :=
  set_relationships
    (list_to_map [("1", "2"); ("2", "3"); ("3", "4"); ("4", "5")]%string)
    (set_users
       (list_to_map
          ((fun id => (id, fresh_user 1700000000)) <$> ["1"; "2"; "3"; "4"; "5"]%string))
       initialize_data).

(** ** Invite streaks *)

(** What the later steps of a join leave alone: the streak and the time of
    the inviter, and the awards already logged. *)
Definition streak_kept (inviter : string) (streak : Z) (now : Q)
  (logged : list award) (st : bot_data) : Prop :=
  (exists u, users st !! inviter = Some u
     /\ invite_streak u = Some streak /\ last_invite_success u = Some now)
  /\ exists rest, award_log st = logged ++ rest.

(** An update that leaves the streak and its time alone. *)
Definition leaves_streak (f : user -> user) : Prop :=
  forall u, invite_streak (f u) = invite_streak u
            /\ last_invite_success (f u) = last_invite_success u.

(** An inviter on a streak of 2, whose last success is one hour old. *)
Definition streaky : user :=
  set_last_invite_success (Some 1700000000)
    (set_invite_streak (Some 2%Z) (fresh_user 1700000000)).

(** The inviter, and a member "m0" who redeemed an invite of theirs. *)
Definition joining : bot_data :=
  set_relationships {[ "m0"%string := "1"%string ]} (one_user "1" streaky).

(** ** The ledger *)

(** An account in order: no negative balance, level or day count. *)
Definition user_ok (u : user) : Prop :=
  0 <= lover_points u /\ (0 <= level u)%Z /\ (0 <= days_active u)%Z.

(** A store in order: every account is, and no open wager has a negative
    stake. *)
Definition ledger_ok (st : bot_data) : Prop :=
  map_Forall (fun _ u => user_ok u) (users st)
  /\ map_Forall (fun _ w => 0 <= w_points w) (pending_wagers st).

(** An update that keeps an account in order. *)
Definition keeps_user_ok (f : user -> user) : Prop :=
  forall u, user_ok u -> user_ok (f u).

(** [uid] holds at least [p]. *)
Definition holds (uid : string) (p : Q) (st : bot_data) : Prop :=
  exists u, users st !! uid = Some u /\ p <= lover_points u.

(** A store in order in which [uid] holds at least [p]: the state between
    the check of a debit and the debit. *)
Definition ledger_held (uid : string) (p : Q) (st : bot_data) : Prop :=
  ledger_ok st /\ holds uid p st.

(** An update that takes no points. *)
Definition takes_nothing (f : user -> user) : Prop :=
  forall u, lover_points u <= lover_points (f u).

(** A callback in which the coin, if it comes to a duel, names the
    challenger. *)
Definition spares_challenger (ev : ledger_event) : Prop :=
  match ev with
  | EvCallback _ _ _ _ coin => coin = true
  | _ => True
  end.

(** The power is not reached while nobody has been away for more than seven
    days, as in the runs below. *)
Definition no_decay (x : Q) : Q := 1.

(** Two daily bonuses of 12 points, a wager of all 12, and the acceptor
    wins. *)
Definition overdrawn_run : list ledger_event :=
  [ EvDaily "1" 1700000000;
    EvDaily "2" 1700000000;
    EvWager "1" "Ann" (Amount 12) 1700000100;
    EvCallback "2" "accept" "wager_1700000100_1" 1700000110 false ].

(** "m0" redeemed an invite of "1"; nobody has an account yet. *)
Definition redeemed : bot_data :=
  set_relationships {[ "m0"%string := "1"%string ]} initialize_data.

(** A daily bonus for "2", who then gives a fifth of a point to "1". *)
Definition small_gift_run : list ledger_event :=
  [ EvDaily "2" 1700000000;
    EvGift "2" (Some "1"%string) (Amount (1 # 5)) 1700000100 ].

(** The balance of [uid] is [p]. *)
Definition points_are (uid : string) (p : Q) (st : bot_data) : Prop :=
  exists u, users st !! uid = Some u /\ lover_points u == p.

(** Two daily bonuses, a wager of all 12 points, and the challenger wins. *)
Definition challenger_wins_run : list ledger_event :=
  [ EvDaily "1" 1700000000;
    EvDaily "2" 1700000000;
    EvWager "1" "Ann" (Amount 12) 1700000100;
    EvCallback "2" "accept" "wager_1700000100_1" 1700000110 true ].

(** ** Settlement *)

(** The balances of the two sides of a duel. *)
Definition both (c : string) (x : Q) (a : string) (y : Q) (st : bot_data) : Prop :=
  points_are c x st /\ points_are a y st.


(** Two daily bonuses of 12 points, a wager of 5, and the acceptor wins. *)
Definition acceptor_wins_run : list ledger_event :=
  [ EvDaily "1" 1700000000;
    EvDaily "2" 1700000000;
    EvWager "1" "Ann" (Amount 5) 1700000100;
    EvCallback "2" "accept" "wager_1700000100_1" 1700000110 false ].

(** ** The referral graph *)

(** No account is its own parent, and every pending challenge is for an
    invite that exists and belongs to somebody else. *)
Definition redeem_ok (st : bot_data) : Prop :=
  (forall u, relationships st !! u <> Some u)
  /\ (forall u v, verifications st !! u = Some v ->
        exists inv, invites st !! v_invite_code v = Some inv
                    /\ i_inviter_id inv <> u).

(** [redeem_ok], with the parents of [parents0] still in place. *)
Definition redeem_inv (parents0 : gmap string string) (st : bot_data) : Prop :=
  redeem_ok st /\ parents0 ⊆ relationships st.

(** The part of the store that redeeming is about. *)
Definition same_graph (st0 st : bot_data) : Prop :=
  invites st = invites st0
  /\ verifications st = verifications st0
  /\ relationships st = relationships st0.

(** Two accounts with an invite each. *)
Definition two_inviters : bot_data :=
  set_invites
    (list_to_map
       [ ("LOVEAAAA"%string, mk_invite "1" (-100) 1700000000 true 0 []);
         ("LOVEBBBB"%string, mk_invite "2" (-100) 1700000000 true 0 []) ])
    initialize_data.

(** Each of them redeems the invite of the other. *)
Definition first_redeems : list redeem_event :=
  [ EvStart "1" (Some "LOVEBBBB"%string) 1700000100 [0; 1; 2; 3]%nat;
    EvPrivateMessage "1" (concat (sampled [0; 1; 2; 3]%nat)) 1700000110 true
      "2023-11-14" ].

(** And the other way round. *)
Definition second_redeems : list redeem_event :=
  [ EvStart "2" (Some "LOVEAAAA"%string) 1700000200 [4; 5; 6; 7]%nat;
    EvPrivateMessage "2" (concat (sampled [4; 5; 6; 7]%nat)) 1700000210 true
      "2023-11-14" ].

(** ** Wagers, gifts and bonuses *)

(** Two accounts that claimed one daily bonus each: 12 points on both. *)
Definition two_savers : bot_data :=
  ledger_run no_decay [EvDaily "1" 1700000000; EvDaily "2" 1700000000]
    initialize_data.




(** "2" claims a bonus and gives 6 points to "1", who has no other income
    and wagers 5. *)
Definition gifted_challenger : bot_data :=
  ledger_run no_decay
    [ EvDaily "2" 1700000000;
      EvGift "2" (Some "1"%string) (Amount 6) 1700000050;
      EvWager "1" "Ann" (Amount 5) 1700000100 ]
    initialize_data.

(** The answers of [handle_callback_query] that refuse the button. *)
Definition refusal (reply : callback_reply) : bool :=
  match reply with
  | CbGone | CbOwnDuel | CbAlreadyAccepted | CbNotChallenger | CbNoAction => true
  | CbNeedPoints _ => true
  | _ => false
  end.

(** ** Challenges and cascades *)

(** A word of a challenge: not empty, and without white space. *)
Definition symbol_ok (w : text) : Prop :=
  w <> [] /\ Forall (fun c => Text.isspace c = false) w.

(** A text that begins and ends with something else than white space. *)
Definition trimmed (t : text) : Prop :=
  (exists c t', t = c :: t' /\ Text.isspace c = false)
  /\ (exists t' c, t = t' ++ [c] /\ Text.isspace c = false).

(** A visitor with an account, and the two invites of [two_inviters]. *)
Definition visitor : bot_data :=
  set_users {[ "7"%string := fresh_user 1700000000 ]} two_inviters.

(** What a plan pays in all. *)
Definition total_awarded (plan : list award) : Q :=
  foldr (fun a total => award_points_of a + total) 0 plan.

(** ** Repeated level-ups *)

(** [n] calls of [check_level_up], one after the other. *)
Definition level_up_calls (n : nat) (uid : string) (st : bot_data) : bot_data :=
  Nat.iter n (state_after (check_level_up uid)) st.

(** ** Invite links *)

(** An invite that [cmd_newinvite] has not switched off. *)
Definition relinked (user_id : string) (group_id : Z) (invite_data : invite)
  : invite :=
  if own_active_invite user_id group_id invite_data
  then deactivated invite_data else invite_data.

(** No invite is stored under the empty code, and nobody has two active
    invites for the same group. *)
Definition links_ok (links : gmap string invite) : Prop :=
  links !! ""%string = None
  /\ forall c1 c2 i1 i2,
       links !! c1 = Some i1 -> links !! c2 = Some i2 ->
       i_active i1 = true -> i_active i2 = true ->
       i_inviter_id i1 = i_inviter_id i2 -> i_group_id i1 = i_group_id i2 ->
       c1 = c2.

(** Who an invite is from, for which group, and whether it is active. *)
Definition link_core (invite_data : invite) : string * Z * bool :=
  (i_inviter_id invite_data, i_group_id invite_data, i_active invite_data).

Definition same_links (links0 links : gmap string invite) : Prop :=
  forall c, link_core <$> links !! c = link_core <$> links0 !! c.

(** An event whose new code, if one is made, is not empty. *)
Definition sound_code (ev : link_event) : Prop :=
  match ev with
  | EvInvite _ _ _ _ code | EvNewInvite _ _ _ _ code => code <> ""%string
  | EvRedeem _ => True
  end.

(** The links of [st] are those of [links0], up to their use counts. *)
Definition links_like (links0 : gmap string invite) (st : bot_data) : Prop :=
  same_links links0 (invites st).

(** Two accounts, and the same with a link of "1" for the group -100. *)
Definition two_members : bot_data :=
  set_users
    (list_to_map
       [ ("1"%string, fresh_user 1700000000);
         ("7"%string, fresh_user 1700000000) ])
    initialize_data.

Definition linked : bot_data :=
  set_invites {[ "LOVEAAAA"%string := fresh_invite "1" (-100) 1700000000 ]}
    two_members.

(** ** Leaderboards *)


(** ** The invite manager *)

(** Each invite of the manager counts the users on its list. *)
Definition uses_counted (self : InviteManager.invite_manager) : Prop :=
  map_Forall
    (fun _ invite_data =>
       InviteManager.total_uses invite_data
       = Z.of_nat (length (InviteManager.used_by_list invite_data)))
    (InviteManager.invites self).

(** A manager with one open wager of user 1. *)
Definition one_wager : InviteManager.invite_manager :=
  (InviteManager.create_wager "wager_1700000100_1" 1 "Ann" 5 1700000100
     InviteManager.initialize_data).2.

(** ** The refactored handlers *)

(** Five users with a row at 0 points and a fresh session each; 2 invited
    1, 3 invited 2, 4 invited 3 and 5 invited 4. *)
Definition five_sessions : MessageHandlers.message_handlers :=
  MessageHandlers.mk_message_handlers
    (UserManager.mk_user_manager
       (list_to_map ((fun telegram_id => (telegram_id, 0%Z)) <$> [1; 2; 3; 4; 5]%Z))
       (list_to_map
          ((fun telegram_id => (telegram_id, UserManager.mk_session 0 0 None 0 []))
             <$> [1; 2; 3; 4; 5]%Z)))
    (InviteManager.mk_invite_manager ∅
       (list_to_map [(1, 2); (2, 3); (3, 4); (4, 5)]%Z) ∅).

(** The same, but user 1 has no session (the cache is empty after a
    restart, and a session is made when the user writes or joins). *)
Definition four_sessions : MessageHandlers.message_handlers :=
  MessageHandlers.mk_message_handlers
    (UserManager.mk_user_manager
       (UserManager.db (MessageHandlers.user_manager five_sessions))
       (delete 1%Z
          (UserManager.user_cache (MessageHandlers.user_manager five_sessions))))
    (MessageHandlers.invite_manager five_sessions).

(** One user with seven invites and a streak of 4, the last success at
    1700000000. *)
Definition stale_streak : MessageHandlers.message_handlers :=
  MessageHandlers.mk_message_handlers
    (UserManager.mk_user_manager {[ 1%Z := 0%Z ]}
       {[ 1%Z := UserManager.mk_session 7 4 (Some 1700000000) 0 [] ]})
    InviteManager.initialize_data.

(** The session of [telegram_id] has counted [points] as earned. *)
Definition session_earned (telegram_id : Z) (points : Q)
  (self : MessageHandlers.message_handlers) : Prop :=
  exists user_session,
    UserManager.user_cache (MessageHandlers.user_manager self) !! telegram_id
    = Some user_session
    /\ UserManager.total_points_earned user_session == points.

(** * Properties *)

(** ** Numbers *)

Module NumFacts.

Lemma Qltb_lt (a b : Q) : Qltb a b = true <-> a < b.
Proof.
  unfold Qltb. rewrite negb_true_iff.
  destruct (Qle_bool b a) eqn:E.
  - apply Qle_bool_iff in E. split; [discriminate | intros; lra].
  - split; [intros _ | reflexivity].
    destruct (Qlt_le_dec a b) as [H | H]; [exact H |].
    apply Qle_bool_iff in H. congruence.
Qed.

Lemma Qltb_ge (a b : Q) : Qltb a b = false <-> b <= a.
Proof.
  unfold Qltb. rewrite negb_false_iff. apply Qle_bool_iff.
Qed.

Lemma Qle_bool_false (a b : Q) : Qle_bool a b = false <-> b < a.
Proof.
  rewrite <- (Qltb_lt b a). unfold Qltb.
  destruct (Qle_bool a b); simpl; split; congruence.
Qed.

Lemma max0_nonneg (q : Q) : 0 <= max0 q.
Proof.
  unfold max0. destruct (Qle_bool 0 q) eqn:E; [| lra].
  now apply Qle_bool_iff.
Qed.

Lemma round_half_even_comp (p q : Q) :
  p == q -> round_half_even p = round_half_even q.
Proof.
  intros E. unfold round_half_even.
  rewrite (Qfloor_comp _ _ E).
  assert (p - inject_Z (Qfloor q) == q - inject_Z (Qfloor q)) as E'.
  { rewrite E. reflexivity. }
  now rewrite (Qcompare_comp _ _ E' (1 # 2) (1 # 2) (Qeq_refl _)).
Qed.

Lemma round2_comp (p q : Q) : p == q -> round2 p = round2 q.
Proof.
  intros E. unfold round2.
  rewrite (round_half_even_comp (p * 100) (q * 100)); [reflexivity |].
  rewrite E. reflexivity.
Qed.

Lemma round_half_even_nonneg (q : Q) : 0 <= q -> (0 <= round_half_even q)%Z.
Proof.
  intros H. unfold round_half_even.
  assert (0 <= Qfloor q)%Z as Hf.
  { change 0%Z with (Qfloor 0). now apply Qfloor_resp_le. }
  destruct (Qcompare _ _); [destruct (Z.even _) | |]; lia.
Qed.

Lemma round2_nonneg (q : Q) : 0 <= q -> 0 <= round2 q.
Proof.
  intros H. unfold round2.
  assert (0 <= round_half_even (q * 100))%Z as Hr.
  { apply round_half_even_nonneg. nra. }
  unfold Qle. simpl. lia.
Qed.

End NumFacts.

Import NumFacts.

(** ** Rounding *)

Lemma round_half_even_bounds (q : Q) :
  (Qfloor q <= round_half_even q <= Qfloor q + 1)%Z.
Proof.
  unfold round_half_even.
  destruct (Qcompare _ _); [destruct (Z.even _) | |]; lia.
Qed.

Ltac of_compare H :=
  match type of H with
  | Qcompare _ _ = Eq => apply Qeq_alt in H
  | Qcompare _ _ = Lt => apply Qlt_alt in H
  | Qcompare _ _ = Gt => apply Qgt_alt in H
  end.

Lemma round_half_even_mono (p q : Q) :
  p <= q -> (round_half_even p <= round_half_even q)%Z.
Proof.
  intros Hle. pose proof (Qfloor_resp_le _ _ Hle) as Hf.
  destruct (Z.eq_dec (Qfloor p) (Qfloor q)) as [Heq | Hne].
  - unfold round_half_even. rewrite Heq.
    destruct (Qcompare (p - inject_Z (Qfloor q)) (1 # 2)) eqn:Ep;
      destruct (Qcompare (q - inject_Z (Qfloor q)) (1 # 2)) eqn:Eq;
      try (destruct (Z.even (Qfloor q))); try lia;
      of_compare Ep; of_compare Eq; exfalso; generalize dependent (inject_Z (Qfloor q)); intros; lra.
  - pose proof (round_half_even_bounds p). pose proof (round_half_even_bounds q).
    lia.
Qed.

Lemma round2_mono (p q : Q) : p <= q -> round2 p <= round2 q.
Proof.
  intros Hle. unfold round2.
  assert (p * 100 <= q * 100) as H by lra.
  apply round_half_even_mono in H. unfold Qle. simpl. lia.
Qed.

Lemma round_half_even_inject_Z (n : Z) : round_half_even (inject_Z n) = n.
Proof.
  unfold round_half_even. rewrite Qfloor_Z.
  destruct (Qcompare (inject_Z n - inject_Z n) (1 # 2)) eqn:E; [| reflexivity |];
    of_compare E; generalize dependent (inject_Z n); intros; lra.
Qed.

Lemma round2_inject_Z (n : Z) : round2 (inject_Z n) == inject_Z n.
Proof.
  unfold round2.
  rewrite (round_half_even_comp (inject_Z n * 100) (inject_Z (n * 100))).
  - rewrite round_half_even_inject_Z. unfold Qeq. simpl. lia.
  - rewrite inject_Z_mult. reflexivity.
Qed.

(** The nearest integer is at most a half away, and even at a tie. *)
Lemma round_half_even_near (q : Q) :
  Qabs (inject_Z (round_half_even q) - q) <= 1 # 2
  /\ (Qabs (inject_Z (round_half_even q) - q) == 1 # 2 ->
      Z.even (round_half_even q) = true).
Proof.
  pose proof (Qfloor_le q) as Hlo. pose proof (Qlt_floor q) as Hhi.
  rewrite inject_Z_plus in Hhi. unfold round_half_even.
  destruct (Qcompare (q - inject_Z (Qfloor q)) (1 # 2)) eqn:E; of_compare E;
    [destruct (Z.even (Qfloor q)) eqn:Ev | |];
    rewrite ?inject_Z_plus, ?Z.even_add, ?Ev;
    change (inject_Z 1) with 1 in *;
    generalize dependent (inject_Z (Qfloor q)); intros f; intros;
    (split; [apply Qabs_Qle_condition; split; lra |]);
    intros Habs; try reflexivity; exfalso.
  - rewrite Qabs_neg in Habs by lra. lra.
  - rewrite Qabs_pos in Habs by lra. lra.
Qed.

(** ** Binary64 *)

Module Binary64Facts.

Import Binary64.

Lemma pow2_pos (e : Z) : 0 < 2 ^ e.
Proof. apply Qpower_0_lt. reflexivity. Qed.

Lemma pow2_plus (a b : Z) : 2 ^ (a + b) == 2 ^ a * 2 ^ b.
Proof. apply Qpower_plus. discriminate. Qed.

Lemma pow2_le (a b : Z) : (a <= b)%Z -> 2 ^ a <= 2 ^ b.
Proof.
  intros H. replace b with (a + (b - a))%Z by lia. rewrite pow2_plus.
  assert (1 <= 2 ^ (b - a)) as H1 by (apply Qpower_1_le; [discriminate | lia]).
  pose proof (pow2_pos a). nra.
Qed.

Lemma pow2_inject (n : Z) : (0 <= n)%Z -> inject_Z (2 ^ n) == 2 ^ n.
Proof. intros H. now rewrite Zpower_Qpower. Qed.

Lemma exponent_min (q : Q) : (-1074 <= exponent q)%Z.
Proof. unfold exponent. lia. Qed.

Lemma exponent_mono (p q : Q) : p <= q -> (exponent p <= exponent q)%Z.
Proof.
  intros H. unfold exponent.
  assert (p * 2 ^ 1074 <= q * 2 ^ 1074) as Hs.
  { pose proof (pow2_pos 1074). nra. }
  apply Qfloor_resp_le in Hs. apply Z.log2_le_mono in Hs. lia.
Qed.

Lemma exponent_comp (p q : Q) : p == q -> exponent p = exponent q.
Proof.
  intros E. unfold exponent.
  rewrite (Qfloor_comp (p * 2 ^ 1074) (q * 2 ^ 1074)); [reflexivity |].
  now rewrite E.
Qed.

(** The significand is below [2^53]. *)
Lemma exponent_upper (q : Q) : q / 2 ^ exponent q < 2 ^ 53.
Proof.
  set (N := Qfloor (q * 2 ^ 1074)). set (L := Z.log2 N).
  assert (0 <= L)%Z as HL by apply Z.log2_nonneg.
  assert (N + 1 <= 2 ^ (L + 1))%Z as HN.
  { destruct (Z_lt_le_dec 0 N) as [Hpos | Hneg].
    - pose proof (Z.log2_spec N Hpos). fold L in H. lia.
    - assert (0 < 2 ^ (L + 1))%Z by (apply Z.pow_pos_nonneg; lia).
      lia. }
  assert (q * 2 ^ 1074 < 2 ^ (L + 1)) as Hq.
  { pose proof (Qlt_floor (q * 2 ^ 1074)) as Hlt. fold N in Hlt.
    rewrite <- (pow2_inject (L + 1)) by lia.
    eapply Qlt_le_trans; [exact Hlt |]. rewrite <- Zle_Qle. exact HN. }
  assert (L - 1126 <= exponent q)%Z as He by (unfold exponent; fold N L; lia).
  pose proof (pow2_pos (exponent q)) as Hpe.
  apply Qlt_shift_div_r; [exact Hpe |].
  assert (2 ^ (L + 1) == 2 ^ 1074 * (2 ^ 53 * 2 ^ (L - 1126))) as E.
  { rewrite <- !pow2_plus. apply Qpower_comp; [reflexivity | lia]. }
  rewrite E, (Qmult_comm q) in Hq. pose proof (pow2_le _ _ He) as Hle.
  apply Qmult_lt_l in Hq; [| apply pow2_pos].
  eapply Qlt_le_trans; [exact Hq |].
  apply Qmult_le_l; [apply pow2_pos | exact Hle].
Qed.

(** Above the subnormals the significand is at least [2^52]. *)
Lemma exponent_lower (q : Q) :
  (-1074 < exponent q)%Z -> 2 ^ 52 <= q / 2 ^ exponent q.
Proof.
  intros Hn. set (N := Qfloor (q * 2 ^ 1074)) in *. set (L := Z.log2 N) in *.
  assert (exponent q = L - 1126)%Z as He by (unfold exponent in *; fold N L in Hn |- *; lia).
  assert (0 < N)%Z as Hpos.
  { destruct (Z_lt_le_dec 0 N) as [H | H]; [exact H |].
    exfalso. unfold L in He. rewrite Z.log2_nonpos in He by exact H. lia. }
  pose proof (Z.log2_spec N Hpos) as [Hlo _]. fold L in Hlo.
  assert (0 <= L)%Z as HL by apply Z.log2_nonneg.
  assert (2 ^ L <= q * 2 ^ 1074) as Hq.
  { rewrite <- (pow2_inject L) by lia.
    eapply Qle_trans; [| apply Qfloor_le]. rewrite <- Zle_Qle. exact Hlo. }
  rewrite He. pose proof (pow2_pos (L - 1126)) as Hpe.
  apply Qle_shift_div_l; [exact Hpe |].
  assert (2 ^ L == 2 ^ 1074 * (2 ^ 52 * 2 ^ (L - 1126))) as E.
  { rewrite <- !pow2_plus. apply Qpower_comp; [reflexivity | lia]. }
  rewrite E, (Qmult_comm q) in Hq.
  apply Qmult_le_l in Hq; [exact Hq | apply pow2_pos].
Qed.

Lemma fl_comp (p q : Q) : p == q -> fl p == fl q.
Proof.
  intros E. unfold fl.
  rewrite (exponent_comp (Qabs p) (Qabs q)) by (now rewrite E).
  rewrite (round_half_even_comp (p / 2 ^ exponent (Qabs q))
             (q / 2 ^ exponent (Qabs q))) by (now rewrite E).
  reflexivity.
Qed.

Lemma fl_nonneg (q : Q) : 0 <= q -> 0 <= fl q.
Proof.
  intros H. unfold fl. pose proof (pow2_pos (exponent (Qabs q))) as Hp.
  assert (0 <= q / 2 ^ exponent (Qabs q)) as Hs.
  { apply Qle_shift_div_l; [exact Hp | rewrite Qmult_0_l; exact H]. }
  apply round_half_even_nonneg in Hs. rewrite Zle_Qle in Hs.
  apply Qmult_le_0_compat; [exact Hs | apply Qlt_le_weak, Hp].
Qed.

Lemma fl_zero (q : Q) : q == 0 -> fl q == 0.
Proof. intros E. rewrite (fl_comp _ _ E). reflexivity. Qed.

(** Rounding keeps the order of non-negative numbers. *)
Lemma fl_mono (p q : Q) : 0 <= p -> p <= q -> fl p <= fl q.
Proof.
  intros Hp Hle. unfold fl.
  rewrite (exponent_comp (Qabs p) p) by (apply Qabs_pos; exact Hp).
  rewrite (exponent_comp (Qabs q) q) by (apply Qabs_pos; lra).
  pose proof (exponent_mono _ _ Hle) as He.
  pose proof (pow2_pos (exponent p)) as Hpp.
  pose proof (pow2_pos (exponent q)) as Hpq.
  destruct (Z.eq_dec (exponent p) (exponent q)) as [Eq | Hne].
  - rewrite Eq.
    assert (p / 2 ^ exponent q <= q / 2 ^ exponent q) as Hs.
    { apply Qmult_le_compat_r; [exact Hle |].
      apply Qlt_le_weak, Qinv_lt_0_compat, Hpq. }
    apply round_half_even_mono in Hs. rewrite Zle_Qle in Hs.
    apply Qmult_le_compat_r; [exact Hs | apply Qlt_le_weak, Hpq].
  - assert (exponent p + 1 <= exponent q)%Z as Hlt by lia.
    pose proof (exponent_min p) as Hmin.
    assert (-1074 < exponent q)%Z as Hn by lia.
    pose proof (exponent_lower q Hn) as Hlo.
    pose proof (exponent_upper p) as Hup.
    assert (inject_Z (2 ^ 52) <= inject_Z (round_half_even (q / 2 ^ exponent q)))
      as Hrq.
    { rewrite <- Zle_Qle. rewrite <- (round_half_even_inject_Z (2 ^ 52)).
      apply round_half_even_mono. rewrite pow2_inject by lia. exact Hlo. }
    assert (inject_Z (round_half_even (p / 2 ^ exponent p)) <= inject_Z (2 ^ 53))
      as Hrp.
    { rewrite <- Zle_Qle. rewrite <- (round_half_even_inject_Z (2 ^ 53)).
      apply round_half_even_mono. rewrite pow2_inject by lia. lra. }
    pose proof (pow2_le _ _ Hlt) as Hpl. rewrite pow2_plus in Hpl.
    change (2 ^ 1) with 2 in Hpl.
    change (inject_Z (2 ^ 52)) with 4503599627370496 in Hrq.
    change (inject_Z (2 ^ 53)) with 9007199254740992 in Hrp.
    generalize dependent (inject_Z (round_half_even (q / 2 ^ exponent q))).
    intros rq ?.
    generalize dependent (inject_Z (round_half_even (p / 2 ^ exponent p))).
    intros rp ?.
    generalize dependent (2 ^ exponent p). intros a. intros.
    generalize dependent (2 ^ exponent q). intros b. intros.
    nra.
Qed.

End Binary64Facts.

Import Binary64Facts.

(** ** Running the handlers *)

Arguments milestones_loop : simpl never.
Arguments cascade_loop : simpl never.
Arguments refund_expired : simpl never.
Arguments handle_new_member : simpl never.

Ltac run :=
  unfold bind, ret, gets, modify, raise, user_of, update_user; simpl.

(** ** Levels *)

(** C5, as stated, fails: an account at level 1 with 350 XP is at level 2
    with 250 XP after one call of [check_level_up], and 250 still covers the
    threshold 200 of level 2. *)
Lemma check_level_up_stops_above_threshold :
  let st := one_user "7" (set_xp 350 (fresh_user 0)) in
  let u' := set_xp 250 (set_level 2 (fresh_user 0)) in
  check_level_up "7" st = (Ok true, one_user "7" u')
  /\ (calculate_level_xp (level u') <= xp u')%Z.
Proof.
  split.
  - vm_compute. reflexivity.
  - vm_compute. discriminate.
Qed.

(** C5, amended: one call of [check_level_up] compares the XP with the
    threshold [base * level * (1 + level // 10)] of the current level once;
    when the XP covers it, the threshold is subtracted and the level grows by
    exactly one and the call returns true, otherwise nothing changes and it
    returns false.  There is no second comparison in the same call. *)
Theorem check_level_up_one_level (st : bot_data) (uid : string) (u : user) :
  users st !! uid = Some u ->
  let required_xp := (100 * level u * (1 + level u / 10))%Z in
  check_level_up uid st =
    if (required_xp <=? xp u)%Z
    then (Ok true,
          set_users
            (<[uid := set_xp (xp u - required_xp) (set_level (level u + 1) u)]>
               (users st)) st)
    else (Ok false, st).
Proof.
  intros H rq. unfold check_level_up. run. rewrite H.
  change (calculate_level_xp (level u)) with rq.
  destruct (rq <=? xp u)%Z; [| reflexivity].
  rewrite H. simpl. rewrite lookup_insert_eq. unfold set_users. simpl.
  now rewrite insert_insert_eq.
Qed.

Lemma check_level_up_one_level_witness :
  let st := one_user "7" (set_xp 350 (fresh_user 0)) in
  users st !! "7" = Some (set_xp 350 (fresh_user 0))
  /\ check_level_up "7" st
     = (Ok true,
        set_users
          (<["7" := set_xp (350 - 100) (set_level (1 + 1) (set_xp 350 (fresh_user 0)))]>
             (users st)) st).
Proof.
  split; [reflexivity |].
  exact (check_level_up_one_level
           (one_user "7" (set_xp 350 (fresh_user 0))) "7"
           (set_xp 350 (fresh_user 0)) eq_refl).
Defined.

(** ** Heat *)

Lemma round2_zero (q : Q) : q == 0 -> round2 q == 0.
Proof. intros E. rewrite (round2_comp q 0 E). reflexivity. Qed.

Lemma heat_of_cold (u : user) (now : Q) :
  24 <= (now - default 0 (last_invite_success u)) / 3600 -> heat_of u now == 0.
Proof.
  intros H. unfold heat_of.
  destruct (Qltb _ _) eqn:E; [reflexivity |].
  apply Qltb_ge in E. unfold HEAT_DECAY_HOURS in *.
  apply round2_zero.
  assert ((now - default 0 (last_invite_success u)) / 3600 == 24) as ->
    by (apply Qle_antisym; assumption).
  field.
Qed.

(** The score of a product that is zero. *)
Lemma heat_binary64_flat (u : user) (now : Q) :
  let hours_since :=
    Binary64.div (Binary64.sub now (default 0 (last_invite_success u))) 3600 in
  hours_since <= 24 ->
  Binary64.of_int (invites_successful u)
  * Binary64.div (Binary64.sub 24 hours_since) 24 == 0 ->
  heat_binary64 u now == 0.
Proof.
  intros hours_since Hle Hz. unfold heat_binary64. fold hours_since.
  unfold HEAT_DECAY_HOURS. apply Qltb_ge in Hle. rewrite Hle.
  unfold Binary64.round2, Binary64.mul.
  apply fl_zero. rewrite (round2_comp _ 0); [reflexivity |].
  apply fl_zero. exact Hz.
Qed.

Lemma heat_binary64_cold (u : user) (now : Q) :
  let hours_since :=
    Binary64.div (Binary64.sub now (default 0 (last_invite_success u))) 3600 in
  24 <= hours_since -> heat_binary64 u now == 0.
Proof.
  intros hours_since Hge.
  destruct (Qlt_le_dec 24 hours_since) as [Hlt | Hle].
  - unfold heat_binary64. fold hours_since. unfold HEAT_DECAY_HOURS.
    apply Qltb_lt in Hlt. rewrite Hlt. reflexivity.
  - apply heat_binary64_flat; fold hours_since; [exact Hle |].
    assert (hours_since == 24) as E by (apply Qle_antisym; assumption).
    assert (Binary64.div (Binary64.sub 24 hours_since) 24 == 0) as ->.
    { unfold Binary64.div, Binary64.sub. apply fl_zero.
      rewrite (fl_zero (24 - hours_since)); [reflexivity |].
      rewrite E. reflexivity. }
    ring.
Qed.

Lemma Qltb_comp (a a' b b' : Q) : a == a' -> b == b' -> Qltb a b = Qltb a' b'.
Proof. intros Ea Eb. unfold Qltb. now rewrite Ea, Eb. Qed.

Lemma heat_binary64_after (u : user) (now gap : Q) :
  now - default 0 (last_invite_success u) == gap ->
  heat_binary64 u now == heat_after gap (invites_successful u).
Proof.
  intros E. unfold heat_binary64, heat_after, HEAT_DECAY_HOURS.
  assert (Binary64.div (Binary64.sub now (default 0 (last_invite_success u))) 3600
          == Binary64.div (Binary64.fl gap) 3600) as Eh.
  { unfold Binary64.div, Binary64.sub. apply fl_comp.
    rewrite (fl_comp _ _ E). reflexivity. }
  rewrite (Qltb_comp 24 24 _ _ (Qeq_refl _) Eh).
  destruct (Qltb 24 _); [reflexivity |].
  unfold Binary64.round2, Binary64.mul, Binary64.div at 1 3, Binary64.sub.
  apply fl_comp. rewrite (round2_comp _ (Binary64.fl
    (Binary64.of_int (invites_successful u)
     * Binary64.fl (Binary64.fl (24 - Binary64.div (Binary64.fl gap) 3600) / 24))));
    [reflexivity |].
  apply fl_comp. apply Qmult_comp; [reflexivity |].
  apply fl_comp. apply Qdiv_comp; [| reflexivity].
  apply fl_comp. rewrite Eh. reflexivity.
Qed.

(** C6: [calculate_heat_score], computed in binary64 as the interpreter
    does, returns 0 when more than 24 hours have passed since the last
    success, and otherwise [round(invites_successful * decay, 2)]: the double
    nearest to the decimal [k / 100] that is nearest to the product (at most
    half a hundredth away, [k] even at a tie).  It is 0 from 24 hours on, for
    an account with no counted invite, and for one with no recorded success
    on a Unix clock; 2.5 for 5 invites after exactly 12 hours; and 0.01 for 1
    invite after 85968 seconds, where the product is just above 0.005.
    [UserManager.calculate_heat_score] computes the same from the session,
    and 0 without one. *)
Theorem heat_score_formula (st : bot_data) (uid : string) (u : user) (now : Q) :
  users st !! uid = Some u ->
  let last_success := default 0 (last_invite_success u) in
  let hours_since := Binary64.div (Binary64.sub now last_success) 3600 in
  let decay := Binary64.div (Binary64.sub 24 hours_since) 24 in
  let product := Binary64.mul (Binary64.of_int (invites_successful u)) decay in
  let heat := heat_binary64 u now in
  calculate_heat_score_binary64 uid now st = (Ok heat, st)
  /\ (24 < hours_since -> heat = 0)
  /\ (hours_since <= 24 ->
      exists k : Z,
        heat = Binary64.fl (k # 100)
        /\ Qabs ((k # 100) - product) <= 1 # 200
        /\ (Qabs ((k # 100) - product) == 1 # 200 -> Z.even k = true))
  /\ (24 <= hours_since -> heat == 0)
  /\ (invites_successful u = 0%Z -> heat == 0)
  /\ (last_invite_success u = None -> 86400 < now -> heat == 0)
  /\ (invites_successful u = 5%Z -> now - last_success == 43200 ->
      heat == 5 # 2)
  /\ (invites_successful u = 1%Z -> now - last_success == 85968 ->
      heat == Binary64.fl (1 # 100))
  /\ (forall (self : UserManager.user_manager) (telegram_id : Z),
        UserManager.user_cache self !! telegram_id = None ->
        UserManager.calculate_heat_score telegram_id now self = 0)
  /\ (forall (self : UserManager.user_manager) (telegram_id : Z)
        (user_session : UserManager.session),
        UserManager.user_cache self !! telegram_id = Some user_session ->
        UserManager.last_invite_success user_session = last_invite_success u ->
        UserManager.invites_successful user_session = invites_successful u ->
        UserManager.calculate_heat_score telegram_id now self = heat).
Proof.
  intros H last_success hours_since decay product heat.
  assert (24 <= hours_since -> heat == 0) as Hcold
    by apply heat_binary64_cold.
  split; [unfold calculate_heat_score_binary64; run; now rewrite H |].
  split.
  { intros Hlt. unfold heat, heat_binary64. fold last_success hours_since.
    unfold HEAT_DECAY_HOURS. apply Qltb_lt in Hlt. now rewrite Hlt. }
  split.
  { intros Hle. exists (round_half_even (product * 100)).
    unfold heat, heat_binary64. fold last_success hours_since.
    unfold HEAT_DECAY_HOURS. apply Qltb_ge in Hle. rewrite Hle.
    fold decay product. split; [reflexivity |].
    destruct (round_half_even_near (product * 100)) as [Hnear Htie].
    set (k := round_half_even (product * 100)) in *.
    assert (Qabs ((k # 100) - product)
            == Qabs (inject_Z k - product * 100) * (1 # 100)) as E.
    { assert ((k # 100) - product
              == (inject_Z k - product * 100) * (1 # 100)) as E0
        by (rewrite (Qmake_Qdiv k 100); field).
      rewrite (Qabs_wd _ _ E0), Qabs_Qmult.
      rewrite (Qabs_pos (1 # 100)) by (unfold Qle; simpl; lia). reflexivity. }
    split.
    - rewrite E. generalize dependent (Qabs (inject_Z k - product * 100)).
      intros. lra.
    - intros Hhalf. apply Htie. rewrite E in Hhalf.
      generalize dependent (Qabs (inject_Z k - product * 100)). intros. lra. }
  split; [exact Hcold |].
  split.
  { intros Hz. destruct (Qlt_le_dec 24 hours_since) as [Hlt | Hle].
    - apply Hcold. lra.
    - apply heat_binary64_flat; fold last_success hours_since; [exact Hle |].
      rewrite Hz. assert (Binary64.of_int 0 == 0) as -> by (vm_compute; reflexivity).
      apply Qmult_0_l. }
  split.
  { intros Hnone Hnow. apply Hcold. unfold hours_since, last_success.
    rewrite Hnone. cbn [default from_option].
    assert (86400 <= Binary64.sub now 0) as Hsub.
    { unfold Binary64.sub.
      assert (Binary64.fl 86400 == 86400) as <- by (vm_compute; reflexivity).
      apply fl_mono; lra. }
    assert (Binary64.fl 24 == 24) as <- by (vm_compute; reflexivity).
    unfold Binary64.div. apply fl_mono; [lra |].
    apply Qle_shift_div_l; lra. }
  split.
  { intros H5 Hgap. unfold heat.
    rewrite (heat_binary64_after u now 43200 Hgap), H5.
    vm_compute. reflexivity. }
  split.
  { intros H1 Hgap. unfold heat.
    rewrite (heat_binary64_after u now 85968 Hgap), H1.
    vm_compute. reflexivity. }
  split.
  { intros self telegram_id Hnone.
    unfold UserManager.calculate_heat_score, UserManager.get_user_session_data.
    now rewrite Hnone. }
  intros self telegram_id user_session Hsome Hlast Hcount.
  unfold UserManager.calculate_heat_score, UserManager.get_user_session_data.
  rewrite Hsome, Hlast, Hcount.
  unfold heat, heat_binary64, UserManager.HEAT_DECAY_HOURS, HEAT_DECAY_HOURS.
  reflexivity.
Qed.

Lemma heat_score_formula_witness :
  users (one_user "7" warm_user) !! "7" = Some warm_user
  /\ calculate_heat_score_binary64 "7" 1700043200 (one_user "7" warm_user)
     = (Ok (heat_binary64 warm_user 1700043200), one_user "7" warm_user)
  /\ heat_binary64 warm_user 1700043200 == 5 # 2.
Proof.
  split; [reflexivity |].
  destruct (heat_score_formula (one_user "7" warm_user) "7" warm_user
              1700043200 eq_refl) as (Hrun & _ & _ & _ & _ & _ & Hhalf & _).
  split; [exact Hrun |].
  apply Hhalf; [reflexivity | vm_compute; reflexivity].
Defined.

(** The rationals and the doubles part at the hundredth: after 85968 seconds
    the exact product is 0.005, a tie that goes to 0, while the product of
    the doubles is above it. *)
Lemma heat_of_and_heat_binary64_differ :
  heat_of (set_invites_successful 1 warm_user) 1700085968 == 0
  /\ heat_binary64 (set_invites_successful 1 warm_user) 1700085968
     == Binary64.fl (1 # 100)
  /\ Binary64.fl (1 # 100) == 5764607523034235 # 576460752303423488.
Proof. repeat split; vm_compute; reflexivity. Qed.

(** ** Milestones *)

Lemma milestones_loop_cons (uid : string) (successful milestone : Z) (todo : list Z) :
  milestones_loop uid successful (milestone :: todo) =
  (user <- user_of uid ;;
   if (milestone <=? successful)%Z then
     match milestones_reached user with
     | None => raise (KeyError "milestones_reached")
     | Some reached =>
         if bool_decide (milestone ∈ reached) then
           milestones_loop uid successful todo
         else
           update_user uid
             (set_milestones_reached (Some (reached ++ [milestone]))) ;;;
           hit <- milestones_loop uid successful todo ;;
           ret (milestone :: hit)
     end
   else milestones_loop uid successful todo).
Proof. reflexivity. Qed.

Lemma check_milestones_raises (st : bot_data) (uid : string) (u : user) :
  users st !! uid = Some u ->
  milestones_reached u = None ->
  (10 <= invites_successful u)%Z ->
  check_milestones uid st = (Raise (KeyError "milestones_reached"), st).
Proof.
  intros H Hm Hs. unfold check_milestones.
  unfold bind at 1, user_of at 1. rewrite H. unfold MILESTONE_ANNOUNCES.
  rewrite milestones_loop_cons. run. rewrite H.
  apply Z.leb_le in Hs. rewrite Hs, Hm. reflexivity.
Qed.

(** C9 fails on an account made by [init_user], which has no
    ["milestones_reached"] key: the first nine joins pass, and at the tenth
    [check_milestones] raises [KeyError] inside [handle_new_member], so that
    the counter stands at 10 while no threshold is recorded and none
    announced. *)
Theorem tenth_invite_raises_on_milestones :
  result_of (handle_new_member (take 9 ten_members) 1700000000)
    before_tenth_invite = Ok tt
  /\ result_of (handle_new_member ten_members 1700000000) before_tenth_invite
     = Raise (KeyError "milestones_reached")
  /\ (fun u => (invites_successful u, milestones_reached u))
       <$> users (state_after (handle_new_member ten_members 1700000000)
                    before_tenth_invite) !! "1"
     = Some (10%Z, None).
Proof. vm_compute. repeat split; reflexivity. Qed.

Lemma milestones_loop_nothing_new (uid : string) (u : user) (reached : list Z) (todo : list Z) (successful : Z) (st : bot_data) :
  users st !! uid = Some u ->
  milestones_reached u = Some reached ->
  reached_all successful todo reached ->
  milestones_loop uid successful todo st = (Ok [], st).
Proof.
  intros H Hr. induction todo as [| m todo IH]; intros Hall; [reflexivity |].
  rewrite milestones_loop_cons. run. rewrite H. simpl.
  destruct (m <=? successful)%Z eqn:E.
  - rewrite Hr. rewrite bool_decide_eq_true_2.
    + apply IH. intros m' Hin. apply Hall. now right.
    + apply Hall; [left | now apply Z.leb_le].
  - apply IH. intros m' Hin. apply Hall. now right.
Qed.

Lemma milestones_loop_records (uid : string) (successful : Z) (todo : list Z) :
  forall (st : bot_data) (u : user) (reached : list Z),
  users st !! uid = Some u ->
  milestones_reached u = Some reached ->
  exists hit,
    milestones_loop uid successful todo st
    = (Ok hit,
       set_users (<[uid := set_milestones_reached (Some (reached ++ hit)) u]> (users st)) st)
    /\ reached_all successful todo (reached ++ hit)
    /\ (forall m, m ∈ hit -> m ∈ todo /\ (m <= successful)%Z /\ m ∉ reached)
    /\ (NoDup todo -> NoDup hit).
Proof.
  induction todo as [| m todo IH]; intros st u reached H Hr.
  - exists []. rewrite app_nil_r. repeat split.
    + simpl. unfold ret. f_equal. destruct st, u; unfold set_users; simpl in *. 
      f_equal. rewrite insert_id; [reflexivity |]. rewrite H. f_equal. unfold set_milestones_reached. simpl. now rewrite Hr.
    + intros m Hin. inversion Hin.
    + inversion H0.
    + inversion H0.
    + inversion H0.
    + constructor.
  - rewrite milestones_loop_cons. run. rewrite H. simpl.
    destruct (m <=? successful)%Z eqn:E.
    + rewrite Hr. destruct (bool_decide (m ∈ reached)) eqn:Em.
      * apply bool_decide_eq_true in Em.
        destruct (IH st u reached H Hr) as (hit & Hrun & Hall & Hhit & Hnd).
        exists hit. split; [exact Hrun |]. split; [| split].
        -- intros m' Hin Hle. apply elem_of_cons in Hin as [-> | Hin].
           ++ apply elem_of_app. now left.
           ++ now apply Hall.
        -- intros m' Hin. destruct (Hhit m' Hin) as (? & ? & ?).
           split; [now right | now split].
        -- intros Hnd'. apply Hnd. now inversion Hnd'.
      * apply bool_decide_eq_false in Em. rewrite H. simpl.
        set (u1 := set_milestones_reached (Some (reached ++ [m])) u).
        set (st1 := set_users (<[uid:=u1]> (users st)) st).
        destruct (IH st1 u1 (reached ++ [m])) as (hit & Hrun & Hall & Hhit & Hnd).
        { unfold st1. simpl. apply lookup_insert_eq. }
        { reflexivity. }
        exists (m :: hit). rewrite Hrun. split; [| split; [| split]].
        -- f_equal. unfold st1, set_users. simpl. rewrite insert_insert_eq.
           f_equal. f_equal. unfold u1, set_milestones_reached. simpl.
           now rewrite <- app_assoc.
        -- intros m' Hin Hle. apply elem_of_cons in Hin as [-> | Hin].
           ++ apply elem_of_app. right. now left.
           ++ specialize (Hall m' Hin Hle). rewrite <- app_assoc in Hall. exact Hall.
        -- intros m' Hin. apply elem_of_cons in Hin as [-> | Hin].
           ++ split; [now left |]. split; [now apply Z.leb_le | exact Em].
           ++ destruct (Hhit m' Hin) as (? & ? & Hn). split; [now right |].
              split; [assumption |]. intros Hc. apply Hn. apply elem_of_app. now left.
        -- intros Hnd'. inversion Hnd' as [| ? ? Hnot Hnd'']; subst. constructor.
           ++ intros Hc. destruct (Hhit m Hc) as (? & _). contradiction.
           ++ now apply Hnd.
    + destruct (IH st u reached H Hr) as (hit & Hrun & Hall & Hhit & Hnd).
      exists hit. split; [exact Hrun |]. split; [| split].
      * intros m' Hin Hle. apply elem_of_cons in Hin as [-> | Hin].
        -- apply Z.leb_gt in E. lia.
        -- now apply Hall.
      * intros m' Hin. destruct (Hhit m' Hin) as (? & ? & ?).
        split; [now right | now split].
      * intros Hnd'. apply Hnd. now inversion Hnd'.
Qed.

(** Where the key is there (as in accounts of the refactored bot, whose
    [get_or_create_user] creates it), the check is idempotent: a first call
    records and returns each threshold that the counter has reached and that
    was not recorded, each once; a second call returns nothing and changes
    nothing. *)
Lemma check_milestones_idempotent (st : bot_data) (uid : string) (u : user)
  (reached : list Z) :
  users st !! uid = Some u ->
  milestones_reached u = Some reached ->
  exists hit,
    let st' :=
      set_users
        (<[uid := set_milestones_reached (Some (reached ++ hit)) u]> (users st))
        st in
    check_milestones uid st = (Ok hit, st')
    /\ check_milestones uid st' = (Ok [], st')
    /\ NoDup hit
    /\ (forall m, m ∈ MILESTONE_ANNOUNCES -> (m <= invites_successful u)%Z ->
        m ∈ reached \/ m ∈ hit)
    /\ (forall m, m ∈ hit -> (m <= invites_successful u)%Z /\ m ∉ reached).
Proof.
  intros H Hr.
  destruct (milestones_loop_records uid (invites_successful u)
              MILESTONE_ANNOUNCES st u reached H Hr)
    as (hit & Hrun & Hall & Hhit & Hnd).
  exists hit. cbv zeta. split; [| split; [| split; [| split]]].
  - unfold check_milestones, bind at 1, user_of at 1. rewrite H. exact Hrun.
  - unfold check_milestones, bind at 1, user_of at 1. simpl.
    rewrite lookup_insert_eq. simpl.
    eapply milestones_loop_nothing_new.
    + simpl. apply lookup_insert_eq.
    + reflexivity.
    + exact Hall.
  - apply Hnd. apply (bool_decide_unpack (NoDup MILESTONE_ANNOUNCES)).
    vm_compute. exact I.
  - intros m Hin Hle. apply elem_of_app. now apply Hall.
  - intros m Hin. destruct (Hhit m Hin) as (_ & ? & ?). now split.
Qed.

(** ** Verification *)

Lemma emojis_NoDup : NoDup emojis.
Proof. apply (bool_decide_unpack (NoDup emojis)). vm_compute. exact I. Qed.

Lemma sampled_distinct (sample : list nat) :
  valid_sample sample ->
  length (sampled sample) = 4%nat
  /\ NoDup (sampled sample)
  /\ Forall (fun symbol => symbol ∈ emojis) (sampled sample).
Proof.
  intros (Hlen & Hnd & Hlt). unfold sampled. split; [| split].
  - now rewrite length_fmap.
  - apply NoDup_fmap_2_strong; [| exact Hnd].
    intros i j Hi Hj Heq.
    rewrite Forall_forall in Hlt.
    pose proof (Hlt i Hi) as Hi8. pose proof (Hlt j Hj) as Hj8.
    destruct (lookup_lt_is_Some_2 emojis i) as [a Ha]; [simpl; lia |].
    destruct (lookup_lt_is_Some_2 emojis j) as [b Hb]; [simpl; lia |].
    rewrite Ha, Hb in Heq. simpl in Heq. subst b.
    eapply NoDup_lookup; [apply emojis_NoDup | exact Ha | exact Hb].
  - apply Forall_fmap. eapply Forall_impl; [exact Hlt |].
    intros i Hi. simpl in Hi |- *.
    destruct (lookup_lt_is_Some_2 emojis i) as [a Ha]; [simpl; lia |].
    rewrite Ha. simpl. eapply list_elem_of_lookup_2. exact Ha.
Qed.

Lemma drawn_of_app (a b : text) : drawn_of (a ++ b) = drawn_of a ++ drawn_of b.
Proof. apply omap_app. Qed.

Lemma drawn_of_symbol (i : nat) :
  (i < 8)%nat -> drawn_of (default [] (emojis !! i)) = [i].
Proof.
  intros Hi. do 8 (destruct i as [| i]; [vm_compute; reflexivity |]). lia.
Qed.

Lemma drawn_of_sampled (sample : list nat) :
  Forall (fun i => (i < 8)%nat) sample ->
  drawn_of (concat (sampled sample)) = sample.
Proof.
  induction 1 as [| i sample Hi _ IH]; [reflexivity |].
  unfold sampled in *. cbn [fmap list_fmap concat].
  change (drawn_of (default [] (emojis !! i)
                    ++ concat ((fun i => default [] (emojis !! i)) <$> sample))
          = i :: sample).
  rewrite drawn_of_app, IH, (drawn_of_symbol i Hi). reflexivity.
Qed.

(** C10: for an account that is not blacklisted, [create_verification]
    puts a fresh challenge in the place of a pending one, whatever its
    attempts.  The question shows the drawn symbols and the expected answer
    is their concatenation; the [i]-th symbol is the one at the [i]-th drawn
    position of the palette, so that the four symbols are different symbols
    of the palette, and another draw gives another answer.  The expiry is
    [now + 300] and the attempts are 0. *)
Theorem create_verification_replaces_pending
  (st : bot_data) (uid code : string) (u : user) (now : Q)
  (sample : list nat) (old : verification) :
  users st !! uid = Some u ->
  blacklisted_until u <= now ->
  verifications st !! uid = Some old ->
  valid_sample sample ->
  create_verification uid code now sample st
  = (Ok (Some (Text.of_string "Type these emojis in order: "
               ++ Text.join [32%N] (sampled sample))),
     set_verifications
       (<[uid := mk_verification (concat (sampled sample)) code (now + 300) 0]>
          (verifications st)) st)
  /\ length (sampled sample) = 4%nat
  /\ NoDup (sampled sample)
  /\ Forall (fun symbol => symbol ∈ emojis) (sampled sample)
  /\ (forall i j, sample !! i = Some j -> sampled sample !! i = emojis !! j)
  /\ (forall sample', valid_sample sample' ->
        concat (sampled sample') = concat (sampled sample) -> sample' = sample).
Proof.
  intros H Hb Hold Hs.
  split.
  { unfold create_verification, is_blacklisted. run. rewrite H. simpl.
    apply Qltb_ge in Hb. rewrite Hb. reflexivity. }
  destruct (sampled_distinct sample Hs) as (Hlen & Hnd & Hin).
  split; [exact Hlen |]. split; [exact Hnd |]. split; [exact Hin |].
  destruct Hs as (_ & _ & Hlt). split.
  - intros i j Hij. unfold sampled. rewrite list_lookup_fmap, Hij. simpl.
    rewrite Forall_forall in Hlt.
    assert (j < 8)%nat as Hj by (apply Hlt; eapply list_elem_of_lookup_2; exact Hij).
    destruct (lookup_lt_is_Some_2 emojis j) as [e He]; [simpl; lia |].
    now rewrite He.
  - intros sample' (_ & _ & Hlt') E.
    rewrite <- (drawn_of_sampled sample' Hlt'), <- (drawn_of_sampled sample Hlt).
    now rewrite E.
Qed.

Lemma verify_answer_wrong (st : bot_data) (uid : string) (verif : verification)
  (answer : text) (now : Q) :
  verifications st !! uid = Some verif ->
  now <= v_expires_at verif ->
  wrong verif answer ->
  (v_attempts verif + 1 < 3)%Z ->
  verify_answer uid answer now st
  = (Ok (false, None),
     set_verifications (<[uid := tried 1 verif]> (verifications st)) st).
Proof.
  intros Hv Ht Hw Ha. unfold verify_answer. run. rewrite Hv.
  apply Qltb_ge in Ht. rewrite Ht. simpl.
  unfold Text.eqb. rewrite bool_decide_eq_false_2; [| exact Hw].
  apply Z.leb_gt in Ha. rewrite Ha. reflexivity.
Qed.

Lemma verify_answer_third_wrong (st : bot_data) (uid : string) (u : user)
  (verif : verification) (answer : text) (now : Q) :
  users st !! uid = Some u ->
  verifications st !! uid = Some verif ->
  now <= v_expires_at verif ->
  wrong verif answer ->
  (3 <= v_attempts verif + 1)%Z ->
  verify_answer uid answer now st
  = (Ok (false, None),
     set_verifications (delete uid (verifications st))
       (set_users (<[uid := set_blacklisted_until (now + 86400) u]> (users st)) st)).
Proof.
  intros Hu Hv Ht Hw Ha. unfold verify_answer, blacklist_user, drop_verification. run. rewrite Hv.
  apply Qltb_ge in Ht. rewrite Ht. simpl.
  unfold Text.eqb. rewrite bool_decide_eq_false_2; [| exact Hw].
  apply Z.leb_le in Ha. rewrite Ha. simpl. rewrite Hu. simpl.
  unfold set_verifications, set_users. simpl. now rewrite delete_insert_eq.
Qed.

Lemma verify_answer_not_found (st : bot_data) (uid : string) (answer : text) (now : Q) :
  verifications st !! uid = None ->
  verify_answer uid answer now st = (Ok (false, None), st).
Proof. intros Hv. unfold verify_answer. run. now rewrite Hv. Qed.

(** C4: on a pending challenge as issued (no attempt yet), with every
    submission made before its expiry, the first and the second wrong answer
    are refused and leave the challenge pending with 1 and 2 attempts; the
    third wrong answer is refused, sets [blacklisted_until] to its own time
    plus 86400 seconds and deletes the challenge; a fourth submission, be it
    the expected answer, finds no challenge: it returns [(False, None)] and
    changes nothing, and until the blacklist expires [create_verification]
    issues no new challenge. *)
Theorem three_wrong_answers_blacklist
  (st : bot_data) (uid : string) (u : user) (verif : verification)
  (w1 w2 w3 a4 : text) (t1 t2 t3 t4 : Q) :
  users st !! uid = Some u ->
  verifications st !! uid = Some verif ->
  v_attempts verif = 0%Z ->
  t1 <= v_expires_at verif -> t2 <= v_expires_at verif -> t3 <= v_expires_at verif ->
  wrong verif w1 -> wrong verif w2 -> wrong verif w3 ->
  let r1 := verify_answer uid w1 t1 st in
  let r2 := verify_answer uid w2 t2 r1.2 in
  let r3 := verify_answer uid w3 t3 r2.2 in
  let r4 := verify_answer uid a4 t4 r3.2 in
  r1.1 = Ok (false, None)
  /\ verifications r1.2 !! uid = Some (tried 1 verif) /\ users r1.2 = users st
  /\ r2.1 = Ok (false, None)
  /\ verifications r2.2 !! uid = Some (tried 2 verif) /\ users r2.2 = users st
  /\ r3.1 = Ok (false, None)
  /\ verifications r3.2 !! uid = None
  /\ users r3.2 !! uid = Some (set_blacklisted_until (t3 + 86400) u)
  /\ r4 = (Ok (false, None), r3.2)
  /\ (forall code t sample, t < t3 + 86400 ->
        create_verification uid code t sample r3.2 = (Ok None, r3.2)).
Proof.
  intros Hu Hv H0 Ht1 Ht2 Ht3 Hw1 Hw2 Hw3 r1 r2 r3 r4.
  assert (r1 = (Ok (false, None),
                set_verifications (<[uid := tried 1 verif]> (verifications st)) st)) as E1.
  { apply verify_answer_wrong; auto. lia. }
  assert (r2 = (Ok (false, None),
                set_verifications (<[uid := tried 2 verif]> (verifications st)) st)) as E2.
  { unfold r2. rewrite E1. simpl.
    rewrite (verify_answer_wrong _ uid (tried 1 verif) w2 t2); simpl; auto.
    - unfold set_verifications; simpl. rewrite insert_insert_eq.
      unfold tried; simpl. now rewrite <- Z.add_assoc.
    - apply lookup_insert_eq.
    - lia. }
  assert (r3 = (Ok (false, None),
                set_verifications (delete uid (verifications st))
                  (set_users (<[uid := set_blacklisted_until (t3 + 86400) u]> (users st)) st))) as E3.
  { unfold r3. rewrite E2. simpl.
    rewrite (verify_answer_third_wrong _ uid u (tried 2 verif) w3 t3); simpl; auto.
    - unfold set_verifications, set_users; simpl. now rewrite delete_insert_eq.
    - apply lookup_insert_eq.
    - lia. }
  unfold r4. rewrite E3, E2, E1. simpl.
  repeat split; try reflexivity.
  - apply lookup_insert_eq.
  - apply lookup_insert_eq.
  - apply lookup_delete_eq.
  - apply lookup_insert_eq.
  - apply verify_answer_not_found. simpl. apply lookup_delete_eq.
  - intros code t sample Ht.
    unfold create_verification, is_blacklisted. run.
    rewrite lookup_insert_eq. simpl.
    unfold BLACKLIST_DURATION in *.
    now rewrite (proj2 (Qltb_lt t (t3 + 86400)) Ht).
Qed.

Lemma create_verification_replaces_pending_witness :
  users (challenged stale_challenge) !! "7" = Some (fresh_user 1700000000)
  /\ blacklisted_until (fresh_user 1700000000) <= 1700000100
  /\ verifications (challenged stale_challenge) !! "7" = Some stale_challenge
  /\ valid_sample [3; 0; 5; 1]%nat
  /\ create_verification "7" "LOVE0002" 1700000100 [3; 0; 5; 1]%nat
       (challenged stale_challenge)
     = (Ok (Some (Text.of_string "Type these emojis in order: "
                  ++ Text.join [32%N] (sampled [3; 0; 5; 1]%nat))),
        set_verifications
          (<["7" := mk_verification (concat (sampled [3; 0; 5; 1]%nat))
                      "LOVE0002" (1700000100 + 300) 0]>
             (verifications (challenged stale_challenge)))
          (challenged stale_challenge))
  /\ sampled [3; 0; 5; 1]%nat = [[128151]; [10084; 65039]; [128152]; [128149]]%N
  /\ concat (sampled [3; 0; 5; 1]%nat) <> v_answer stale_challenge.
Proof.
  assert (valid_sample [3; 0; 5; 1]%nat) as Hs.
  { split; [reflexivity |]. split.
    - apply (bool_decide_unpack (NoDup [3; 0; 5; 1]%nat)). vm_compute. exact I.
    - repeat constructor. }
  assert (valid_sample [0; 1; 2; 3]%nat) as Hs'.
  { split; [reflexivity |]. split.
    - apply (bool_decide_unpack (NoDup [0; 1; 2; 3]%nat)). vm_compute. exact I.
    - repeat constructor. }
  assert (blacklisted_until (fresh_user 1700000000) <= 1700000100) as Hb.
  { vm_compute. discriminate. }
  destruct (create_verification_replaces_pending (challenged stale_challenge)
              "7" "LOVE0002" (fresh_user 1700000000) 1700000100 [3; 0; 5; 1]%nat
              stale_challenge eq_refl Hb eq_refl Hs)
    as (Hrun & _ & _ & _ & _ & Hother).
  split; [reflexivity |]. split; [exact Hb |]. split; [reflexivity |].
  split; [exact Hs |]. split; [exact Hrun |]. split; [reflexivity |].
  intros E. symmetry in E. apply (Hother _ Hs') in E. discriminate E.
Defined.

Lemma three_wrong_answers_blacklist_witness :
  let st := challenged issued_challenge in
  let right := v_answer issued_challenge in
  users st !! "7" = Some (fresh_user 1700000000)
  /\ verifications st !! "7" = Some issued_challenge
  /\ wrong issued_challenge [65%N]
  /\ let r1 := verify_answer "7" [65%N] 1700000010 st in
     let r2 := verify_answer "7" [65%N] 1700000020 r1.2 in
     let r3 := verify_answer "7" [65%N] 1700000030 r2.2 in
     let r4 := verify_answer "7" right 1700000040 r3.2 in
     r3.1 = Ok (false, None)
     /\ verifications r3.2 !! "7" = None
     /\ users r3.2 !! "7"
        = Some (set_blacklisted_until (1700000030 + 86400)
                  (fresh_user 1700000000))
     /\ r4 = (Ok (false, None), r3.2).
Proof.
  assert (wrong issued_challenge [65%N]) as Hw.
  { unfold wrong. vm_compute. discriminate. }
  assert (forall t : Z, (t <= 1700000300)%Z ->
            inject_Z t <= v_expires_at issued_challenge) as Ht.
  { intros t Hle. unfold Qle. simpl. lia. }
  cbv zeta. split; [reflexivity |]. split; [reflexivity |]. split; [exact Hw |].
  destruct (three_wrong_answers_blacklist (challenged issued_challenge) "7"
              (fresh_user 1700000000) issued_challenge
              [65%N] [65%N] [65%N] (v_answer issued_challenge)
              1700000010 1700000020 1700000030 1700000040
              eq_refl eq_refl eq_refl
              (Ht 1700000010%Z ltac:(lia)) (Ht 1700000020%Z ltac:(lia))
              (Ht 1700000030%Z ltac:(lia)) Hw Hw Hw)
    as (_ & _ & _ & _ & _ & _ & H3 & Hgone & Hblack & H4 & _).
  repeat split; assumption.
Defined.

(** ** Running the monad

    The rules of [wp] for the operations of [M], and a step of symbolic
    execution. *)

Section WpRules.

Context {A B : Type}.
Implicit Types (Q : A -> bot_data -> Prop) (E : bot_data -> Prop).

Lemma wp_ret (a : A) Q E st : Q a st -> wp (ret a) Q E st.
Proof. exact id. Qed.

Lemma wp_raise (e : exn) Q E st : E st -> wp (raise e) Q E st.
Proof. exact id. Qed.

Lemma wp_bind (m : M A) (f : A -> M B) (R : B -> bot_data -> Prop) E st :
  wp m (fun a st' => wp (f a) R E st') E st -> wp (bind m f) R E st.
Proof. unfold wp, bind. destruct (m st) as [[a | e] st']; exact id. Qed.

Lemma wp_gets (f : bot_data -> A) Q E st : Q (f st) st -> wp (gets f) Q E st.
Proof. exact id. Qed.

Lemma wp_mono (m : M A) Q Q' E E' st :
  wp m Q' E' st ->
  (forall a st', Q' a st' -> Q a st') ->
  (forall st', E' st' -> E st') ->
  wp m Q E st.
Proof. unfold wp. destruct (m st) as [[a | e] st']; auto. Qed.

Lemma wp_call (P : bot_data -> Prop) (m : M A) Q Q' E E' st :
  triple P m Q' E' ->
  P st ->
  (forall a st', Q' a st' -> Q a st') ->
  (forall st', E' st' -> E st') ->
  wp m Q E st.
Proof. intros Ht HP. apply wp_mono. now apply Ht. Qed.

End WpRules.

Lemma wp_modify (g : bot_data -> bot_data) (Q : unit -> bot_data -> Prop) E st :
  Q tt (g st) -> wp (modify g) Q E st.
Proof. exact id. Qed.

Lemma wp_user_of (uid : string) (Q : user -> bot_data -> Prop) E st :
  match users st !! uid with
  | Some u => Q u st
  | None => E st
  end ->
  wp (user_of uid) Q E st.
Proof. unfold wp, user_of. now destruct (users st !! uid). Qed.

Lemma wp_update_user (uid : string) (f : user -> user)
  (Q : unit -> bot_data -> Prop) E st :
  match users st !! uid with
  | Some u => Q tt (set_users (<[uid := f u]> (users st)) st)
  | None => E st
  end ->
  wp (update_user uid f) Q E st.
Proof. unfold wp, update_user. now destruct (users st !! uid). Qed.

Lemma wp_init_user (uid : string) (now : Q) (Q : unit -> bot_data -> Prop) E st :
  match users st !! uid with
  | Some _ => Q tt st
  | None => Q tt (set_users (<[uid := fresh_user now]> (users st)) st)
  end ->
  wp (init_user uid now) Q E st.
Proof. unfold wp, init_user, modify. now destruct (users st !! uid). Qed.

Lemma keeps_call {A B} (P : bot_data -> Prop) (m : M A) (k : A -> M B)
  (Q : B -> bot_data -> Prop) st :
  keeps P m -> P st ->
  (forall a st', P st' -> wp (k a) Q P st') ->
  wp (bind m k) Q P st.
Proof.
  intros Hk HP Hrest. apply wp_bind.
  eapply wp_call; [exact Hk | exact HP | | auto].
  intros a st' HP'. now apply Hrest.
Qed.

(** One step of symbolic execution. *)
Ltac wp_step :=
  lazymatch goal with
  | |- wp (bind _ _) _ _ _ => apply wp_bind
  | |- wp (ret _) _ _ _ => apply wp_ret
  | |- wp (raise _) _ _ _ => apply wp_raise
  | |- wp (gets _) _ _ _ => apply wp_gets
  | |- wp (modify _) _ _ _ => apply wp_modify
  | |- wp (init_user _ _) _ _ _ => apply wp_init_user; simpl
  | |- wp (user_of _) _ _ _ => apply wp_user_of; simpl
  | |- wp (update_user _ _) _ _ _ => apply wp_update_user; simpl
  | |- wp (if ?b then _ else _) _ _ _ => destruct b eqn:?
  | |- wp (match ?x with _ => _ end) _ _ _ => destruct x eqn:?
  end.

Lemma wp_run {A} (m : M A) (a : A) (st st' : bot_data) :
  wp m (fun b s => b = a /\ s = st') (fun _ => False) st -> m st = (Ok a, st').
Proof.
  unfold wp. destruct (m st) as [[b | e] s]; [| contradiction].
  now intros [-> ->].
Qed.

Lemma wp_state_after {A} (m : M A) (G : bot_data -> Prop) st :
  wp m (fun _ => G) G st -> G (state_after m st).
Proof. unfold wp, state_after. destruct (m st) as [[a | e] st']; exact id. Qed.

Lemma wp_bind_eq {A B} (m : M A) (k : A -> M B) (a : A) (st st' : bot_data)
  (Q : B -> bot_data -> Prop) E :
  m st = (Ok a, st') -> wp (k a) Q E st' -> wp (bind m k) Q E st.
Proof. intros Hm Hk. apply wp_bind. unfold wp at 1. now rewrite Hm. Qed.

(** Lookups that the context decides. *)
Ltac lookup_known :=
  repeat first
    [ rewrite lookup_insert_eq
    | match goal with
      | H : ?m !! ?k = _ |- context [?m !! ?k] => rewrite H
      end ].

Ltac wp_go := repeat (wp_step; simpl; lookup_known).

(** ** The cascade *)

Lemma cascade_loop_S (fuel : nat) (current_id : string) (current_points : Q)
  (depth : nat) (streak_bonus : Q) :
  cascade_loop (S fuel) current_id current_points depth streak_bonus =
  (if negb (String.eqb current_id "")
      && Qle_bool (1 # 100) current_points
      && (depth <? 10)%nat
   then
     award_points current_id current_points depth streak_bonus ;;;
     parents <- gets relationships ;;
     match parents !! current_id with
     | Some parent => cascade_loop fuel parent (current_points / 2) (S depth) 1
     | None => ret tt
     end
   else ret tt).
Proof. reflexivity. Qed.

Lemma award_points_run (st : bot_data) (id : string) (u : user) (p : Q)
  (d : nat) (b : Q) :
  users st !! id = Some u ->
  award_points id p d b st = (Ok tt, pay_one st (mk_award id p d b)).
Proof.
  intros H. unfold award_points, pay_one. unfold bind, modify, update_user. simpl.
  rewrite H. simpl. rewrite lookup_insert_eq. simpl.
  unfold set_award_log, set_users. simpl. now rewrite insert_insert_eq.
Qed.

Lemma pay_one_relationships (st : bot_data) (a : award) :
  relationships (pay_one st a) = relationships st.
Proof. unfold pay_one. now destruct (users st !! award_to a). Qed.

Lemma pay_one_known (st : bot_data) (a : award) (id : string) :
  is_Some (users (pay_one st a) !! id) <-> is_Some (users st !! id).
Proof.
  unfold pay_one. destruct (users st !! award_to a) eqn:E; [| reflexivity].
  simpl. destruct (decide (award_to a = id)) as [<- | Hne].
  - rewrite lookup_insert_eq, E. split; eauto.
  - now rewrite lookup_insert_ne.
Qed.

Lemma cascade_loop_run (fuel : nat) :
  forall (id : string) (p : Q) (d : nat) (b : Q) (st : bot_data),
  (forall a, a ∈ cascade_plan (relationships st) fuel id p d b ->
             is_Some (users st !! award_to a)) ->
  cascade_loop fuel id p d b st
  = (Ok tt, pay (cascade_plan (relationships st) fuel id p d b) st).
Proof.
  induction fuel as [| fuel IH]; intros id p d b st Hknown; [reflexivity |].
  rewrite cascade_loop_S. simpl in *.
  destruct (negb (String.eqb id "") && Qle_bool (1 # 100) p && (d <? 10)%nat);
    [| reflexivity].
  destruct (Hknown (mk_award id p d b)) as [u Hu]; [left |]. simpl in Hu.
  unfold bind at 1. rewrite (award_points_run st id u p d b Hu).
  unfold bind at 1, gets at 1. rewrite pay_one_relationships.
  unfold pay. simpl.
  destruct (relationships st !! id) as [parent |] eqn:Ep; [| reflexivity].
  rewrite IH.
  - now rewrite pay_one_relationships.
  - rewrite pay_one_relationships. intros a Ha.
    apply pay_one_known. apply Hknown. now right.
Qed.

Arguments halved : simpl never.

Lemma halved_S (k : nat) (p : Q) : halved (S k) p = halved k (p / 2).
Proof. unfold halved. now rewrite Nat.iter_succ_r. Qed.

Lemma halved_le (k : nat) : forall p : Q, 0 <= p -> halved k p <= p /\ 0 <= halved k p.
Proof.
  induction k as [| k IH]; intros p Hp; [unfold halved; simpl; lra |].
  rewrite halved_S.
  assert (0 <= p / 2) as Hh by (apply Qle_shift_div_l; lra).
  destruct (IH (p / 2) Hh) as [H1 H2]. split; [| exact H2].
  assert (p / 2 <= p) by (apply Qle_shift_div_r; lra). lra.
Qed.

(** Which awards the walk makes: the [k]-th one exactly when [k] is below
    the cap, the amount halved [k] times is still at least 0.01, and there is
    a [k]-th ancestor. *)
Lemma cascade_plan_lookup (parents : gmap string string) (fuel : nat) :
  (forall c, parents !! c <> Some ""%string) ->
  forall (id : string) (p : Q) (d : nat) (b : Q) (k : nat),
  id <> ""%string ->
  (10 <= fuel + d)%nat ->
  cascade_plan parents fuel id p d b !! k =
    match ancestor parents k id with
    | Some r =>
        if Qle_bool (1 # 100) (halved k p) && (d + k <? 10)%nat
        then Some (mk_award r (halved k p) (d + k) (if k is O then b else 1))
        else None
    | None => None
    end.
Proof.
  intros Hne. induction fuel as [| fuel IH]; intros id p d b k Hid Hfuel.
  - simpl. destruct (ancestor parents k id); [| reflexivity].
    replace (d + k <? 10)%nat with false by (symmetry; apply Nat.ltb_ge; lia).
    now rewrite andb_false_r.
  - simpl. apply String.eqb_neq in Hid. rewrite Hid. simpl.
    destruct (Qle_bool (1 # 100) p) eqn:Ep; simpl.
    + destruct (d <? 10)%nat eqn:Ed; simpl.
      * destruct k as [| k]; simpl.
        -- change (halved 0 p) with p. rewrite Ep, Nat.add_0_r, Ed. reflexivity.
        -- destruct (parents !! id) as [parent |] eqn:Epar; [| reflexivity].
           rewrite IH.
           ++ rewrite halved_S. replace (S d + k)%nat with (d + S k)%nat by lia.
              now destruct k.
           ++ intros ->. now apply (Hne id).
           ++ lia.
      * destruct (ancestor parents k id); [| reflexivity].
        replace (d + k <? 10)%nat with false
          by (symmetry; apply Nat.ltb_ge; apply Nat.ltb_ge in Ed; lia).
        now rewrite andb_false_r.
    + destruct (ancestor parents k id); [| reflexivity].
      replace (Qle_bool (1 # 100) (halved k p)) with false; [reflexivity |].
      symmetry. apply Qle_bool_false. apply Qle_bool_false in Ep.
      destruct (Qlt_le_dec p 0) as [Hneg | Hpos].
      * clear -Hneg. revert p Hneg. induction k as [| k IHk]; intros p Hneg; [unfold halved; simpl; lra |].
        rewrite halved_S. apply IHk.
        apply Qlt_shift_div_r; lra.
      * destruct (halved_le k p Hpos). lra.
Qed.

Lemma pay_log (plan : list award) :
  forall st : bot_data,
  Forall (fun a => is_Some (users st !! award_to a)) plan ->
  award_log (pay plan st) = award_log st ++ plan.
Proof.
  induction plan as [| a plan IH]; intros st Hk; simpl.
  - now rewrite app_nil_r.
  - inversion Hk as [| ? ? [u Hu] Hk']; subst. unfold pay in *. simpl.
    rewrite IH.
    + unfold pay_one. rewrite Hu. simpl. now rewrite <- app_assoc.
    + eapply Forall_impl; [exact Hk' |]. intros b Hb. now apply pay_one_known.
Qed.

Lemma pay_balance (plan : list award) :
  forall (st : bot_data) (r : string) (u : user),
  Forall (fun a => is_Some (users st !! award_to a)) plan ->
  users st !! r = Some u ->
  exists u',
    users (pay plan st) !! r = Some u'
    /\ lover_points u' == lover_points u + sum_to r plan.
Proof.
  induction plan as [| a plan IH]; intros st r u Hk Hr; simpl.
  - exists u. split; [exact Hr | ring].
  - inversion Hk as [| ? ? [ua Hua] Hk']; subst.
    assert (Forall (fun b => is_Some (users (pay_one st a) !! award_to b)) plan) as Hk''.
    { eapply Forall_impl; [exact Hk' |]. intros b Hb. now apply pay_one_known. }
    unfold pay. simpl. fold (pay plan (pay_one st a)).
    destruct (String.eqb (award_to a) r) eqn:E.
    + apply String.eqb_eq in E. subst r. rewrite Hr in Hua. injection Hua as <-.
      destruct (IH (pay_one st a) (award_to a) (credit (award_points_of a) u) Hk'')
        as (u' & Hu' & Hbal).
      { unfold pay_one. rewrite Hr. simpl. apply lookup_insert_eq. }
      exists u'. split; [exact Hu' |]. rewrite Hbal. simpl. ring.
    + apply String.eqb_neq in E.
      destruct (IH (pay_one st a) r u Hk'') as (u' & Hu' & Hbal).
      { unfold pay_one. rewrite Hua. simpl. now rewrite lookup_insert_ne. }
      exists u'. split; [exact Hu' | exact Hbal].
Qed.

Lemma ancestor_known (st : bot_data) :
  map_Forall (fun _ parent => is_Some (users st !! parent)) (relationships st) ->
  forall (k : nat) (id r : string),
  is_Some (users st !! id) ->
  ancestor (relationships st) k id = Some r -> is_Some (users st !! r).
Proof.
  intros Hall. induction k as [| k IH]; intros id r Hid Hanc; simpl in Hanc.
  - now injection Hanc as <-.
  - destruct (relationships st !! id) as [parent |] eqn:E; [| discriminate].
    apply (IH parent r); [| exact Hanc]. exact (Hall id parent E).
Qed.

Lemma cascade_plan_known (st : bot_data) (id : string) (p b : Q) :
  map_Forall (fun _ parent => parent <> ""%string) (relationships st) ->
  map_Forall (fun _ parent => is_Some (users st !! parent)) (relationships st) ->
  id <> ""%string ->
  is_Some (users st !! id) ->
  Forall (fun a => is_Some (users st !! award_to a))
    (cascade_plan (relationships st) 10 id p 0 b).
Proof.
  intros Hne Hall Hid Hu. apply Forall_lookup. intros k a Ha.
  rewrite cascade_plan_lookup in Ha; [| | exact Hid | lia].
  - destruct (ancestor (relationships st) k id) as [r |] eqn:E; [| discriminate].
    destruct (_ && _); [| discriminate]. injection Ha as <-. simpl.
    eapply ancestor_known; eauto.
  - intros c Hc. exact (Hne c _ Hc eq_refl).
Qed.

Lemma halved_pow (k : nat) :
  forall p : Q, halved k p == p / inject_Z (2 ^ Z.of_nat k).
Proof.
  induction k as [| k IH]; intros p.
  - change (halved 0 p) with p. change (inject_Z (2 ^ Z.of_nat 0)) with 1. field.
  - rewrite halved_S, IH, Nat2Z.inj_succ, Z.pow_succ_r by lia.
    rewrite inject_Z_mult.
    assert (~ inject_Z (2 ^ Z.of_nat k) == 0) as Hnz.
    { intros E. apply (inject_Z_injective (2 ^ Z.of_nat k) 0) in E.
      assert (0 < 2 ^ Z.of_nat k)%Z by (apply Z.pow_pos_nonneg; lia). lia. }
    field. exact Hnz.
Qed.

Ltac string_eqb :=
  repeat match goal with
  | |- context [String.eqb ?a ?a] => rewrite (String.eqb_refl a)
  | |- context [String.eqb ?a ?b] =>
      rewrite (proj2 (String.eqb_neq a b)) by congruence
  end.

(** In [roombot.py], [award_points_cascade] walks up the parent chain from
    the direct inviter: the [k]-th award (the inviter's own being the 0-th) goes to the
    [k]-th ancestor and is the first amount halved [k] times, and it is made
    exactly when [k] is below the cap of 10, that amount is at least 0.01 and
    there is a [k]-th ancestor; each award is added to the stored balance of
    its recipient.  On a chain of five accounts, with base 10 and a streak
    of 0, the awards are 10, 5, 2.5, 1.25 and 0.625, and each balance grows by
    its award. *)
Theorem cascade_walk (st : bot_data) (uid : string) (u : user) (base : Q) :
  users st !! uid = Some u ->
  uid <> ""%string ->
  map_Forall (fun _ parent => parent <> ""%string) (relationships st) ->
  map_Forall (fun _ parent => is_Some (users st !! parent)) (relationships st) ->
  let bonus := 1 + inject_Z (default 0%Z (invite_streak u)) * (1 # 10) in
  let first := base * bonus in
  exists (plan : list award) (st' : bot_data),
    award_points_cascade uid base st = (Ok tt, st')
    /\ award_log st' = award_log st ++ plan
    /\ (forall k, is_Some (plan !! k) <->
          (k < 10)%nat /\ 1 # 100 <= halved k first
          /\ is_Some (ancestor (relationships st) k uid))
    /\ (forall k a, plan !! k = Some a ->
          ancestor (relationships st) k uid = Some (award_to a)
          /\ award_points_of a = halved k first
          /\ award_points_of a == first / inject_Z (2 ^ Z.of_nat k)
          /\ award_depth a = k)
    /\ (forall r a, users st !! r = Some a ->
          exists a', users st' !! r = Some a'
            /\ lover_points a' == lover_points a + sum_to r plan)
    /\ (forall u1 u2 u3 u4 : string,
          base = 10 ->
          default 0%Z (invite_streak u) = 0%Z ->
          relationships st !! uid = Some u1 ->
          relationships st !! u1 = Some u2 ->
          relationships st !! u2 = Some u3 ->
          relationships st !! u3 = Some u4 ->
          relationships st !! u4 = None ->
          let credits := [(uid, 10); (u1, 5); (u2, 5 # 2); (u3, 5 # 4); (u4, 5 # 8)] in
          Forall2 (fun a c => award_to a = c.1 /\ award_points_of a == c.2)
            plan credits
          /\ forall c a, c ∈ credits -> users st !! c.1 = Some a ->
               exists a', users st' !! c.1 = Some a'
                 /\ lover_points a' == lover_points a + c.2).
Proof.
  intros Hu Hid Hne Hall bonus first.
  set (plan := cascade_plan (relationships st) 10 uid first 0 bonus).
  assert (forall c, relationships st !! c <> Some ""%string) as Hne'.
  { intros c Hc. exact (Hne c _ Hc eq_refl). }
  assert (Forall (fun a => is_Some (users st !! award_to a)) plan) as Hknown.
  { apply cascade_plan_known; eauto. }
  assert (forall k, plan !! k =
            match ancestor (relationships st) k uid with
            | Some r =>
                if Qle_bool (1 # 100) (halved k first) && (k <? 10)%nat
                then Some (mk_award r (halved k first) k (if k is O then bonus else 1))
                else None
            | None => None
            end) as Hlookup.
  { intros k. unfold plan. rewrite cascade_plan_lookup; auto. }
  assert (forall r a, users st !! r = Some a ->
            exists a', users (pay plan st) !! r = Some a'
              /\ lover_points a' == lover_points a + sum_to r plan) as Hbal.
  { intros r a Hr. now apply pay_balance. }
  exists plan, (pay plan st).
  split; [| split; [| split; [| split; [| split]]]].
  - unfold award_points_cascade, bind at 1, user_of at 1. rewrite Hu.
    apply cascade_loop_run. rewrite <- Forall_forall. exact Hknown.
  - now apply pay_log.
  - intros k. rewrite Hlookup.
    destruct (ancestor (relationships st) k uid) as [r |].
    + destruct (Qle_bool (1 # 100) (halved k first)) eqn:Ep;
        destruct (k <? 10)%nat eqn:Ek; simpl.
      * apply Qle_bool_iff in Ep. apply Nat.ltb_lt in Ek. split; eauto.
      * apply Nat.ltb_ge in Ek. split; [intros [? ?]; discriminate |].
        intros (? & _). lia.
      * apply Qle_bool_false in Ep. split; [intros [? ?]; discriminate |].
        intros (_ & ? & _). lra.
      * apply Nat.ltb_ge in Ek. split; [intros [? ?]; discriminate |].
        intros (? & _). lia.
    + split; [intros [? ?]; discriminate |]. intros (_ & _ & [? ?]). discriminate.
  - intros k a Ha. rewrite Hlookup in Ha.
    destruct (ancestor (relationships st) k uid) as [r |]; [| discriminate].
    destruct (_ && _); [| discriminate]. injection Ha as <-. simpl.
    repeat split. apply halved_pow.
  - exact Hbal.
  - intros u1 u2 u3 u4 -> Hstreak H01 H12 H23 H34 H4 credits.
    assert (plan = [ mk_award uid (halved 0 first) 0 bonus;
                     mk_award u1 (halved 1 first) 1 1;
                     mk_award u2 (halved 2 first) 2 1;
                     mk_award u3 (halved 3 first) 3 1;
                     mk_award u4 (halved 4 first) 4 1 ]) as Hplan.
    { apply list_eq. intros k. rewrite Hlookup.
      unfold first, bonus. rewrite Hstreak.
      destruct k as [| [| [| [| [| k]]]]]; simpl; rewrite ?H01, ?H12, ?H23, ?H34, ?H4;
        reflexivity. }
    assert (Forall2 (fun a c => award_to a = c.1 /\ award_points_of a == c.2)
              plan credits) as Hcredits.
    { rewrite Hplan. unfold credits, first, bonus. rewrite Hstreak.
      repeat constructor. }
    split; [exact Hcredits |].
    intros c a Hc Ha.
    destruct (Hbal c.1 a Ha) as (a' & Ha' & Hsum).
    exists a'. split; [exact Ha' |]. rewrite Hsum.
    apply Qplus_inj_l.
    rewrite Hplan. unfold first, bonus. rewrite Hstreak. unfold credits in Hc.
    assert (uid <> u1 /\ uid <> u2 /\ uid <> u3 /\ uid <> u4
            /\ u1 <> u2 /\ u1 <> u3 /\ u1 <> u4
            /\ u2 <> u3 /\ u2 <> u4 /\ u3 <> u4) as Hdistinct.
    { repeat split; congruence. }
    destruct Hdistinct as (? & ? & ? & ? & ? & ? & ? & ? & ? & ?).
    repeat (apply elem_of_cons in Hc as [-> | Hc]); [.. | inversion Hc];
      simpl; string_eqb; reflexivity.
Qed.

Lemma cascade_walk_witness :
  users chain5 !! "1" = Some (fresh_user 1700000000)
  /\ "1"%string <> ""%string
  /\ map_Forall (fun _ parent => parent <> ""%string) (relationships chain5)
  /\ map_Forall (fun _ parent => is_Some (users chain5 !! parent))
       (relationships chain5)
  /\ exists (plan : list award) (st' : bot_data),
       award_points_cascade "1" 10 chain5 = (Ok tt, st')
       /\ award_log st' = plan
       /\ Forall2 (fun a c => award_to a = c.1 /\ award_points_of a == c.2) plan
            [("1", 10); ("2", 5); ("3", 5 # 2); ("4", 5 # 4); ("5", 5 # 8)]%string.
Proof.
  assert (map_Forall (fun _ parent => parent <> ""%string) (relationships chain5)) as H3.
  { apply (bool_decide_unpack _). vm_compute. exact I. }
  assert (map_Forall (fun _ parent => is_Some (users chain5 !! parent))
            (relationships chain5)) as H4.
  { apply (bool_decide_unpack _). vm_compute. exact I. }
  assert ("1"%string <> ""%string) as H2 by discriminate.
  split; [reflexivity |]. split; [exact H2 |]. split; [exact H3 |].
  split; [exact H4 |].
  destruct (cascade_walk chain5 "1" (fresh_user 1700000000) 10 eq_refl H2 H3 H4)
    as (plan & st' & Hrun & Hlog & _ & _ & _ & Hchain).
  exists plan, st'. split; [exact Hrun |]. split; [exact Hlog |].
  apply (Hchain "2" "3" "4" "5")%string; reflexivity.
Defined.

(** ** Invite streaks *)

Lemma update_invite_streak_run (st : bot_data) (uid : string) (u : user) (now : Q) :
  users st !! uid = Some u ->
  let last := default 0 (last_invite_success u) in
  (now - last < 86400 -> is_Some (invite_streak u)) ->
  let streak :=
    if Qltb (now - last) 86400 then (default 0 (invite_streak u) + 1)%Z else 1%Z in
  let u1 := set_last_invite_success (Some now) (set_invite_streak (Some streak) u) in
  update_invite_streak uid now st
  = (Ok tt,
     set_users (<[uid := set_heat_score (Some (heat_of u1 now)) u1]> (users st)) st).
Proof.
  intros Hu last Hs streak u1. apply wp_run.
  unfold update_invite_streak, calculate_heat_score.
  wp_step. wp_step. simpl. lookup_known. fold last.
  unfold streak in u1. unfold u1. clear u1 streak.
  destruct (Qltb (now - last) 86400) eqn:E.
  - apply Qltb_lt in E. destruct (Hs E) as [k Hk]. rewrite Hk.
    wp_go. split; [reflexivity |].
    unfold set_users. simpl. rewrite !insert_insert_eq. reflexivity.
  - wp_go. split; [reflexivity |].
    unfold set_users. simpl. rewrite !insert_insert_eq. reflexivity.
Qed.

Lemma keeps_streak_update (inviter : string) (streak : Z) (now : Q)
  (logged : list award) (uid : string) (f : user -> user) :
  leaves_streak f ->
  keeps (streak_kept inviter streak now logged) (update_user uid f).
Proof.
  intros Hf st [(u & Hu & Hs & Hl) Hlog]. apply wp_update_user.
  destruct (users st !! uid) as [v |] eqn:Ev; [| now split; eauto].
  split; [| exact Hlog]. simpl.
  destruct (decide (uid = inviter)) as [-> | Hne].
  - rewrite lookup_insert_eq. rewrite Hu in Ev. injection Ev as <-.
    exists (f u). destruct (Hf u) as [-> ->]. auto.
  - rewrite lookup_insert_ne by exact Hne. eauto.
Qed.

Lemma keeps_streak_award (inviter : string) (streak : Z) (now : Q)
  (logged : list award) (uid : string) (p : Q) (d : nat) (b : Q) :
  keeps (streak_kept inviter streak now logged) (award_points uid p d b).
Proof.
  intros st HK. unfold award_points.
  eapply keeps_call; [apply keeps_streak_update; now intros u | exact HK |].
  intros _ st1 HK1.
  eapply keeps_call; [apply keeps_streak_update; now intros u | exact HK1 |].
  intros _ st2 [Hu [rest Hlog]]. apply wp_modify. split; [exact Hu |].
  simpl. exists (rest ++ [mk_award uid p d b]). rewrite Hlog. now rewrite app_assoc.
Qed.

Lemma keeps_streak_cascade (inviter : string) (streak : Z) (now : Q)
  (logged : list award) (fuel : nat) :
  forall (id : string) (p : Q) (d : nat) (b : Q),
  keeps (streak_kept inviter streak now logged) (cascade_loop fuel id p d b).
Proof.
  induction fuel as [| fuel IH]; intros id p d b st HK; [exact HK |].
  rewrite cascade_loop_S.
  destruct (_ && _); [| exact HK].
  eapply keeps_call; [apply keeps_streak_award | exact HK |].
  intros _ st1 HK1. apply wp_bind, wp_gets.
  destruct (relationships st1 !! id); [now apply IH | exact HK1].
Qed.

Lemma keeps_streak_milestones (inviter : string) (streak : Z) (now : Q)
  (logged : list award) (uid : string) (successful : Z) (todo : list Z) :
  keeps (streak_kept inviter streak now logged)
    (milestones_loop uid successful todo).
Proof.
  induction todo as [| m todo IH]; intros st HK; [exact HK |].
  rewrite milestones_loop_cons. apply wp_bind, wp_user_of.
  destruct (users st !! uid) as [v |]; [| exact HK].
  destruct (m <=? successful)%Z; [| now apply IH].
  destruct (milestones_reached v) as [reached |]; [| exact HK].
  destruct (bool_decide _); [now apply IH |].
  eapply keeps_call; [apply keeps_streak_update; now intros u | exact HK |].
  intros _ st1 HK1. apply wp_bind.
  eapply wp_call; [apply IH | exact HK1 | | auto].
  intros hit st2 HK2. exact HK2.
Qed.

(** In [roombot.py], when an invited member joins, the streak of the direct
    inviter becomes the old one plus 1 if the last success is less than 86400
    seconds old and 1 otherwise, the time of the last success becomes [now],
    and the cascade runs after that: its first award, to the inviter, is the
    base reward times the factor of the new streak. *)
Theorem streak_updated_before_cascade (st : bot_data) (member inviter : string)
  (u : user) (now : Q) :
  relationships st !! member = Some inviter ->
  users st !! inviter = Some u ->
  inviter <> ""%string ->
  let last := default 0 (last_invite_success u) in
  (now - last < 86400 -> exists k, invite_streak u = Some k /\ (0 <= k)%Z) ->
  let streak :=
    if Qltb (now - last) 86400 then (default 0 (invite_streak u) + 1)%Z else 1%Z in
  let bonus := 1 + inject_Z streak * (1 # 10) in
  let st' := state_after (welcome_member member now) st in
  (now - last < 86400 -> streak = (default 0 (invite_streak u) + 1)%Z)
  /\ (86400 <= now - last -> streak = 1%Z)
  /\ exists (u' : user) (rest : list award),
       users st' !! inviter = Some u'
       /\ invite_streak u' = Some streak
       /\ last_invite_success u' = Some now
       /\ award_log st'
          = award_log st ++ mk_award inviter (INVITE_BASE_POINTS * bonus) 0 bonus :: rest.
Proof.
  intros Hrel Hu Hid last Hk streak bonus st'.
  split; [| split].
  - intros Hlt. unfold streak. apply Qltb_lt in Hlt. now rewrite Hlt.
  - intros Hge. unfold streak. apply Qltb_ge in Hge. now rewrite Hge.
  - set (first := mk_award inviter (INVITE_BASE_POINTS * bonus) 0 bonus).
    assert (streak_kept inviter streak now (award_log st ++ [first]) st') as HK.
    2:{ destruct HK as [(u' & Hu' & Hs & Hl) [rest Hlog]].
        exists u', rest. rewrite <- app_assoc in Hlog. auto. }
    unfold st'. apply wp_state_after. unfold welcome_member.
    assert (forall st0, users st0 !! inviter = Some u ->
              relationships st0 = relationships st -> award_log st0 = award_log st ->
              wp (parents <- gets relationships ;;
                  match parents !! member with
                  | Some inviter_id =>
                      update_invite_streak inviter_id now ;;;
                      award_points_cascade inviter_id INVITE_BASE_POINTS ;;;
                      update_user inviter_id
                        (fun u => set_invites_successful (invites_successful u + 1) u) ;;;
                      check_milestones inviter_id ;;;
                      ret true
                  | None => ret false
                  end)
                (fun _ => streak_kept inviter streak now (award_log st ++ [first]))
                (streak_kept inviter streak now (award_log st ++ [first])) st0) as Hmain.
    { intros st0 Hu0 Hrel0 Hlog0. apply wp_bind, wp_gets. rewrite Hrel0, Hrel.
      eapply wp_bind_eq.
      { apply (update_invite_streak_run st0 inviter u now Hu0).
        intros Hlt. destruct (Hk Hlt) as (k & -> & _). eauto. }
      fold last. fold streak.
      set (u1 := set_last_invite_success (Some now) (set_invite_streak (Some streak) u)).
      set (u2 := set_heat_score (Some (heat_of u1 now)) u1).
      set (st1 := set_users (<[inviter := u2]> (users st0)) st0).
      assert (0 <= streak)%Z as Hpos.
      { unfold streak. destruct (Qltb (now - last) 86400) eqn:E; [| lia].
        apply Qltb_lt in E. destruct (Hk E) as (k & -> & ?). simpl. lia. }
      apply wp_bind. unfold award_points_cascade.
      apply wp_bind, wp_user_of.
      assert (users st1 !! inviter = Some u2) as Hu2
        by (unfold st1; simpl; apply lookup_insert_eq).
      cbv beta. rewrite Hu2.
      change (default 0%Z (invite_streak u2)) with streak.
      change (1 + inject_Z streak * STREAK_BONUS_MULTIPLIER) with bonus.
      rewrite cascade_loop_S.
      apply String.eqb_neq in Hid. rewrite Hid. simpl.
      assert (Qle_bool (1 # 100) (INVITE_BASE_POINTS * bonus) = true) as ->.
      { apply Qle_bool_iff. unfold INVITE_BASE_POINTS, bonus.
        assert (0 <= inject_Z streak) by (change 0 with (inject_Z 0); now rewrite <- Zle_Qle).
        nra. }
      simpl.
      eapply wp_bind_eq.
      { apply (award_points_run st1 inviter u2 _ _ _ Hu2). }
      fold first.
      assert (streak_kept inviter streak now (award_log st ++ [first])
                (pay_one st1 first)) as HK1.
      { unfold pay_one. change (award_to first) with inviter.
        rewrite Hu2. unfold st1. simpl. split.
        - simpl. rewrite lookup_insert_eq. eexists. split; [reflexivity |]. now split.
        - simpl. exists []. now rewrite Hlog0, app_nil_r. }
      assert (wp (parents <- gets relationships ;;
                  match parents !! inviter with
                  | Some parent =>
                      cascade_loop 9 parent (INVITE_BASE_POINTS * bonus / 2) 1 1
                  | None => ret tt
                  end)
                (fun _ => streak_kept inviter streak now (award_log st ++ [first]))
                (streak_kept inviter streak now (award_log st ++ [first]))
                (pay_one st1 first)) as Hloop.
      { apply wp_bind, wp_gets.
        destruct (relationships (pay_one st1 first) !! inviter);
          [now apply keeps_streak_cascade | exact HK1]. }
      eapply wp_mono; [exact Hloop | | auto].
      intros [] st2 HK2. cbv beta in HK2.
      eapply keeps_call; [apply keeps_streak_update; now intros v | exact HK2 |].
      intros _ st3 HK3. apply wp_bind. unfold check_milestones.
      apply wp_bind, wp_user_of.
      destruct (users st3 !! inviter) as [v |]; [| exact HK3].
      eapply wp_call; [apply keeps_streak_milestones | exact HK3 | | auto].
      intros hit st4 HK4. exact HK4. }
    apply wp_bind, wp_init_user.
    destruct (users st !! member) as [um |] eqn:Em.
    + now apply Hmain.
    + apply Hmain; simpl; try reflexivity.
      rewrite lookup_insert_ne; [exact Hu |]. intros ->. congruence.
Qed.

Lemma streak_updated_before_cascade_witness :
  relationships joining !! "m0" = Some "1"%string
  /\ users joining !! "1" = Some streaky
  /\ "1"%string <> ""%string
  /\ exists (u' : user) (rest : list award),
       users (state_after (welcome_member "m0" 1700003600) joining) !! "1"
       = Some u'
       /\ invite_streak u' = Some 3%Z
       /\ last_invite_success u' = Some 1700003600
       /\ award_log (state_after (welcome_member "m0" 1700003600) joining)
          = award_log joining
            ++ mk_award "1" (INVITE_BASE_POINTS * (1 + inject_Z 3 * (1 # 10))) 0
                 (1 + inject_Z 3 * (1 # 10)) :: rest.
Proof.
  assert ("1"%string <> ""%string) as Hid by discriminate.
  split; [reflexivity |]. split; [reflexivity |]. split; [exact Hid |].
  refine (proj2 (proj2 (streak_updated_before_cascade joining "m0" "1" streaky
                          1700003600 eq_refl eq_refl Hid _))).
  intros _. exists 2%Z. split; [reflexivity | lia].
Defined.

(** ** The ledger *)

Lemma ledger_ok_update (st : bot_data) (uid : string) (v : user) :
  ledger_ok st -> user_ok v ->
  ledger_ok (set_users (<[uid := v]> (users st)) st).
Proof.
  intros [Hu Hw] Hv. split; [| exact Hw]. simpl. now apply map_Forall_insert_2.
Qed.

Lemma ledger_ok_user (st : bot_data) (uid : string) (u : user) :
  ledger_ok st -> users st !! uid = Some u -> user_ok u.
Proof. intros [Hu _] H. exact (Hu uid u H). Qed.

Lemma keeps_ok_update (uid : string) (f : user -> user) :
  keeps_user_ok f -> keeps ledger_ok (update_user uid f).
Proof.
  intros Hf st Hok. apply wp_update_user.
  destruct (users st !! uid) as [u |] eqn:E; [| exact Hok].
  apply ledger_ok_update; [exact Hok |]. apply Hf. eapply ledger_ok_user; eauto.
Qed.

Lemma keeps_ok_init_user (uid : string) (now : Q) :
  keeps ledger_ok (init_user uid now).
Proof.
  intros st Hok. apply wp_init_user.
  destruct (users st !! uid); [exact Hok |].
  apply ledger_ok_update; [exact Hok |]. repeat split; simpl; (lra || lia).
Qed.

Ltac user_ok_solve :=
  intros ? (? & ? & ?); repeat split; simpl; try assumption; try lra; try lia.

Lemma keeps_ok_check_level_up (uid : string) :
  keeps ledger_ok (check_level_up uid).
Proof.
  intros st Hok. unfold check_level_up. apply wp_bind, wp_user_of.
  destruct (users st !! uid) as [u |] eqn:E; [| exact Hok].
  destruct (_ <=? _)%Z; [| exact Hok].
  eapply keeps_call; [apply keeps_ok_update; user_ok_solve | exact Hok |].
  intros ? st1 H1.
  eapply keeps_call; [apply keeps_ok_update; user_ok_solve | exact H1 |].
  intros ? st2 H2. exact H2.
Qed.

Lemma keeps_held_update (uid : string) (p : Q) (uid' : string) (f : user -> user) :
  keeps_user_ok f -> takes_nothing f ->
  keeps (ledger_held uid p) (update_user uid' f).
Proof.
  intros Hf Hp st [Hok (u & Hu & Hle)]. apply wp_update_user.
  destruct (users st !! uid') as [v |] eqn:E; [| now split; [| exists u]].
  split.
  - apply ledger_ok_update; [exact Hok |]. apply Hf. eapply ledger_ok_user; eauto.
  - unfold holds. simpl. destruct (decide (uid' = uid)) as [-> | Hne].
    + rewrite lookup_insert_eq. rewrite Hu in E. injection E as <-.
      exists (f u). split; [reflexivity |]. specialize (Hp u). lra.
    + rewrite lookup_insert_ne by exact Hne. now exists u.
Qed.

Lemma held_call {A B} (uid : string) (p : Q) (m : M A) (k : A -> M B)
  (Q : B -> bot_data -> Prop) st :
  keeps (ledger_held uid p) m -> ledger_held uid p st ->
  (forall a st', ledger_held uid p st' -> wp (k a) Q ledger_ok st') ->
  wp (bind m k) Q ledger_ok st.
Proof.
  intros Hk HP Hrest. apply wp_bind.
  eapply wp_call; [exact Hk | exact HP | | now intros st' [? _]].
  intros a st' HP'. now apply Hrest.
Qed.

(** The debit of an amount that the account holds. *)
Lemma debit_held (uid : string) (p : Q) st (Q : unit -> bot_data -> Prop) :
  ledger_held uid p st ->
  (forall st', ledger_ok st' -> Q tt st') ->
  wp (update_user uid (fun u => set_lover_points (lover_points u - p) u))
    Q ledger_ok st.
Proof.
  intros [Hok (u & Hu & Hle)] HQ. apply wp_update_user. rewrite Hu.
  apply HQ. apply ledger_ok_update; [exact Hok |].
  destruct (ledger_ok_user st uid u Hok Hu) as (? & ? & ?).
  repeat split; simpl; try assumption. lra.
Qed.

Ltac keeps_ok_updates :=
  repeat (lazymatch goal with |- wp (bind _ _) _ _ _ => idtac end;
          eapply keeps_call;
          [ first [ apply keeps_ok_update; user_ok_solve
                  | apply keeps_ok_init_user
                  | apply keeps_ok_check_level_up ]
          | eassumption | ];
          intros ? ? ?).

(** *** Gifts, bonuses, penalties *)

Lemma keeps_ok_cmd_gift (giver_id : string) (recipient : option string)
  (arg : amount_arg) (now : Q) :
  keeps ledger_ok (cmd_gift giver_id recipient arg now).
Proof.
  intros st Hok. unfold cmd_gift. keeps_ok_updates.
  destruct recipient as [recipient_id |]; [| assumption].
  destruct arg as [| | raw]; try assumption.
  destruct (Qle_bool raw 0) eqn:Eraw; [assumption |].
  destruct (Qltb 10000 raw); [assumption |].
  destruct (String.eqb recipient_id giver_id); [assumption |].
  keeps_ok_updates.
  apply wp_bind, wp_user_of.
  destruct (users _ !! giver_id) as [giver |] eqn:Eg; [| assumption].
  destruct (Qltb (lover_points giver) (round2 raw)) eqn:Ep; [assumption |].
  apply Qltb_ge in Ep. apply wp_bind.
  apply debit_held; [split; [assumption | now exists giver] |].
  intros st2 H2.
  assert (0 <= round2 raw) as Hpos.
  { apply round2_nonneg. apply Qle_bool_false in Eraw. lra. }
  keeps_ok_updates. assumption.
Qed.

Lemma keeps_ok_cmd_daily (user_id : string) (now : Q) :
  keeps ledger_ok (cmd_daily user_id now).
Proof.
  intros st Hok. unfold cmd_daily. keeps_ok_updates.
  apply wp_bind, wp_user_of.
  destruct (users _ !! user_id) as [u |] eqn:Eu; [| assumption].
  destruct (Qltb _ _); [assumption |].
  destruct (ledger_ok_user _ _ _ ltac:(eassumption) Eu) as (Hp & Hl & Hd).
  assert (0 <= inject_Z (10 + level u * 2 + Z.min (days_active u) 30)) as Hbonus.
  { change 0 with (inject_Z 0). rewrite <- Zle_Qle. lia. }
  keeps_ok_updates. assumption.
Qed.

Lemma keeps_ok_handle_member_left (user_id : string) (now : Q) :
  keeps ledger_ok (handle_member_left user_id now).
Proof.
  intros st Hok. unfold handle_member_left. apply wp_bind, wp_gets.
  destruct (relationships st !! user_id) as [inviter_id |]; [| assumption].
  apply wp_bind, wp_gets.
  destruct (users st !! inviter_id) as [u |] eqn:Eu; [| assumption].
  apply wp_bind, wp_update_user. rewrite Eu.
  apply wp_bind, wp_update_user. simpl. rewrite lookup_insert_eq.
  assert (ledger_ok
            (set_users
               (<[inviter_id := set_lover_points (max0 (lover_points u - (1 # 2))) u]>
                  (users st)) st)) as H1.
  { apply ledger_ok_update; [exact Hok |].
    destruct (ledger_ok_user st inviter_id u Hok Eu) as (? & ? & ?).
    repeat split; simpl; try assumption. apply max0_nonneg. }
  unfold set_users in *. simpl in *. rewrite insert_insert_eq.
  unfold calculate_heat_score. apply wp_bind, wp_bind, wp_user_of. simpl.
  rewrite lookup_insert_eq. apply wp_ret.
  eapply wp_call; [apply keeps_ok_update; user_ok_solve | exact H1 | auto | auto].
Qed.

(** *** Wagers *)

Lemma refund_expired_cons (entry : string * wager) (expired : list (string * wager)) :
  refund_expired (entry :: expired) =
  ((if w_accepted entry.2 then ret tt
    else
      known <- gets users ;;
      match known !! w_challenger_id entry.2 with
      | Some _ =>
          update_user (w_challenger_id entry.2)
            (fun u => set_lover_points (lover_points u + w_points entry.2) u)
      | None => ret tt
      end) ;;;
   refund_expired expired).
Proof. now destruct entry. Qed.

Lemma keeps_ok_refund_expired (expired : list (string * wager)) :
  Forall (fun entry => 0 <= w_points entry.2) expired ->
  keeps ledger_ok (refund_expired expired).
Proof.
  induction expired as [| entry expired IH]; intros Hall st Hok; [exact Hok |].
  inversion Hall as [| ? ? Hpos Hall']; subst.
  rewrite refund_expired_cons. apply wp_bind.
  assert (wp (refund_expired expired) (fun _ => ledger_ok) ledger_ok st) as Hrest
    by now apply IH.
  destruct (w_accepted entry.2); [exact Hrest |].
  apply wp_bind, wp_gets.
  destruct (users st !! w_challenger_id entry.2); [| exact Hrest].
  eapply wp_call; [apply keeps_ok_update; user_ok_solve | exact Hok | | auto].
  intros ? st1 H1. now apply IH.
Qed.

Lemma foldr_delete_lookup {V} (m : gmap string V) (l : list (string * V))
  (k : string) (v : V) :
  foldr (fun entry m => delete entry.1 m) m l !! k = Some v -> m !! k = Some v.
Proof.
  induction l as [| entry l IH]; simpl; [exact id |].
  intros H. apply lookup_delete_Some in H as [_ H]. now apply IH.
Qed.

Lemma keeps_ok_cleanup_expired_wagers (now : Q) :
  keeps ledger_ok (cleanup_expired_wagers now).
Proof.
  intros st Hok. unfold cleanup_expired_wagers. apply wp_bind, wp_gets.
  eapply keeps_call; [apply keeps_ok_refund_expired | exact Hok |].
  - apply Forall_forall. intros [id w] Hin.
    apply list_elem_of_In, filter_In in Hin as [Hin _].
    apply list_elem_of_In, elem_of_map_to_list in Hin.
    destruct Hok as [_ Hw]. exact (Hw id w Hin).
  - intros ? st1 [Hu Hw]. apply wp_modify. split; [exact Hu |]. simpl.
    intros id w Hin. apply foldr_delete_lookup in Hin. exact (Hw id w Hin).
Qed.

Lemma ledger_ok_pending (st : bot_data) (pending : gmap string wager) :
  ledger_ok st ->
  map_Forall (fun _ w => 0 <= w_points w) pending ->
  ledger_ok (set_pending_wagers pending st).
Proof. intros [Hu _] Hw. now split. Qed.

Lemma holds_pending (uid : string) (p : Q) (st : bot_data)
  (pending : gmap string wager) :
  holds uid p st -> holds uid p (set_pending_wagers pending st).
Proof. exact id. Qed.

Lemma keeps_ok_cmd_wager (challenger_id first_name : string) (arg : amount_arg)
  (now : Q) :
  keeps ledger_ok (cmd_wager challenger_id first_name arg now).
Proof.
  intros st Hok. unfold cmd_wager. keeps_ok_updates.
  eapply keeps_call; [apply keeps_ok_cleanup_expired_wagers | eassumption |].
  intros ? st1 H1.
  destruct arg as [| | raw]; try assumption.
  destruct (Qle_bool raw 0) eqn:Eraw; [assumption |]. simpl.
  destruct (Qltb 1000 raw); [assumption |].
  assert (0 <= round2 raw) as Hpos.
  { apply round2_nonneg. apply Qle_bool_false in Eraw. lra. }
  apply wp_bind, wp_user_of.
  destruct (users st1 !! challenger_id) as [challenger |] eqn:Ec; [| assumption].
  destruct (Qltb (lover_points challenger) (round2 raw)) eqn:Ep; [assumption |].
  apply Qltb_ge in Ep. apply wp_bind, wp_modify. apply wp_bind.
  apply debit_held.
  - split.
    + apply ledger_ok_pending; [exact H1 |].
      apply map_Forall_insert_2; [exact Hpos | apply H1].
    + now exists challenger.
  - intros st2 H2. exact H2.
Qed.

Lemma keeps_held_modify_pending (uid : string) (p : Q)
  (g : gmap string wager -> gmap string wager) :
  (forall pending, map_Forall (fun _ w => 0 <= w_points w) pending ->
                   map_Forall (fun _ w => 0 <= w_points w) (g pending)) ->
  keeps (ledger_held uid p)
    (modify (fun st => set_pending_wagers (g (pending_wagers st)) st)).
Proof.
  intros Hg st [[Hu Hw] Hh]. apply wp_modify. split; [| exact Hh].
  split; [exact Hu |]. simpl. now apply Hg.
Qed.

Section WithPower.

Variable pow095 : Q -> Q.

Lemma keeps_held_loveliness (uid : string) (p : Q) (user_id : string) (now : Q) :
  keeps (ledger_held uid p) (calculate_loveliness_score pow095 user_id now).
Proof.
  intros st H. unfold calculate_loveliness_score. apply wp_bind, wp_user_of.
  now destruct (users st !! user_id).
Qed.

Lemma keeps_held_add_total_xp (uid : string) (p : Q) (user_id : string) (amount : Z) :
  keeps (ledger_held uid p) (add_total_xp_earned user_id amount).
Proof.
  intros st H. unfold add_total_xp_earned. apply wp_bind, wp_user_of.
  destruct (users st !! user_id) as [u |]; [| exact H].
  destruct (total_xp_earned u); [| exact H].
  eapply wp_call; [apply keeps_held_update | exact H | auto | auto].
  - user_ok_solve.
  - intros v. simpl. lra.
Qed.

Ltac keeps_held_steps :=
  repeat (lazymatch goal with |- wp (bind _ _) _ _ _ => idtac end;
          eapply held_call;
          [ first [ apply keeps_held_update; [user_ok_solve | intros ?; simpl; lra]
                  | apply keeps_held_loveliness
                  | apply keeps_held_add_total_xp ]
          | eassumption | ];
          intros ? ? ?).

(** The duel when the coin names the challenger: the acceptor, who was
    checked to hold the stake, is the one debited. *)
Lemma execute_duel_challenger_wins (wager_id : string) (wager : wager)
  (user_id : string) (now : Q) st :
  0 <= w_points wager ->
  ledger_held user_id (w_points wager) st ->
  wp (execute_duel pow095 wager_id wager user_id now true)
    (fun _ => ledger_ok) ledger_ok st.
Proof.
  intros Hpos H. unfold execute_duel. keeps_held_steps.
  rewrite String.eqb_refl.
  apply wp_bind. apply debit_held; [assumption |]. intros stx Hx.
  keeps_ok_updates.
  apply wp_bind, wp_modify. apply wp_ret. apply ledger_ok_pending; [assumption |].
  apply map_Forall_delete. match goal with Hok : ledger_ok _ |- _ => apply Hok end.
Qed.

Lemma keeps_ok_handle_callback_query (user_id action wager_id : string) (now : Q) :
  keeps ledger_ok (handle_callback_query pow095 user_id action wager_id now true).
Proof.
  intros st Hok. unfold handle_callback_query. apply wp_bind, wp_gets.
  destruct (pending_wagers st !! wager_id) as [wager |] eqn:Ew; [| exact Hok].
  assert (0 <= w_points wager) as Hpos by (destruct Hok as [_ Hw]; exact (Hw _ _ Ew)).
  assert (forall st', ledger_ok st' ->
            ledger_ok (set_pending_wagers (delete wager_id (pending_wagers st')) st'))
    as Hdel.
  { intros st' H'. apply ledger_ok_pending; [exact H' |].
    apply map_Forall_delete, H'. }
  destruct (Qltb (w_expires_at wager) now).
  { eapply keeps_call; [apply keeps_ok_update; user_ok_solve | exact Hok |].
    intros ? st1 H1. apply wp_bind, wp_modify, wp_ret. now apply Hdel. }
  destruct (String.eqb action "accept").
  { destruct (String.eqb user_id (w_challenger_id wager)); [exact Hok |].
    destruct (w_accepted wager); [exact Hok |].
    keeps_ok_updates. apply wp_bind, wp_user_of.
    destruct (users _ !! user_id) as [acceptor |] eqn:Ea; [| assumption].
    destruct (Qltb (lover_points acceptor) (w_points wager)) eqn:Ep; [assumption |].
    apply Qltb_ge in Ep. apply wp_bind, wp_modify.
    apply execute_duel_challenger_wins; [exact Hpos |]. split.
    - apply ledger_ok_pending; [assumption |].
      apply map_Forall_insert_2; [exact Hpos |].
      match goal with Hok' : ledger_ok _ |- _ => apply Hok' end.
    - now exists acceptor. }
  destruct (String.eqb action "cancel"); [| exact Hok].
  destruct (negb _); [exact Hok |].
  eapply keeps_call; [apply keeps_ok_update; user_ok_solve | exact Hok |].
  intros ? st1 H1. apply wp_bind, wp_modify, wp_ret. now apply Hdel.
Qed.

End WithPower.

(** *** Joins *)

Lemma keeps_ok_update_invite_streak (user_id : string) (now : Q) :
  keeps ledger_ok (update_invite_streak user_id now).
Proof.
  intros st Hok. unfold update_invite_streak. apply wp_bind, wp_user_of.
  destruct (users st !! user_id) as [u |] eqn:Eu; [| exact Hok].
  assert (forall st0, ledger_ok st0 ->
            wp (update_user user_id (set_last_invite_success (Some now)) ;;;
                heat <- calculate_heat_score user_id now ;;
                update_user user_id (set_heat_score (Some heat)))
              (fun _ => ledger_ok) ledger_ok st0) as Hrest.
  { intros st0 H0. keeps_ok_updates. unfold calculate_heat_score.
    apply wp_bind, wp_bind, wp_user_of.
    match goal with
    | |- context [users ?s !! user_id] => destruct (users s !! user_id)
    end; [| assumption].
    apply wp_ret.
    eapply wp_call; [apply keeps_ok_update; user_ok_solve | eassumption | auto | auto]. }
  apply wp_bind. destruct (Qltb _ _).
  - destruct (invite_streak u); [| exact Hok].
    eapply wp_call; [apply keeps_ok_update; user_ok_solve | exact Hok | | auto].
    intros ? st1 H1. now apply Hrest.
  - eapply wp_call; [apply keeps_ok_update; user_ok_solve | exact Hok | | auto].
    intros ? st1 H1. now apply Hrest.
Qed.

Lemma keeps_ok_award_points (user_id : string) (p : Q) (d : nat) (b : Q) :
  0 <= p -> keeps ledger_ok (award_points user_id p d b).
Proof.
  intros Hp st Hok. unfold award_points. keeps_ok_updates.
  apply wp_modify. assumption.
Qed.

Lemma keeps_ok_cascade_loop (fuel : nat) :
  forall (id : string) (p : Q) (d : nat) (b : Q),
  keeps ledger_ok (cascade_loop fuel id p d b).
Proof.
  induction fuel as [| fuel IH]; intros id p d b st Hok; [exact Hok |].
  rewrite cascade_loop_S.
  destruct (negb _) ; [| exact Hok]. simpl.
  destruct (Qle_bool (1 # 100) p) eqn:Ep; [| exact Hok]. simpl.
  destruct (d <? 10)%nat; [| exact Hok].
  apply Qle_bool_iff in Ep.
  eapply keeps_call; [apply keeps_ok_award_points; lra | exact Hok |].
  intros ? st1 H1. apply wp_bind, wp_gets.
  destruct (relationships st1 !! id); [now apply IH | exact H1].
Qed.

Lemma keeps_ok_award_points_cascade (user_id : string) (base_points : Q) :
  keeps ledger_ok (award_points_cascade user_id base_points).
Proof.
  intros st Hok. unfold award_points_cascade. apply wp_bind, wp_user_of.
  destruct (users st !! user_id); [| exact Hok]. now apply keeps_ok_cascade_loop.
Qed.

Lemma keeps_ok_milestones_loop (uid : string) (successful : Z) (todo : list Z) :
  keeps ledger_ok (milestones_loop uid successful todo).
Proof.
  induction todo as [| m todo IH]; intros st Hok; [exact Hok |].
  rewrite milestones_loop_cons. apply wp_bind, wp_user_of.
  destruct (users st !! uid) as [v |]; [| exact Hok].
  destruct (m <=? successful)%Z; [| now apply IH].
  destruct (milestones_reached v) as [reached |]; [| exact Hok].
  destruct (bool_decide _); [now apply IH |].
  eapply keeps_call; [apply keeps_ok_update; user_ok_solve | exact Hok |].
  intros ? st1 H1. apply wp_bind.
  eapply wp_call; [apply IH | exact H1 | | auto].
  intros hit st2 H2. exact H2.
Qed.

Lemma keeps_ok_check_milestones (uid : string) :
  keeps ledger_ok (check_milestones uid).
Proof.
  intros st Hok. unfold check_milestones. apply wp_bind, wp_user_of.
  destruct (users st !! uid); [| exact Hok]. now apply keeps_ok_milestones_loop.
Qed.

Lemma keeps_ok_welcome_member (user_id : string) (now : Q) :
  keeps ledger_ok (welcome_member user_id now).
Proof.
  intros st Hok. unfold welcome_member. keeps_ok_updates. apply wp_bind, wp_gets.
  destruct (relationships _ !! user_id) as [inviter_id |]; [| assumption].
  eapply keeps_call; [apply keeps_ok_update_invite_streak | eassumption |].
  intros ? st1 H1.
  eapply keeps_call; [apply keeps_ok_award_points_cascade | eassumption |].
  intros ? st2 H2.
  eapply keeps_call; [apply keeps_ok_update; user_ok_solve | eassumption |].
  intros ? st3 H3.
  eapply keeps_call; [apply keeps_ok_check_milestones | eassumption |].
  intros ? st4 H4. exact H4.
Qed.

Lemma keeps_ok_handle_new_member (new_chat_members : list string) (now : Q) :
  keeps ledger_ok (handle_new_member new_chat_members now).
Proof.
  induction new_chat_members as [| member others IH]; intros st Hok; [exact Hok |].
  change (handle_new_member (member :: others) now)
    with (welcome_member member now ;;; handle_new_member others now).
  eapply keeps_call; [apply keeps_ok_welcome_member | exact Hok |].
  intros ? st1 H1. now apply IH.
Qed.

(** *** Any sequence of operations *)

Lemma keeps_state_after {A} (P : bot_data -> Prop) (m : M A) (st : bot_data) :
  keeps P m -> P st -> P (state_after m st).
Proof. intros Hk HP. apply wp_state_after. now apply Hk. Qed.

Lemma ledger_step_ok (pow095 : Q -> Q) (st : bot_data) (ev : ledger_event) :
  ledger_ok st -> spares_challenger ev -> ledger_ok (ledger_step pow095 st ev).
Proof.
  intros Hok Hev. destruct ev; simpl in *; apply keeps_state_after; try exact Hok.
  - apply keeps_ok_cmd_wager.
  - subst coin. apply keeps_ok_handle_callback_query.
  - apply keeps_ok_cmd_gift.
  - apply keeps_ok_cmd_daily.
  - apply keeps_ok_handle_new_member.
  - apply keeps_ok_handle_member_left.
Qed.

Lemma ledger_run_ok (pow095 : Q -> Q) (evs : list ledger_event) :
  forall st, ledger_ok st -> Forall spares_challenger evs ->
  ledger_ok (ledger_run pow095 evs st).
Proof.
  induction evs as [| ev evs IH]; intros st Hok Hall; [exact Hok |].
  inversion Hall; subst. unfold ledger_run. simpl.
  apply IH; [| assumption]. now apply ledger_step_ok.
Qed.

Lemma points_are_compute (uid : string) (p : Q) (st : bot_data) (u : user) :
  users st !! uid = Some u -> lover_points u == p -> points_are uid p st.
Proof. intros H E. now exists u. Qed.

(** Two debits that are not compared with the balance.  A challenger who
    staked all 12 points and loses the duel is debited the stake again at
    settlement and ends at -12.  And an inviter holding 0.2 is charged the
    penalty of 0.5 for a member who leaves and ends at 0, the balance being
    cut off there. *)
Lemma balance_goes_negative_and_penalty_is_not_checked :
  (points_are "1" 0 (ledger_run no_decay (take 3 overdrawn_run) initialize_data)
   /\ points_are "1" (-12) (ledger_run no_decay overdrawn_run initialize_data))
  /\ (points_are "1" (1 # 5) (ledger_run no_decay small_gift_run redeemed)
      /\ points_are "1" 0
           (ledger_run no_decay (small_gift_run ++ [EvMemberLeft "m0" 1700000200])
              redeemed)).
Proof.
  repeat split; eapply points_are_compute; vm_compute; reflexivity.
Qed.

(** C2: a balance goes negative in [handle_callback_query].  Both sides hold
    12 points; the challenger stakes all 12 and is left with 0; the acceptor
    presses Accept and wins.  The settlement credits the winner twice the
    stake and debits the loser the stake, whoever the loser is and without
    comparing it with the balance: the challenger, whose stake was taken
    when the wager was made, ends at -12. *)
Theorem settlement_overdraws_the_challenger :
  let before := ledger_run no_decay (take 2 overdrawn_run) initialize_data in
  let staked := ledger_run no_decay (take 3 overdrawn_run) initialize_data in
  let settled := ledger_run no_decay overdrawn_run initialize_data in
  both "1" 12 "2" 12 before
  /\ both "1" 0 "2" 12 staked
  /\ is_Some (pending_wagers staked !! "wager_1700000100_1")
  /\ both "1" (-12) "2" 36 settled
  /\ pending_wagers settled = ∅.
Proof.
  repeat split; try (eapply points_are_compute; vm_compute; reflexivity);
    vm_compute; try reflexivity.
  eexists. reflexivity.
Qed.

(** *** Checks before debits *)

Lemma cmd_gift_checks_first (st : bot_data) (giver_id recipient_id : string)
  (giver : user) (raw now : Q) :
  users st !! giver_id = Some giver ->
  is_Some (users st !! recipient_id) ->
  recipient_id <> giver_id ->
  0 < raw -> raw <= 10000 ->
  lover_points giver < round2 raw ->
  cmd_gift giver_id (Some recipient_id) (Amount raw) now st
  = (Ok (GiftInsufficient (lover_points giver) (round2 raw)), st).
Proof.
  intros Hg [r Hr] Hne Hpos Hmax Hlt. apply wp_run. unfold cmd_gift.
  apply wp_bind, wp_init_user. rewrite Hg.
  apply Qle_bool_false in Hpos. rewrite Hpos.
  apply Qltb_ge in Hmax. rewrite Hmax.
  apply String.eqb_neq in Hne. rewrite Hne.
  apply wp_bind, wp_init_user. rewrite Hr.
  apply wp_bind, wp_user_of. rewrite Hg.
  apply Qltb_lt in Hlt. rewrite Hlt. now apply wp_ret.
Qed.

Lemma refund_expired_returns (expired : list (string * wager)) :
  forall st, exists st', refund_expired expired st = (Ok tt, st').
Proof.
  induction expired as [| entry expired IH]; intros st; [now exists st |].
  rewrite refund_expired_cons. unfold bind at 1.
  destruct (w_accepted entry.2); [apply IH |].
  unfold bind at 1, gets at 1.
  destruct (users st !! w_challenger_id entry.2) eqn:Eu; [| apply IH].
  unfold update_user. rewrite Eu. apply IH.
Qed.

Lemma cleanup_expired_wagers_returns (now : Q) (st : bot_data) :
  exists st', cleanup_expired_wagers now st = (Ok tt, st').
Proof.
  unfold cleanup_expired_wagers, bind at 1, gets at 1, bind at 1.
  destruct (refund_expired_returns
              (List.filter (fun entry => Qltb (w_expires_at entry.2) now)
                 (map_to_list (pending_wagers st))) st) as [st' ->].
  eexists. reflexivity.
Qed.

Lemma cmd_wager_checks_first (st : bot_data) (challenger_id first_name : string)
  (challenger : user) (raw now : Q) :
  let swept :=
    state_after (init_user challenger_id now ;;; cleanup_expired_wagers now) st in
  users swept !! challenger_id = Some challenger ->
  0 < raw -> raw <= 1000 ->
  lover_points challenger < round2 raw ->
  cmd_wager challenger_id first_name (Amount raw) now st
  = (Ok WagerInsufficient, swept).
Proof.
  intros swept Hc Hpos Hmax Hlt. unfold cmd_wager.
  unfold swept, state_after in *. unfold bind in *.
  unfold init_user at 1, modify at 1. unfold init_user at 1, modify at 1 in Hc.
  unfold init_user at 1, modify at 1. simpl in *.
  match goal with
  | |- context [cleanup_expired_wagers now ?s] =>
      destruct (cleanup_expired_wagers_returns now s) as [st2 E2]
  end.
  rewrite E2 in *. simpl in *.
  apply Qle_bool_false in Hpos. rewrite Hpos.
  apply Qltb_ge in Hmax. rewrite Hmax. simpl.
  unfold user_of. rewrite Hc. apply Qltb_lt in Hlt. rewrite Hlt. reflexivity.
Qed.

Lemma accept_checks_first (pow095 : Q -> Q) (st : bot_data)
  (user_id wager_id : string) (wager : wager) (acceptor : user) (now : Q)
  (coin : bool) :
  pending_wagers st !! wager_id = Some wager ->
  now <= w_expires_at wager ->
  user_id <> w_challenger_id wager ->
  w_accepted wager = false ->
  users st !! user_id = Some acceptor ->
  lover_points acceptor < w_points wager ->
  handle_callback_query pow095 user_id "accept" wager_id now coin st
  = (Ok (CbNeedPoints (w_points wager)), st).
Proof.
  intros Hw Ht Hne Hacc Hu Hlt. apply wp_run. unfold handle_callback_query.
  apply wp_bind, wp_gets. rewrite Hw.
  apply Qltb_ge in Ht. rewrite Ht. simpl.
  apply String.eqb_neq in Hne. rewrite Hne, Hacc.
  apply wp_bind, wp_init_user. rewrite Hu.
  apply wp_bind, wp_user_of. rewrite Hu.
  apply Qltb_lt in Hlt. rewrite Hlt. apply wp_ret. split; reflexivity.
Qed.

Lemma member_left_clamps (st : bot_data) (user_id inviter_id : string)
  (inviter : user) (now : Q) :
  relationships st !! user_id = Some inviter_id ->
  users st !! inviter_id = Some inviter ->
  exists inviter',
    users (state_after (handle_member_left user_id now) st) !! inviter_id
    = Some inviter'
    /\ lover_points inviter' = max0 (lover_points inviter - (1 # 2)).
Proof.
  intros Hr Hu. apply wp_state_after with
    (G := fun st' => exists inviter',
            users st' !! inviter_id = Some inviter'
            /\ lover_points inviter' = max0 (lover_points inviter - (1 # 2))).
  unfold handle_member_left, calculate_heat_score.
  apply wp_bind, wp_gets. rewrite Hr. apply wp_bind, wp_gets. rewrite Hu.
  wp_go. eexists. split; [reflexivity |]. reflexivity.
Qed.

(** Where the ledger of [roombot.py] does stay at or above zero, for amounts
    that are numbers ([float()] also accepts ["nan"], which is not an
    [amount_arg]): after any sequence of operations in which no duel is won
    by the acceptor, started from a store with no negative balance.  A gift,
    the creation of a wager and the acceptance of one compare the balance
    with the amount first and debit nothing when it is short (a refused
    [/wager] has still swept the expired wagers); the penalty for a member
    who leaves is not compared: the balance of the inviter becomes
    [max(0, balance - 0.5)]. *)
Theorem ledger_never_negative (pow095 : Q -> Q) :
  (forall (st : bot_data) (evs : list ledger_event),
     ledger_ok st -> Forall spares_challenger evs ->
     forall uid u, users (ledger_run pow095 evs st) !! uid = Some u ->
                   0 <= lover_points u)
  /\ (forall st giver_id recipient_id giver raw now,
        users st !! giver_id = Some giver ->
        is_Some (users st !! recipient_id) ->
        recipient_id <> giver_id ->
        0 < raw -> raw <= 10000 ->
        lover_points giver < round2 raw ->
        cmd_gift giver_id (Some recipient_id) (Amount raw) now st
        = (Ok (GiftInsufficient (lover_points giver) (round2 raw)), st))
  /\ (forall st challenger_id first_name challenger raw now,
        let swept :=
          state_after
            (init_user challenger_id now ;;; cleanup_expired_wagers now) st in
        users swept !! challenger_id = Some challenger ->
        0 < raw -> raw <= 1000 ->
        lover_points challenger < round2 raw ->
        cmd_wager challenger_id first_name (Amount raw) now st
        = (Ok WagerInsufficient, swept))
  /\ (forall st user_id wager_id wager acceptor now coin,
        pending_wagers st !! wager_id = Some wager ->
        now <= w_expires_at wager ->
        user_id <> w_challenger_id wager ->
        w_accepted wager = false ->
        users st !! user_id = Some acceptor ->
        lover_points acceptor < w_points wager ->
        handle_callback_query pow095 user_id "accept" wager_id now coin st
        = (Ok (CbNeedPoints (w_points wager)), st))
  /\ (forall st user_id inviter_id inviter now,
        relationships st !! user_id = Some inviter_id ->
        users st !! inviter_id = Some inviter ->
        exists inviter',
          users (state_after (handle_member_left user_id now) st) !! inviter_id
          = Some inviter'
          /\ lover_points inviter' = max0 (lover_points inviter - (1 # 2))).
Proof.
  split; [| split; [| split; [| split]]].
  - intros st evs Hok Hall uid u Hu.
    destruct (ledger_run_ok pow095 evs st Hok Hall) as [Husers _].
    exact (proj1 (Husers uid u Hu)).
  - intros st giver_id recipient_id giver raw now Hg Hr Hne Hpos Hmax Hlt.
    exact (cmd_gift_checks_first st giver_id recipient_id giver raw now
             Hg Hr Hne Hpos Hmax Hlt).
  - intros st challenger_id first_name challenger raw now swept Hc Hpos Hmax Hlt.
    exact (cmd_wager_checks_first st challenger_id first_name challenger raw
             now Hc Hpos Hmax Hlt).
  - intros st user_id wager_id wager acceptor now coin Hw Ht Hne Hacc Hu Hlt.
    exact (accept_checks_first pow095 st user_id wager_id wager acceptor now
             coin Hw Ht Hne Hacc Hu Hlt).
  - intros st user_id inviter_id inviter now Hr Hu.
    exact (member_left_clamps st user_id inviter_id inviter now Hr Hu).
Qed.

Lemma ledger_never_negative_witness :
  ledger_ok initialize_data
  /\ Forall spares_challenger challenger_wins_run
  /\ points_are "1" 24 (ledger_run no_decay challenger_wins_run initialize_data)
  /\ forall uid u,
       users (ledger_run no_decay challenger_wins_run initialize_data) !! uid
       = Some u ->
       0 <= lover_points u.
Proof.
  assert (ledger_ok initialize_data) as Hok.
  { split; apply map_Forall_empty. }
  assert (Forall spares_challenger challenger_wins_run) as Hall.
  { repeat constructor. }
  split; [exact Hok |]. split; [exact Hall |]. split.
  - eapply points_are_compute; vm_compute; reflexivity.
  - exact (proj1 (ledger_never_negative no_decay) initialize_data
             challenger_wins_run Hok Hall).
Defined.

(** ** Settlement *)







Section Duel.

Variable pow095 : Q -> Q.





End Duel.


(** C1 fails in [handle_callback_query] when the challenger loses.  Both
    sides hold 12; the stake of 5 leaves the challenger 7; at settlement the
    acceptor receives 10, twice the stake, and the challenger is debited 5
    again and ends at 2: 10 lost, not 5.  The two balances still sum to 24.
    On the same numbers [_execute_wager_duel] of the refactored bot leaves
    the challenger at 7 and takes the acceptor to 17. *)
Theorem losing_challenger_pays_twice :
  let before := ledger_run no_decay (take 2 acceptor_wins_run) initialize_data in
  let escrowed := ledger_run no_decay (take 3 acceptor_wins_run) initialize_data in
  let settled := ledger_run no_decay acceptor_wins_run initialize_data in
  both "1" 12 "2" 12 before
  /\ both "1" 7 "2" 12 escrowed
  /\ both "1" 2 "2" 22 settled
  /\ pending_wagers settled = ∅
  /\ Modular.execute_wager_duel 7 12 5 false = (7, 17)%Z.
Proof.
  repeat split; try (eapply points_are_compute; vm_compute; reflexivity);
    vm_compute; reflexivity.
Qed.

(** ** The referral graph *)

Lemma redeem_inv_same_graph (parents0 : gmap string string) (st0 st : bot_data) :
  same_graph st0 st -> redeem_inv parents0 st0 -> redeem_inv parents0 st.
Proof.
  intros (Hi & Hv & Hr) [[Hself Hpend] Hsub]. unfold redeem_inv, redeem_ok.
  rewrite Hi, Hv, Hr. auto.
Qed.

Lemma keeps_graph_update (st0 : bot_data) (uid : string) (f : user -> user) :
  keeps (same_graph st0) (update_user uid f).
Proof.
  intros st H. apply wp_update_user. now destruct (users st !! uid).
Qed.

Lemma keeps_graph_init_user (st0 : bot_data) (uid : string) (now : Q) :
  keeps (same_graph st0) (init_user uid now).
Proof.
  intros st H. apply wp_init_user. now destruct (users st !! uid).
Qed.

Lemma keeps_graph_check_level_up (st0 : bot_data) (uid : string) :
  keeps (same_graph st0) (check_level_up uid).
Proof.
  intros st H. unfold check_level_up. apply wp_bind, wp_user_of.
  destruct (users st !! uid) as [u |]; [| exact H].
  destruct (_ <=? _)%Z; [| exact H].
  eapply keeps_call; [apply keeps_graph_update | exact H |]. intros ? st1 H1.
  eapply keeps_call; [apply keeps_graph_update | exact H1 |]. intros ? st2 H2.
  exact H2.
Qed.

Ltac keeps_graph_steps :=
  repeat (lazymatch goal with |- wp (bind _ _) _ _ _ => idtac end;
          eapply keeps_call;
          [ first [ apply keeps_graph_update
                  | apply keeps_graph_init_user
                  | apply keeps_graph_check_level_up ]
          | eassumption | ];
          intros ? ? ?).

Section Redeem.

Variable pow095 : Q -> Q.

Lemma keeps_graph_track_activity (st0 : bot_data) (uid : string) (now : Q)
  (today : string) :
  keeps (same_graph st0) (track_activity pow095 uid now today).
Proof.
  intros st H. unfold track_activity. apply wp_bind, wp_user_of.
  destruct (users st !! uid) as [u |]; [| exact H].
  destruct (Qle_bool _ _); [| exact H].
  keeps_graph_steps. apply wp_bind, wp_gets, wp_bind.
  assert (forall stx, same_graph st0 stx ->
            wp (update_user uid (set_last_active now) ;;;
                score <- calculate_loveliness_score pow095 uid now ;;
                update_user uid (set_loveliness_score score) ;;;
                check_level_up uid)
              (fun _ => same_graph st0) (same_graph st0) stx) as Hrest.
  { intros stx Hx. keeps_graph_steps. unfold calculate_loveliness_score.
    apply wp_bind, wp_bind, wp_user_of.
    match goal with
    | |- context [users ?s !! uid] => destruct (users s !! uid)
    end; [| assumption].
    apply wp_ret. keeps_graph_steps.
    eapply wp_call; [apply keeps_graph_check_level_up | eassumption | auto | auto]. }
  destruct (bool_decide _).
  - apply wp_ret. now apply Hrest.
  - keeps_graph_steps. apply wp_modify. apply Hrest. assumption.
Qed.

Lemma keeps_redeem_cmd_start (parents0 : gmap string string) (user_id : string)
  (arg : option string) (now : Q) (sample : list nat) :
  keeps (redeem_inv parents0) (cmd_start user_id arg now sample).
Proof.
  intros st H. unfold cmd_start. apply wp_bind.
  eapply wp_call;
    [apply (keeps_graph_init_user st) | now repeat split | | ].
  2:{ intros st' H'. exact (redeem_inv_same_graph _ _ _ H' H). }
  intros ? st1 Hsame.
  assert (redeem_inv parents0 st1) as H1
    by exact (redeem_inv_same_graph _ _ _ Hsame H).
  clear H Hsame st. cbv beta.
  destruct arg as [invite_code |]; [| exact H1].
  apply wp_bind, wp_gets.
  destruct (invites st1 !! invite_code) as [invite_data |] eqn:Ei; [| exact H1].
  destruct (negb _); [exact H1 |].
  apply wp_bind, wp_gets.
  destruct (bool_decide _); [exact H1 |].
  destruct (String.eqb (i_inviter_id invite_data) user_id) eqn:Eself; [exact H1 |].
  apply String.eqb_neq in Eself.
  apply wp_bind. unfold create_verification, is_blacklisted.
  apply wp_bind, wp_bind, wp_user_of.
  destruct (users st1 !! user_id) as [u |]; [| exact H1].
  apply wp_ret. destruct (Qltb _ _); [exact H1 |].
  apply wp_bind, wp_modify, wp_ret. simpl.
  destruct H1 as [[Hself Hpend] Hsub]. split; [split |]; simpl; auto.
  intros w v Hv. apply lookup_insert_Some in Hv as [[<- <-] | [Hne Hv]].
  - simpl. now exists invite_data.
  - now apply Hpend.
Qed.

(** What a verdict of [verify_answer] is worth. *)
Lemma verify_answer_verdict (parents0 : gmap string string) (user_id : string)
  (answer : text) (now : Q) :
  triple (redeem_inv parents0) (verify_answer user_id answer now)
    (fun verdict st' =>
       redeem_inv parents0 st'
       /\ (verdict.1 = true ->
           exists code inv,
             verdict.2 = Some code /\ invites st' !! code = Some inv
             /\ i_inviter_id inv <> user_id))
    (redeem_inv parents0).
Proof.
  intros st [[Hself Hpend] Hsub]. unfold verify_answer.
  apply wp_bind, wp_gets.
  destruct (verifications st !! user_id) as [verif |] eqn:Ev.
  2:{ apply wp_ret. split; [now repeat split | discriminate]. }
  destruct (Hpend user_id verif Ev) as (inv & Hinv & Hne).
  assert (forall pending,
            (forall w v, pending !! w = Some v ->
               (w = user_id /\ v_invite_code v = v_invite_code verif)
               \/ verifications st !! w = Some v) ->
            redeem_inv parents0 (set_verifications pending st)) as Hkeep.
  { intros pending Hp. split; [split |]; simpl; auto.
    intros w v Hv. destruct (Hp w v Hv) as [[-> Hc] | Hold].
    - rewrite Hc. now exists inv.
    - now apply Hpend. }
  assert (redeem_inv parents0
            (set_verifications (delete user_id (verifications st)) st)) as Hdrop.
  { apply Hkeep. intros w v Hv. apply lookup_delete_Some in Hv as [_ Hv]. now right. }
  destruct (Qltb _ _).
  { unfold drop_verification. apply wp_bind, wp_modify, wp_ret.
    split; [exact Hdrop | discriminate]. }
  apply wp_bind, wp_modify. simpl.
  set (verif' := mk_verification (v_answer verif) (v_invite_code verif)
                   (v_expires_at verif) (v_attempts verif + 1)).
  assert (redeem_inv parents0
            (set_verifications (<[user_id := verif']> (verifications st)) st)) as Hmore.
  { apply Hkeep. intros w v Hv.
    apply lookup_insert_Some in Hv as [[<- <-] | [_ Hv]]; [now left | now right]. }
  assert (redeem_inv parents0
            (set_verifications
               (delete user_id (<[user_id := verif']> (verifications st))) st))
    as Hdrop'.
  { rewrite delete_insert_eq. exact Hdrop. }
  destruct (Text.eqb _ _).
  { unfold drop_verification. apply wp_bind, wp_modify, wp_ret. simpl.
    split; [exact Hdrop' |]. intros _. now exists (v_invite_code verif), inv. }
  apply wp_bind.
  destruct (_ <=? _)%Z.
  - unfold blacklist_user, drop_verification. apply wp_bind, wp_update_user. simpl.
    destruct (users st !! user_id) as [u |]; [| exact Hmore].
    apply wp_modify, wp_ret. simpl. split; [| discriminate].
    destruct Hdrop' as [[? ?] ?]. now repeat split.
  - apply wp_ret, wp_ret. split; [exact Hmore | discriminate].
Qed.

Lemma keeps_redeem_handle_private_message (parents0 : gmap string string)
  (user_id : string) (message : text) (now : Q) (link_ok : bool) (today : string) :
  keeps (redeem_inv parents0)
    (handle_private_message pow095 user_id message now link_ok today).
Proof.
  intros st H. unfold handle_private_message. apply wp_bind.
  eapply wp_call;
    [apply (keeps_graph_init_user st) | now repeat split | | ].
  2:{ intros st' H'. exact (redeem_inv_same_graph _ _ _ H' H). }
  intros ? st1 Hsame.
  assert (redeem_inv parents0 st1) as H1
    by exact (redeem_inv_same_graph _ _ _ Hsame H).
  clear H Hsame st. cbv beta. apply wp_bind.
  eapply wp_call; [apply verify_answer_verdict | exact H1 | | auto].
  intros [verified code] st2 [H2 Hcode]. simpl in *. clear H1 st1.
  apply wp_bind, wp_gets.
  destruct (verified && _) eqn:Ego.
  - apply andb_true_iff in Ego as [-> _].
    destruct (Hcode eq_refl) as (c & inv & -> & Hinv & Hne). simpl.
    apply wp_bind, wp_gets. rewrite Hinv.
    apply wp_bind, wp_gets.
    destruct (relationships st2 !! user_id) eqn:Ep; [exact H2 |].
    destruct link_ok; [| exact H2].
    apply wp_bind, wp_modify, wp_bind, wp_modify, wp_ret. simpl.
    destruct H2 as [[Hself Hpend] Hsub]. split; [split |]; simpl.
    + intros u Hu. apply lookup_insert_Some in Hu as [[<- Hu] | [_ Hu]].
      * now apply Hne.
      * now apply (Hself u).
    + intros w v Hv. destruct (Hpend w v Hv) as (inv' & Hinv' & Hne').
      destruct (decide (c = v_invite_code v)) as [-> | Hc].
      * rewrite lookup_insert_eq. eexists. split; [reflexivity |]. simpl.
        rewrite Hinv in Hinv'. now injection Hinv' as <-.
      * rewrite lookup_insert_ne by exact Hc. now exists inv'.
    + etransitivity; [exact Hsub |]. now apply insert_subseteq.
  - destruct (negb verified && _).
    + destruct (_ <? _)%Z; exact H2.
    + apply wp_bind.
      eapply wp_call;
        [apply (keeps_graph_track_activity st2) | now repeat split | | ].
      * intros ? st3 H3. exact (redeem_inv_same_graph _ _ _ H3 H2).
      * intros st3 H3. exact (redeem_inv_same_graph _ _ _ H3 H2).
Qed.

Lemma redeem_run_inv (parents0 : gmap string string) (evs : list redeem_event) :
  forall st, redeem_inv parents0 st ->
  redeem_inv parents0 (redeem_run pow095 evs st).
Proof.
  induction evs as [| ev evs IH]; intros st H; [exact H |].
  unfold redeem_run. simpl. apply IH.
  destruct ev; simpl; apply keeps_state_after; try exact H.
  - apply keeps_redeem_cmd_start.
  - apply keeps_redeem_handle_private_message.
Qed.

End Redeem.

Lemma redeem_ok_two_inviters : redeem_ok two_inviters.
Proof.
  split.
  - intros u. simpl. now rewrite lookup_empty.
  - intros u v. simpl. now rewrite lookup_empty.
Qed.

(** C7, as stated, fails: when two accounts redeem each other's invite,
    each is the parent of the other, and so its own ancestor. *)
Lemma two_accounts_become_their_own_ancestors :
  let st := redeem_run no_decay (first_redeems ++ second_redeems) two_inviters in
  redeem_ok two_inviters
  /\ relationships st !! "1" = Some "2"%string
  /\ relationships st !! "2" = Some "1"%string
  /\ ancestor (relationships st) 2 "1" = Some "1"%string.
Proof.
  split; [exact redeem_ok_two_inviters |].
  vm_compute. repeat split; reflexivity.
Qed.

(** C7, amended: in a run of redeem operations, from a store in which no
    account is its own parent and every pending challenge is for the invite
    of somebody else, a parent that is recorded at some point is still the
    parent after any further operations (redeeming again, with whatever
    code, changes nothing for a linked account), no account is its own
    parent, and an account has at most one parent.  Cycles through two or
    more accounts are not excluded. *)
Theorem parents_are_never_changed (pow095 : Q -> Q) (st : bot_data)
  (earlier later : list redeem_event) :
  redeem_ok st ->
  let linked := redeem_run pow095 earlier st in
  let final := redeem_run pow095 later linked in
  (forall u p, relationships linked !! u = Some p ->
               relationships final !! u = Some p)
  /\ (forall u, relationships final !! u <> Some u)
  /\ (forall u p q, relationships final !! u = Some p ->
                    relationships final !! u = Some q -> p = q).
Proof.
  intros Hok linked final.
  assert (redeem_inv (relationships linked) linked) as Hlinked.
  { split; [| reflexivity].
    apply (redeem_run_inv pow095 (relationships st) earlier st). now split. }
  destruct (redeem_run_inv pow095 (relationships linked) later linked Hlinked)
    as [[Hself _] Hsub].
  fold final in Hself, Hsub. split; [| split].
  - intros u p Hp. eapply lookup_weaken; eauto.
  - exact Hself.
  - intros u p q Hp Hq. congruence.
Qed.

Lemma parents_are_never_changed_witness :
  let linked := redeem_run no_decay first_redeems two_inviters in
  let final := redeem_run no_decay second_redeems linked in
  redeem_ok two_inviters
  /\ relationships linked !! "1" = Some "2"%string
  /\ relationships final !! "1" = Some "2"%string
  /\ relationships final !! "2" <> Some "2"%string.
Proof.
  cbv zeta.
  destruct (parents_are_never_changed no_decay two_inviters first_redeems
              second_redeems redeem_ok_two_inviters) as (Hkept & Hself & _).
  assert (relationships (redeem_run no_decay first_redeems two_inviters) !! "1"
          = Some "2"%string) as H1 by (vm_compute; reflexivity).
  split; [exact redeem_ok_two_inviters |]. split; [exact H1 |].
  split; [exact (Hkept "1"%string "2"%string H1) | exact (Hself "2"%string)].
Defined.

(** ** The refactored bot *)

(** [InviteManager.use_invite] on its own writes the parent again: it is
    its caller, [_handle_successful_verification], that refuses an account
    with a parent. *)
Lemma use_invite_overwrites_parent :
  let self :=
    Modular.mk_invite_manager
      {[ "LOVEBBBB"%string := Modular.mk_invite 9 true 0 [] ]}
      {[ 5%Z := 7%Z ]} in
  Modular.relationships (Modular.use_invite "LOVEBBBB" 5 self).2 !! 5%Z = Some 9%Z.
Proof. vm_compute. reflexivity. Qed.

(** *** Successful invites *)

(** C8: [_process_successful_invite] of the refactored bot, for an inviter
    with a session, adds 1 to the streak whatever the time of the last
    success, and then raises [NameError]: [time] is not imported.  The time
    of the last success is not written, no point is awarded and nothing else
    changes. *)
Theorem refactored_invite_raises_after_the_streak
  (self : MessageHandlers.message_handlers) (inviter_id : Z)
  (inviter_session : UserManager.session) :
  UserManager.user_cache (MessageHandlers.user_manager self) !! inviter_id
  = Some inviter_session ->
  let processed := MessageHandlers.process_successful_invite inviter_id self in
  processed.1 = UserManager.Failed (UserManager.NameError "time")
  /\ UserManager.user_cache (MessageHandlers.user_manager processed.2)
     = <[inviter_id :=
           UserManager.mk_session
             (UserManager.invites_successful inviter_session + 1)
             (UserManager.invite_streak inviter_session + 1)
             (UserManager.last_invite_success inviter_session)
             (UserManager.total_points_earned inviter_session)
             (UserManager.milestones_reached inviter_session)]>
         (UserManager.user_cache (MessageHandlers.user_manager self))
  /\ UserManager.db (MessageHandlers.user_manager processed.2)
     = UserManager.db (MessageHandlers.user_manager self)
  /\ MessageHandlers.invite_manager processed.2
     = MessageHandlers.invite_manager self.
Proof.
  intros Hs processed. unfold processed, MessageHandlers.process_successful_invite,
    UserManager.get_user_session_data.
  rewrite Hs. repeat split.
Qed.

Lemma refactored_invite_raises_after_the_streak_witness :
  let processed := MessageHandlers.process_successful_invite 1 stale_streak in
  processed.1 = UserManager.Failed (UserManager.NameError "time")
  /\ UserManager.user_cache (MessageHandlers.user_manager processed.2) !! 1%Z
     = Some (UserManager.mk_session 8 5 (Some 1700000000) 0 [])
  /\ UserManager.db (MessageHandlers.user_manager processed.2) !! 1%Z
     = Some 0%Z.
Proof.
  destruct (refactored_invite_raises_after_the_streak stale_streak 1
              (UserManager.mk_session 7 4 (Some 1700000000) 0 []) eq_refl)
    as (Hraise & Hcache & Hdb & _).
  split; [exact Hraise |]. split.
  - rewrite Hcache. apply lookup_insert_eq.
  - rewrite Hdb. reflexivity.
Defined.

(** *** The cascade *)

(** C3: [_award_cascade_points] of the refactored bot on a chain of five
    users at 0 points, with base 10 and a streak of 0.  The awards are 10,
    5, 2.5, 1.25 and 0.625, as the sessions count them, but
    [UserManager.award_points] stores [int(current + points)]: the balances
    become 10, 5, 2, 1 and 0.  Through its caller the cascade does no
    better: for an inviter with a session [_process_successful_invite]
    raises before the cascade and no balance changes, and for an inviter
    without one the inviter is awarded nothing and the ancestors get 5, 2, 1
    and 0. *)
Theorem refactored_cascade_stores_whole_points :
  let stored (self : MessageHandlers.message_handlers) :=
    (fun telegram_id =>
       UserManager.db (MessageHandlers.user_manager self) !! telegram_id)
      <$> [1; 2; 3; 4; 5]%Z in
  let paid := MessageHandlers.award_cascade_points 1 10 five_sessions in
  let raised := MessageHandlers.process_successful_invite 1 five_sessions in
  let processed := MessageHandlers.process_successful_invite 1 four_sessions in
  paid.1 = UserManager.Done tt
  /\ stored paid.2 = [Some 10; Some 5; Some 2; Some 1; Some 0]%Z
  /\ Forall2 (fun telegram_id points => session_earned telegram_id points paid.2)
       [1; 2; 3; 4; 5]%Z [10; 5; 5 # 2; 5 # 4; 5 # 8]
  /\ raised.1 = UserManager.Failed (UserManager.NameError "time")
  /\ stored raised.2 = [Some 0; Some 0; Some 0; Some 0; Some 0]%Z
  /\ processed.1 = UserManager.Done tt
  /\ stored processed.2 = [Some 0; Some 5; Some 2; Some 1; Some 0]%Z.
Proof.
  split; [vm_compute; reflexivity |].
  split; [vm_compute; reflexivity |].
  split.
  - repeat constructor; eexists; (split; [vm_compute; reflexivity |]);
      vm_compute; reflexivity.
  - repeat split; vm_compute; reflexivity.
Qed.

(** * Further properties *)

(** ** Scores over time *)

(** X11: Without a new successful invite the heat score never grows: for times
    at or after the last success it is non-negative, non-increasing in time,
    and at most invites_successful. *)
Theorem heat_only_cools (u : user) (now later : Q) :
  (0 <= invites_successful u)%Z ->
  default 0 (last_invite_success u) <= now ->
  now <= later ->
  0 <= heat_of u later
  /\ heat_of u later <= heat_of u now
  /\ heat_of u now <= inject_Z (invites_successful u).
Proof.
  intros Hn Hlast Hlater. unfold heat_of, HEAT_DECAY_HOURS.
  set (last := default 0 (last_invite_success u)) in *.
  assert (0 <= inject_Z (invites_successful u)) as Hn'.
  { unfold Qle. simpl. lia. }
  set (n := inject_Z (invites_successful u)) in *.
  assert (forall t, last <= t -> (t - last) / 3600 <= 24 ->
            0 <= round2 (n * ((24 - (t - last) / 3600) / 24))) as Hpos.
  { intros t Ht H24. apply round2_nonneg.
    apply Qmult_le_0_compat; [exact Hn' |].
    apply Qle_shift_div_l; [reflexivity |]. lra. }
  assert (forall t, last <= t ->
            round2 (n * ((24 - (t - last) / 3600) / 24)) <= n) as Hmax.
  { intros t Ht. apply (Qle_trans _ (round2 n));
      [| unfold n; rewrite round2_inject_Z; apply Qle_refl].
    apply round2_mono.
    assert ((24 - (t - last) / 3600) / 24 <= 1) as Hd.
    { apply Qle_shift_div_r; [reflexivity |].
      assert (0 <= (t - last) / 3600)
        by (apply Qle_shift_div_l; [reflexivity | lra]).
      lra. }
    nra. }
  destruct (Qltb 24 ((later - last) / 3600)) eqn:El;
    destruct (Qltb 24 ((now - last) / 3600)) eqn:En.
  - repeat split; try lra.
  - apply Qltb_ge in En. repeat split; try lra.
    + apply Hpos; assumption.
    + apply Hmax; assumption.
  - exfalso. apply Qltb_lt in En. apply Qltb_ge in El.
    assert ((now - last) / 3600 <= (later - last) / 3600).
    { apply Qle_shift_div_l; [reflexivity |]. field_simplify. lra. }
    lra.
  - apply Qltb_ge in En. apply Qltb_ge in El. repeat split.
    + apply Hpos; [lra | assumption].
    + apply round2_mono.
      assert ((later - last) / 3600 == (later - last) * (1 # 3600)) as -> by field.
      assert ((now - last) / 3600 == (now - last) * (1 # 3600)) as -> by field.
      assert ((24 - (later - last) * (1 # 3600)) / 24
              <= (24 - (now - last) * (1 # 3600)) / 24) as Hd.
      { apply Qle_shift_div_l; [reflexivity |]. field_simplify. lra. }
      nra.
    + apply Hmax; assumption.
Qed.

Lemma heat_only_cools_witness :
  0 <= heat_of warm_user 1700043200
  /\ heat_of warm_user 1700043200 <= heat_of warm_user 1700003600
  /\ heat_of warm_user 1700003600 <= 5.
Proof.
  apply (heat_only_cools warm_user 1700003600 1700043200);
    vm_compute; discriminate.
Defined.

(** X12: The loveliness score lies between 0 and the rounded engagement
    0.1*messages_sent + 5*days_active, and equals it when the user was active
    within the last seven days (any decay factor in [0,1] standing for
    0.95**x). *)
Theorem loveliness_never_exceeds_engagement (pow095 : Q -> Q) (u : user)
  (now : Q) :
  (forall x, 0 <= x -> 0 <= pow095 x /\ pow095 x <= 1) ->
  (0 <= messages_sent u)%Z ->
  (0 <= days_active u)%Z ->
  let engagement :=
    inject_Z (messages_sent u) * (1 # 10) + inject_Z (days_active u) * 5 in
  0 <= loveliness_of pow095 u now
  /\ loveliness_of pow095 u now <= round2 engagement
  /\ ((now - last_active u) / 86400 <= 7 ->
      loveliness_of pow095 u now = round2 engagement).
Proof.
  intros Hpow Hm Hd engagement. unfold loveliness_of, ACTIVITY_DECAY_DAYS.
  fold engagement.
  assert (0 <= engagement) as He.
  { unfold engagement.
    assert (0 <= inject_Z (messages_sent u)) by (unfold Qle; simpl; lia).
    assert (0 <= inject_Z (days_active u)) by (unfold Qle; simpl; lia).
    nra. }
  destruct (Qltb 7 ((now - last_active u) / 86400)) eqn:E.
  - apply Qltb_lt in E.
    destruct (Hpow ((now - last_active u) / 86400 - 7)) as [H0 H1]; [lra |].
    set (d := pow095 ((now - last_active u) / 86400 - 7)) in *.
    repeat split.
    + apply round2_nonneg. nra.
    + apply round2_mono. nra.
    + intros Hle. lra.
  - repeat split.
    + now apply round2_nonneg.
    + apply Qle_refl.
Qed.

Lemma loveliness_never_exceeds_engagement_witness :
  let u := set_days_active 2 (set_messages_sent 30 (fresh_user 1700000000)) in
  0 <= loveliness_of no_decay u 1701000000
  /\ loveliness_of no_decay u 1701000000 <= round2 13
  /\ loveliness_of no_decay u 1700100000 = round2 (30 * (1 # 10) + 2 * 5).
Proof.
  intros u.
  destruct (loveliness_never_exceeds_engagement no_decay u 1701000000)
    as (H1 & H2 & _).
  { intros x _. split; vm_compute; discriminate. }
  { vm_compute; discriminate. }
  { vm_compute; discriminate. }
  destruct (loveliness_never_exceeds_engagement no_decay u 1700100000)
    as (_ & _ & H3).
  { intros x _. split; vm_compute; discriminate. }
  { vm_compute; discriminate. }
  { vm_compute; discriminate. }
  split; [exact H1 |]. split.
  - eapply Qle_trans; [exact H2 |]. vm_compute. discriminate.
  - apply H3. vm_compute. discriminate.
Defined.

(** ** The life of a wager *)


Lemma cancel_refunds (pow095 : Q -> Q) (st : bot_data) (wager_id : string)
  (wager : wager) (challenger : user) (now : Q) (coin : bool) :
  pending_wagers st !! wager_id = Some wager ->
  now <= w_expires_at wager ->
  users st !! w_challenger_id wager = Some challenger ->
  handle_callback_query pow095 (w_challenger_id wager) "cancel" wager_id now coin st
  = (Ok CbCancelled,
     set_pending_wagers (delete wager_id (pending_wagers st))
       (set_users
          (<[w_challenger_id wager :=
               set_lover_points (lover_points challenger + w_points wager)
                 challenger]> (users st)) st)).
Proof.
  intros Hw Hnow Hc. unfold handle_callback_query. run. rewrite Hw.
  apply Qltb_ge in Hnow. rewrite Hnow. simpl.
  rewrite String.eqb_refl. simpl. rewrite Hc. reflexivity.
Qed.



(** Doubles round each step.  From 0.11 a stake of 0.04 and its refund give
    a balance one bit above 0.11; and after two wagers of 0.1 from 0.3 the
    balance is below 0.1, so that the code refuses a third one. *)
Lemma double_arithmetic_is_inexact :
  let balance := Binary64.fl (11 # 100) in
  let stake := Binary64.fl (4 # 100) in
  let tenth := Binary64.fl (1 # 10) in
  Binary64.add (Binary64.sub balance stake) stake
  == balance + (1 # 72057594037927936)
  /\ Qltb (Binary64.sub (Binary64.sub (Binary64.fl (3 # 10)) tenth) tenth)
       tenth = true.
Proof. split; vm_compute; reflexivity. Qed.






Lemma foldr_delete_lookup_None {V} (m : gmap string V) (l : list (string * V))
  (k : string) :
  k ∈ l.*1 -> foldr (fun entry m => delete entry.1 m) m l !! k = None.
Proof.
  induction l as [| [k' v] l IH]; simpl; [intros H; inversion H |].
  intros H. destruct (decide (k = k')) as [-> | Hne].
  - apply lookup_delete_eq.
  - rewrite lookup_delete_ne by congruence. apply IH.
    apply elem_of_cons in H as [? | ?]; [congruence | assumption].
Qed.

Lemma foldr_delete_lookup_other {V} (m : gmap string V) (l : list (string * V))
  (k : string) :
  k ∉ l.*1 -> foldr (fun entry m => delete entry.1 m) m l !! k = m !! k.
Proof.
  induction l as [| [k' v] l IH]; simpl; [reflexivity |].
  intros H. apply not_elem_of_cons in H as [Hne H].
  rewrite lookup_delete_ne by congruence. now apply IH.
Qed.






(** Whatever [m] does, [k] establishes [Q]. *)
Lemma wp_bind_any {A B} (m : M A) (k : A -> M B) (Q : B -> bot_data -> Prop) st :
  (forall a st', wp (k a) Q (fun _ => True) st') ->
  wp (bind m k) Q (fun _ => True) st.
Proof.
  intros H. unfold wp, bind. destruct (m st) as [[a | e] st']; [| exact I].
  apply H.
Qed.




Section Settled.

Variable pow095 : Q -> Q.





End Settled.

(** The XP of a duel is the integer part of a product of doubles: for a
    stake of 1000 and a loveliness of 15 the product is just below 115. *)
Lemma wager_xp_truncates_the_double :
  wager_xp 1000 15 = 114%Z /\ py_int (1000 * (1 # 10) * (1 + 15 / 100)) = 115%Z.
Proof. split; vm_compute; reflexivity. Qed.



(** X5: If the challenger's entry has no total_xp_earned key, accepting the
    wager raises KeyError after the wager was marked accepted: no points move,
    the wager stays pending, and once it expires the sweep deletes it without
    refunding the challenger's stake. *)
Theorem accepting_raises_without_xp_total (pow095 : Q -> Q) (st : bot_data)
  (user_id wager_id : string) (wager : wager) (challenger acceptor : user)
  (now later : Q) (coin : bool) :
  pending_wagers st = {[ wager_id := wager ]} ->
  now <= w_expires_at wager ->
  w_expires_at wager < later ->
  user_id <> w_challenger_id wager ->
  w_accepted wager = false ->
  users st !! w_challenger_id wager = Some challenger ->
  total_xp_earned challenger = None ->
  users st !! user_id = Some acceptor ->
  w_points wager <= lover_points acceptor ->
  let accepted :=
    handle_callback_query pow095 user_id "accept" wager_id now coin st in
  let swept := state_after (cleanup_expired_wagers later) accepted.2 in
  accepted.1 = Raise (KeyError "total_xp_earned")
  /\ (w_accepted <$> pending_wagers accepted.2 !! wager_id) = Some true
  /\ points_are (w_challenger_id wager) (lover_points challenger) accepted.2
  /\ users accepted.2 !! user_id = Some acceptor
  /\ pending_wagers swept = ∅
  /\ points_are (w_challenger_id wager) (lover_points challenger) swept.
Proof.
  intros Hp Hnow Hlater Hne Hacc Hc Hkey Ha Hle accepted swept.
  assert (pending_wagers st !! wager_id = Some wager) as Hw
    by (rewrite Hp; apply lookup_singleton_eq).
  assert (accepted
          = (Raise (KeyError "total_xp_earned"),
             set_users
               (<[w_challenger_id wager :=
                    set_xp (xp challenger
                            + wager_xp (w_points wager)
                                (loveliness_of pow095 challenger now))
                      challenger]> (users st))
               (set_pending_wagers
                  (<[wager_id := mk_wager (w_challenger_id wager)
                                   (w_challenger_name wager) (w_points wager)
                                   (w_expires_at wager) true]>
                     (pending_wagers st)) st))) as E.
  { unfold accepted, handle_callback_query. run. rewrite Hw.
    apply Qltb_ge in Hnow. rewrite Hnow. simpl.
    rewrite (proj2 (String.eqb_neq _ _) Hne), Hacc.
    unfold init_user, modify. rewrite Ha. simpl. rewrite Ha.
    apply Qltb_ge in Hle. rewrite Hle. simpl.
    unfold execute_duel, calculate_loveliness_score, add_total_xp_earned. run.
    repeat (first [rewrite Hc | rewrite Ha | rewrite lookup_insert_eq
                  | rewrite Hkey]; simpl).
    reflexivity. }
  assert (swept
          = set_pending_wagers ∅ accepted.2) as Es.
  { unfold swept, state_after, cleanup_expired_wagers. rewrite E. run.
    rewrite Hp, insert_singleton_eq, map_to_list_singleton. simpl.
    apply Qltb_lt in Hlater. rewrite Hlater. simpl.
    now rewrite delete_singleton_eq. }
  rewrite Es, E. simpl.
  split; [reflexivity |]. rewrite lookup_insert_eq.
  split; [reflexivity |].
  split; [eexists; split; [apply lookup_insert_eq | reflexivity] |].
  split; [now rewrite lookup_insert_ne by congruence |].
  split; [reflexivity |].
  eexists; split; [apply lookup_insert_eq | reflexivity].
Qed.

Lemma accepting_raises_without_xp_total_witness :
  let accepted :=
    handle_callback_query no_decay "2" "accept" "wager_1700000100_1"
      1700000110 true gifted_challenger in
  let swept := state_after (cleanup_expired_wagers 1700000200) accepted.2 in
  points_are "1" 1 gifted_challenger
  /\ accepted.1 = Raise (KeyError "total_xp_earned")
  /\ pending_wagers swept = ∅
  /\ points_are "1" 1 swept.
Proof.
  intros accepted swept.
  set (wager := mk_wager "1" "Ann" (round2 5) (1700000100 + 60) false).
  set (challenger := default (fresh_user 0) (users gifted_challenger !! "1")).
  set (acceptor := default (fresh_user 0) (users gifted_challenger !! "2")).
  assert (pending_wagers gifted_challenger = {[ "wager_1700000100_1"%string := wager ]})
    as Hp by (vm_compute; reflexivity).
  assert (users gifted_challenger !! "1" = Some challenger) as Hc
    by (vm_compute; reflexivity).
  assert (users gifted_challenger !! "2" = Some acceptor) as Ha
    by (vm_compute; reflexivity).
  assert ("2"%string <> "1"%string) as Hne by discriminate.
  destruct (accepting_raises_without_xp_total no_decay gifted_challenger "2"
              "wager_1700000100_1" wager challenger acceptor
              1700000110 1700000200 true Hp
              ltac:(vm_compute; discriminate) eq_refl Hne eq_refl Hc eq_refl Ha
              ltac:(vm_compute; discriminate))
    as (H1 & _ & _ & _ & H5 & H6).
  split; [exists challenger; split; [exact Hc | vm_compute; reflexivity] |].
  split; [exact H1 |]. split; [exact H5 |].
  destruct H6 as (u & Eu & Hu). exists u. split; [exact Eu |].
  rewrite Hu. vm_compute. reflexivity.
Defined.

(** X6: When handle_callback_query answers with a refusal (wager gone, own
    duel, already accepted, not enough points, not the challenger, unknown
    action), no wager and no existing account changes; at most a fresh account
    is created for the user who pressed the button. *)
Theorem refused_button_moves_nothing (pow095 : Q -> Q) (st st' : bot_data)
  (user_id action wager_id : string) (now : Q) (coin : bool)
  (reply : callback_reply) :
  handle_callback_query pow095 user_id action wager_id now coin st
  = (Ok reply, st') ->
  refusal reply = true ->
  pending_wagers st' = pending_wagers st
  /\ (forall uid u, users st !! uid = Some u -> users st' !! uid = Some u)
  /\ (forall uid u, users st' !! uid = Some u ->
        users st !! uid = Some u \/ uid = user_id /\ u = fresh_user now).
Proof.
  intros Hrun Hquiet.
  assert (wp (handle_callback_query pow095 user_id action wager_id now coin)
            (fun r s =>
               refusal r = true ->
               pending_wagers s = pending_wagers st
               /\ (forall uid u, users st !! uid = Some u -> users s !! uid = Some u)
               /\ (forall uid u, users s !! uid = Some u ->
                     users st !! uid = Some u \/ uid = user_id /\ u = fresh_user now))
            (fun _ => True) st) as H.
  { unfold handle_callback_query. apply wp_bind, wp_gets.
    destruct (pending_wagers st !! wager_id) as [wager |]; [| apply wp_ret; auto].
    destruct (Qltb _ _).
    { repeat (apply wp_bind_any; intros ? ?). apply wp_ret. discriminate. }
    destruct (String.eqb action "accept").
    - destruct (String.eqb user_id _); [apply wp_ret; auto |].
      destruct (w_accepted wager); [apply wp_ret; auto |].
      apply wp_bind, wp_init_user.
      assert (forall s,
                pending_wagers s = pending_wagers st ->
                (forall uid u, users st !! uid = Some u -> users s !! uid = Some u) ->
                (forall uid u, users s !! uid = Some u ->
                   users st !! uid = Some u \/ uid = user_id /\ u = fresh_user now) ->
                wp (acceptor <- user_of user_id ;;
                    if Qltb (lover_points acceptor) (w_points wager) then
                      ret (CbNeedPoints (w_points wager))
                    else
                      modify (fun st =>
                        set_pending_wagers
                          (<[wager_id := mk_wager (w_challenger_id wager)
                                           (w_challenger_name wager)
                                           (w_points wager)
                                           (w_expires_at wager) true]>
                             (pending_wagers st)) st) ;;;
                      execute_duel pow095 wager_id wager user_id now coin)
                  (fun r s =>
                     refusal r = true ->
                     pending_wagers s = pending_wagers st
                     /\ (forall uid u, users st !! uid = Some u ->
                           users s !! uid = Some u)
                     /\ (forall uid u, users s !! uid = Some u ->
                           users st !! uid = Some u
                           \/ uid = user_id /\ u = fresh_user now))
                  (fun _ => True) s) as Hrest.
      { intros s H1 H2 H3. apply wp_bind, wp_user_of.
        destruct (users s !! user_id); [| exact I].
        destruct (Qltb _ _); [apply wp_ret; auto |].
        apply wp_bind_any. intros ? ?. unfold execute_duel.
        repeat (apply wp_bind_any; intros ? ?). apply wp_ret. discriminate. }
      destruct (users st !! user_id) as [a |] eqn:Ea.
      + apply Hrest; auto.
      + apply Hrest; simpl; auto.
        * intros uid u Hu. rewrite lookup_insert_ne; [exact Hu | congruence].
        * intros uid u Hu. apply lookup_insert_Some in Hu as [[<- <-] | [_ Hu]]; auto.
    - destruct (String.eqb action "cancel"); [| apply wp_ret; auto].
      destruct (negb _); [apply wp_ret; auto |].
      repeat (apply wp_bind_any; intros ? ?). apply wp_ret. discriminate. }
  unfold wp in H. rewrite Hrun in H. now apply H.
Qed.

Lemma refused_button_moves_nothing_witness :
  let opened :=
    state_after (cmd_wager "1" "Ann" (Amount 5) 1700000100) two_savers in
  let pressed :=
    handle_callback_query no_decay "2" "cancel" "wager_1700000100_1"
      1700000110 true opened in
  pressed.1 = Ok CbNotChallenger
  /\ pending_wagers pressed.2 = pending_wagers opened.
Proof.
  intros opened pressed.
  assert (pressed = (Ok CbNotChallenger, pressed.2)) as Hrun
    by (vm_compute; reflexivity).
  split; [now rewrite Hrun |].
  exact (proj1 (refused_button_moves_nothing no_decay opened pressed.2 "2"
                  "cancel" "wager_1700000100_1" 1700000110 true
                  CbNotChallenger Hrun eq_refl)).
Defined.



(** X8: When /gift answers with anything but the confirmation, every existing
    account is unchanged; the only accounts that can appear are fresh ones. *)
Theorem refused_gift_moves_nothing (st st' : bot_data) (giver_id : string)
  (recipient : option string) (arg : amount_arg) (now : Q) (reply : gift_reply) :
  cmd_gift giver_id recipient arg now st = (Ok reply, st') ->
  (forall points, reply <> GiftSent points) ->
  (forall uid u, users st !! uid = Some u -> users st' !! uid = Some u)
  /\ (forall uid u, users st' !! uid = Some u ->
        users st !! uid = Some u \/ u = fresh_user now).
Proof.
  intros Hrun Hrefused.
  pose (kept := fun s : bot_data =>
          (forall uid u, users st !! uid = Some u -> users s !! uid = Some u)
          /\ (forall uid u, users s !! uid = Some u ->
                users st !! uid = Some u \/ u = fresh_user now)).
  assert (forall uid s, kept s ->
            wp (init_user uid now) (fun _ => kept) (fun _ => True) s) as Hinit.
  { intros uid s [H1 H2]. apply wp_init_user.
    destruct (users s !! uid) eqn:Eu; [exact (conj H1 H2) |].
    split; simpl.
    - intros uid' u Hu. rewrite lookup_insert_ne; [now apply H1 |].
      intros <-. apply H1 in Hu. congruence.
    - intros uid' u Hu.
      apply lookup_insert_Some in Hu as [[<- <-] | [_ Hu]]; auto. }
  assert (wp (cmd_gift giver_id recipient arg now)
            (fun r s => (forall points, r <> GiftSent points) -> kept s)
            (fun _ => True) st) as H.
  { unfold cmd_gift. apply wp_bind.
    eapply wp_mono; [apply (Hinit giver_id st); split; auto | | auto].
    intros ? s1 H1. cbv beta.
    destruct recipient as [recipient_id |]; [| apply wp_ret; auto].
    destruct arg as [| | raw]; try (apply wp_ret; auto).
    destruct (Qle_bool raw 0); [apply wp_ret; auto |].
    destruct (Qltb 10000 raw); [apply wp_ret; auto |].
    destruct (String.eqb recipient_id giver_id); [apply wp_ret; auto |].
    apply wp_bind.
    eapply wp_mono; [apply (Hinit recipient_id s1 H1) | | auto].
    intros ? s2 H2. cbv beta. apply wp_bind, wp_user_of.
    destruct (users s2 !! giver_id); [| exact I].
    destruct (Qltb _ _); [apply wp_ret; auto |].
    repeat (apply wp_bind_any; intros ? ?). apply wp_ret.
    intros Hno. now destruct (Hno (round2 raw)). }
  unfold wp in H. rewrite Hrun in H. now apply H.
Qed.

Lemma refused_gift_moves_nothing_witness :
  let sent := cmd_gift "2" (Some "1"%string) (Amount 60) 1700000050 two_savers in
  sent.1 = Ok (GiftInsufficient 12 (round2 60))
  /\ forall uid u, users two_savers !! uid = Some u -> users sent.2 !! uid = Some u.
Proof.
  intros sent.
  assert (sent = (Ok (GiftInsufficient 12 (round2 60)), sent.2)) as Hrun
    by (vm_compute; reflexivity).
  split; [now rewrite Hrun |].
  exact (proj1 (refused_gift_moves_nothing two_savers sent.2 "2"
                  (Some "1"%string) (Amount 60) 1700000050 _ Hrun
                  ltac:(discriminate))).
Defined.

#[local] Arguments lookup : simpl never.



Ltac eval_lookups :=
  repeat (simpl;
          first [ rewrite lookup_insert_eq
                | rewrite lookup_insert_ne by congruence
                | match goal with
                  | H : ?m !! ?k = _ |- context [?m !! ?k] => rewrite H
                  end ]);
  simpl.

Lemma track_activity_counts (pow095 : Q -> Q) (st : bot_data) (user_id : string)
  (u : user) (now : Q) (today : string) :
  users st !! user_id = Some u ->
  30 <= now - last_message_xp u ->
  let seen := bool_decide (today ∈ default ∅ (activity_tracking st !! user_id)) in
  exists leveled st' u',
    track_activity pow095 user_id now today st = (Ok leveled, st')
    /\ users st' !! user_id = Some u'
    /\ messages_sent u' = (messages_sent u + 1)%Z
    /\ last_message_xp u' = now
    /\ days_active u' = (if seen then days_active u else days_active u + 1)%Z
    /\ today ∈ default ∅ (activity_tracking st' !! user_id)
    /\ (forall other, other <> user_id -> users st' !! other = users st !! other).
Proof.
  intros Hu Hdue seen. apply Qle_bool_iff in Hdue.
  unfold track_activity, calculate_loveliness_score, check_level_up. run.
  unfold MESSAGE_COOLDOWN. rewrite Hu. simpl. rewrite Hdue.
  eval_lookups. fold seen.
  destruct seen eqn:Eseen; eval_lookups;
    match goal with
    | |- context [(?a <=? ?b)%Z] => destruct (a <=? b)%Z
    end;
    eval_lookups; do 3 eexists;
    (split; [reflexivity |]); simpl;
    (split; [apply lookup_insert_eq |]); simpl;
    (split; [reflexivity |]); (split; [reflexivity |]);
    (split; [reflexivity |]);
    (split;
     [ first [ now apply bool_decide_eq_true_1 in Eseen
             | rewrite lookup_insert_eq; simpl; set_solver ]
     | intros other Hne; now rewrite ?lookup_insert_ne by congruence ]).
Qed.

(** X10: track_activity counts a message only when 30 seconds have passed
    since the last counted one: a message within the cooldown changes nothing,
    and two counted messages on the same date raise messages_sent by two but
    days_active at most once. *)
Theorem messages_count_a_day_once (pow095 : Q -> Q) (st : bot_data)
  (user_id : string) (u : user) (now soon later : Q) (today : string) :
  users st !! user_id = Some u ->
  30 <= now - last_message_xp u ->
  soon - now < 30 ->
  30 <= later - now ->
  let first := track_activity pow095 user_id now today st in
  let second := track_activity pow095 user_id later today first.2 in
  let seen := bool_decide (today ∈ default ∅ (activity_tracking st !! user_id)) in
  track_activity pow095 user_id soon today first.2 = (Ok false, first.2)
  /\ exists u1 u2,
       users first.2 !! user_id = Some u1
       /\ users second.2 !! user_id = Some u2
       /\ messages_sent u1 = (messages_sent u + 1)%Z
       /\ messages_sent u2 = (messages_sent u + 2)%Z
       /\ days_active u1 = (if seen then days_active u else days_active u + 1)%Z
       /\ days_active u2 = days_active u1.
Proof.
  intros Hu Hdue Hsoon Hlater first second seen.
  destruct (track_activity_counts pow095 st user_id u now today Hu Hdue)
    as (leveled & st1 & u1 & E1 & Hu1 & Hm1 & Hl1 & Hd1 & Hseen1 & _).
  assert (first = (Ok leveled, st1)) as Ef by exact E1.
  assert (30 <= later - last_message_xp u1) as Hdue2 by now rewrite Hl1.
  destruct (track_activity_counts pow095 st1 user_id u1 later today Hu1 Hdue2)
    as (leveled2 & st2 & u2 & E2 & Hu2 & Hm2 & _ & Hd2 & _).
  rewrite (bool_decide_eq_true_2 _ Hseen1) in Hd2.
  unfold second. rewrite Ef. simpl. rewrite E2. simpl.
  split.
  - unfold track_activity. run. rewrite Hu1. simpl. rewrite Hl1.
    unfold MESSAGE_COOLDOWN.
    destruct (Qle_bool 30 (soon - now)) eqn:E; [| reflexivity].
    apply Qle_bool_iff in E. lra.
  - exists u1, u2. repeat split; try assumption. lia.
Qed.

Lemma messages_count_a_day_once_witness :
  let st := one_user "1" (fresh_user 1700000000) in
  let first := track_activity no_decay "1" 1700000100 "2023-11-14" st in
  let second := track_activity no_decay "1" 1700000200 "2023-11-14" first.2 in
  track_activity no_decay "1" 1700000110 "2023-11-14" first.2 = (Ok false, first.2)
  /\ (days_active <$> users first.2 !! "1") = Some 1%Z
  /\ (days_active <$> users second.2 !! "1") = Some 1%Z
  /\ (messages_sent <$> users second.2 !! "1") = Some 2%Z.
Proof.
  intros st first second.
  destruct (messages_count_a_day_once no_decay st "1" (fresh_user 1700000000)
              1700000100 1700000110 1700000200 "2023-11-14" eq_refl
              ltac:(vm_compute; discriminate) eq_refl
              ltac:(vm_compute; discriminate))
    as (H1 & _).
  split; [exact H1 |]. vm_compute. repeat split.
Defined.

(** ** Challenges, the blacklist and the size of a cascade *)

Lemma emojis_ok : Forall symbol_ok emojis.
Proof. repeat constructor; discriminate. Qed.

Lemma remove_spaces_symbol (w : text) :
  Forall (fun c => Text.isspace c = false) w -> Text.remove_spaces w = w.
Proof.
  induction 1 as [| c w Hc _ IH]; [reflexivity |].
  unfold Text.remove_spaces in *. simpl.
  destruct (N.eqb_spec c 32) as [-> | _]; [discriminate Hc |].
  simpl. now rewrite IH.
Qed.

Lemma remove_spaces_app (a b : text) :
  Text.remove_spaces (a ++ b) = Text.remove_spaces a ++ Text.remove_spaces b.
Proof. unfold Text.remove_spaces. apply List.filter_app. Qed.

Lemma remove_spaces_join (l : list text) :
  Forall symbol_ok l -> Text.remove_spaces (Text.join [32%N] l) = concat l.
Proof.
  induction 1 as [| w l [_ Hw] Hl IH]; [reflexivity |].
  destruct l as [| w' l].
  - simpl. rewrite app_nil_r. now apply remove_spaces_symbol.
  - change (Text.join [32%N] (w :: w' :: l))
      with (w ++ [32%N] ++ Text.join [32%N] (w' :: l)).
    rewrite !remove_spaces_app, IH, remove_spaces_symbol by assumption.
    reflexivity.
Qed.

Lemma lstrip_head (c : N) (t : text) :
  Text.isspace c = false -> Text.lstrip (c :: t) = c :: t.
Proof. intros H. simpl. now rewrite H. Qed.

Lemma strip_trimmed (t : text) : trimmed t -> Text.strip t = t.
Proof.
  intros [(c & t1 & E1 & H1) (t2 & d & E2 & H2)]. unfold Text.strip.
  rewrite E1, (lstrip_head _ _ H1), <- E1, E2, rev_app_distr. simpl.
  rewrite H2. simpl. now rewrite rev_involutive.
Qed.

Lemma symbol_trimmed (w : text) : symbol_ok w -> trimmed w.
Proof.
  intros [Hne Hw]. split.
  - destruct w as [| c w]; [congruence |]. exists c, w. split; [reflexivity |].
    now inversion Hw.
  - destruct (exists_last Hne) as (w' & c & ->). exists w', c.
    split; [reflexivity |].
    apply Forall_app in Hw as [_ Hc]. now inversion Hc.
Qed.

Lemma join_trimmed (l : list text) :
  l <> [] -> Forall symbol_ok l -> trimmed (Text.join [32%N] l).
Proof.
  intros Hne Hl. induction Hl as [| w l Hw Hl IH]; [congruence |].
  destruct l as [| w' l]; [now apply symbol_trimmed |].
  change (Text.join [32%N] (w :: w' :: l))
    with (w ++ [32%N] ++ Text.join [32%N] (w' :: l)).
  destruct (symbol_trimmed w Hw) as [(c & t1 & E1 & H1) _].
  destruct IH as [_ (t2 & d & E2 & H2)]; [discriminate |].
  split.
  - exists c, (t1 ++ [32%N] ++ Text.join [32%N] (w' :: l)).
    split; [now rewrite E1 | exact H1].
  - exists (w ++ [32%N] ++ t2), d. split; [| exact H2].
    rewrite E2. now rewrite <- !app_assoc.
Qed.

Lemma sampled_ok (sample : list nat) :
  valid_sample sample ->
  sampled sample <> [] /\ Forall symbol_ok (sampled sample).
Proof.
  intros Hs. destruct (sampled_distinct sample Hs) as (Hlen & _ & Hin).
  split.
  - intros E. rewrite E in Hlen. discriminate.
  - apply Forall_forall. intros w Hw.
    rewrite Forall_forall in Hin. specialize (Hin w Hw).
    pose proof emojis_ok as Hok. rewrite Forall_forall in Hok. now apply Hok.
Qed.

(** X13: The emoji sequence of a challenge, typed back with or without the
    spaces it was shown with, within 300 seconds, is accepted: verify_answer
    returns the invite code and deletes the challenge. *)
Theorem shown_sequence_is_accepted (st : bot_data) (user_id code : string)
  (u : user) (now later : Q) (sample : list nat) :
  users st !! user_id = Some u ->
  blacklisted_until u <= now ->
  valid_sample sample ->
  later <= now + 300 ->
  let issued := state_after (create_verification user_id code now sample) st in
  let cleared := set_verifications (delete user_id (verifications st)) st in
  verify_answer user_id (Text.join [32%N] (sampled sample)) later issued
  = (Ok (true, Some code), cleared)
  /\ verify_answer user_id (concat (sampled sample)) later issued
     = (Ok (true, Some code), cleared).
Proof.
  intros Hu Hfree Hs Hlater issued cleared.
  destruct (sampled_ok sample Hs) as [Hne Hok].
  assert (issued
          = set_verifications
              (<[user_id := mk_verification (concat (sampled sample)) code
                              (now + 300) 0]> (verifications st)) st) as Ei.
  { unfold issued, state_after, create_verification, is_blacklisted. run.
    rewrite Hu. simpl. apply Qltb_ge in Hfree. now rewrite Hfree. }
  assert (Text.remove_spaces (concat (sampled sample)) = concat (sampled sample))
    as Hclean.
  { apply remove_spaces_symbol. apply Forall_concat.
    eapply Forall_impl; [exact Hok |]. now intros w [_ Hw]. }
  assert (forall answer,
            Text.remove_spaces (Text.strip answer) = concat (sampled sample) ->
            verify_answer user_id answer later issued
            = (Ok (true, Some code), cleared)) as Hright.
  { intros answer Ha. rewrite Ei. unfold verify_answer, drop_verification. run.
    rewrite lookup_insert_eq. simpl.
    apply Qltb_ge in Hlater. rewrite Hlater. simpl.
    rewrite Ha, Hclean. unfold Text.eqb.
    rewrite bool_decide_eq_true_2 by reflexivity. simpl.
    unfold cleared, set_verifications. simpl.
    now rewrite insert_insert_eq, delete_insert_eq. }
  split; apply Hright.
  - rewrite strip_trimmed by now apply join_trimmed.
    now apply remove_spaces_join.
  - destruct (sampled sample) as [| w l] eqn:E; [congruence |].
    rewrite strip_trimmed; [exact Hclean |].
    inversion Hok as [| ? ? Hw Hl]; subst.
    destruct (symbol_trimmed w Hw) as [(c & t1 & E1 & H1) _].
    split.
    + exists c, (t1 ++ concat l). split; [simpl; now rewrite E1 | exact H1].
    + destruct (exists_last (l := w :: l)) as (l' & wl & El); [discriminate |].
      rewrite El in *. apply Forall_app in Hok as [_ Hwl].
      inversion Hwl as [| ? ? Hwl' _]; subst.
      destruct (symbol_trimmed wl Hwl') as [_ (t2 & d & E2 & H2)].
      exists (concat l' ++ t2), d. split; [| exact H2].
      rewrite concat_app. simpl. rewrite app_nil_r, E2.
      now rewrite app_assoc.
Qed.

Lemma shown_sequence_is_accepted_witness :
  let st := one_user "7" (fresh_user 1700000000) in
  let issued :=
    state_after (create_verification "7" "LOVE0001" 1700000100 [3; 0; 5; 1]%nat) st in
  verify_answer "7" (Text.join [32%N] (sampled [3; 0; 5; 1]%nat)) 1700000200 issued
  = (Ok (true, Some "LOVE0001"%string),
     set_verifications (delete "7" (verifications st)) st).
Proof.
  intros st issued.
  assert (valid_sample [3; 0; 5; 1]%nat) as Hs.
  { split; [reflexivity |]. split.
    - apply (bool_decide_unpack (NoDup [3; 0; 5; 1]%nat)). vm_compute. exact I.
    - repeat constructor. }
  exact (proj1 (shown_sequence_is_accepted st "7" "LOVE0001"
                  (fresh_user 1700000000) 1700000100 1700000200
                  [3; 0; 5; 1]%nat eq_refl ltac:(vm_compute; discriminate) Hs
                  ltac:(vm_compute; discriminate))).
Defined.

(** X14: Any answer given more than 300 seconds after the challenge was issued
    is rejected, whatever its text, and the challenge is deleted without
    counting an attempt or blacklisting. *)
Theorem late_answer_drops_the_challenge (st : bot_data) (user_id code : string)
  (u : user) (now later : Q) (sample : list nat) (answer : text) :
  users st !! user_id = Some u ->
  blacklisted_until u <= now ->
  now + 300 < later ->
  let issued := state_after (create_verification user_id code now sample) st in
  (v_invite_code <$> verifications issued !! user_id) = Some code
  /\ verify_answer user_id answer later issued
     = (Ok (false, None),
        set_verifications (delete user_id (verifications st)) st).
Proof.
  intros Hu Hfree Hlate issued.
  assert (issued
          = set_verifications
              (<[user_id := mk_verification (concat (sampled sample)) code
                              (now + 300) 0]> (verifications st)) st) as Ei.
  { unfold issued, state_after, create_verification, is_blacklisted. run.
    rewrite Hu. simpl. apply Qltb_ge in Hfree. now rewrite Hfree. }
  rewrite Ei. simpl. rewrite lookup_insert_eq. split; [reflexivity |].
  unfold verify_answer, drop_verification. run.
  rewrite lookup_insert_eq. simpl.
  apply Qltb_lt in Hlate. rewrite Hlate. simpl.
  unfold set_verifications. simpl. now rewrite delete_insert_eq.
Qed.

Lemma late_answer_drops_the_challenge_witness :
  let st := one_user "7" (fresh_user 1700000000) in
  let issued :=
    state_after (create_verification "7" "LOVE0001" 1700000100 [3; 0; 5; 1]%nat) st in
  verify_answer "7" (concat (sampled [3; 0; 5; 1]%nat)) 1700000401 issued
  = (Ok (false, None), set_verifications (delete "7" (verifications st)) st).
Proof.
  intros st issued.
  exact (proj2 (late_answer_drops_the_challenge st "7" "LOVE0001"
                  (fresh_user 1700000000) 1700000100 1700000401
                  [3; 0; 5; 1]%nat (concat (sampled [3; 0; 5; 1]%nat)) eq_refl
                  ltac:(vm_compute; discriminate) eq_refl)).
Defined.

(** X15: After blacklist_user, /start with a valid invite code is refused for
    the next 86400 seconds and leaves the state unchanged; from then on the
    same /start issues a challenge again. *)
Theorem blacklist_lasts_a_day (st : bot_data) (user_id code : string)
  (u : user) (invite_data : invite) (now later : Q) (sample : list nat) :
  users st !! user_id = Some u ->
  invites st !! code = Some invite_data ->
  i_active invite_data = true ->
  i_inviter_id invite_data <> user_id ->
  relationships st !! user_id = None ->
  let blocked := state_after (blacklist_user user_id now) st in
  (later < now + 86400 ->
   cmd_start user_id (Some code) later sample blocked = (Ok StartBlocked, blocked))
  /\ (now + 86400 <= later ->
      exists question,
        cmd_start user_id (Some code) later sample blocked
        = (Ok (StartChallenge question),
           set_verifications
             (<[user_id := mk_verification (concat (sampled sample)) code
                             (later + 300) 0]> (verifications blocked)) blocked)).
Proof.
  intros Hu Hi Hact Hne Hrel blocked.
  assert (blocked
          = set_users (<[user_id := set_blacklisted_until (now + 86400) u]> (users st)) st)
    as Eb.
  { unfold blocked, state_after, blacklist_user, update_user. now rewrite Hu. }
  apply String.eqb_neq in Hne.
  split; intros Ht; [| eexists];
    rewrite Eb; unfold cmd_start, init_user, create_verification, is_blacklisted;
    run; rewrite lookup_insert_eq; simpl; rewrite Hi; simpl; rewrite Hact; simpl;
    rewrite Hrel; simpl;
    try (rewrite bool_decide_eq_false_2 by discriminate);
    rewrite Hne; simpl; rewrite lookup_insert_eq; simpl.
  - apply Qltb_lt in Ht. now rewrite Ht.
  - apply Qltb_ge in Ht. rewrite Ht. reflexivity.
Qed.

Lemma blacklist_lasts_a_day_witness :
  let blocked := state_after (blacklist_user "7" 1700000100) visitor in
  cmd_start "7" (Some "LOVEAAAA"%string) 1700080000 [0; 1; 2; 3]%nat blocked
  = (Ok StartBlocked, blocked)
  /\ exists question,
       (cmd_start "7" (Some "LOVEAAAA"%string) 1700086500 [0; 1; 2; 3]%nat
          blocked).1
       = Ok (StartChallenge question).
Proof.
  intros blocked.
  assert ("1"%string <> "7"%string) as Hne by discriminate.
  destruct (blacklist_lasts_a_day visitor "7" "LOVEAAAA" (fresh_user 1700000000)
              (mk_invite "1" (-100) 1700000000 true 0 [])
              1700000100 1700080000 [0; 1; 2; 3]%nat eq_refl eq_refl eq_refl
              Hne eq_refl) as [H1 _].
  destruct (blacklist_lasts_a_day visitor "7" "LOVEAAAA" (fresh_user 1700000000)
              (mk_invite "1" (-100) 1700000000 true 0 [])
              1700000100 1700086500 [0; 1; 2; 3]%nat eq_refl eq_refl eq_refl
              Hne eq_refl) as [_ H2].
  split; [apply H1; reflexivity |].
  destruct H2 as [question H2]; [vm_compute; discriminate |].
  exists question. fold blocked in H2. now rewrite H2.
Defined.

Lemma cascade_plan_total (parents : gmap string string) (fuel : nat) :
  forall (id : string) (p : Q) (d : nat) (b : Q),
  0 <= p ->
  0 <= total_awarded (cascade_plan parents fuel id p d b)
  /\ total_awarded (cascade_plan parents fuel id p d b) <= 2 * p
  /\ (length (cascade_plan parents fuel id p d b) <= fuel)%nat
  /\ Forall (fun a => 1 # 100 <= award_points_of a)
       (cascade_plan parents fuel id p d b).
Proof.
  induction fuel as [| fuel IH]; intros id p d b Hp; simpl.
  { repeat split; try lra; auto. }
  destruct (negb (String.eqb id "") && Qle_bool (1 # 100) p && (d <? 10)%nat)
    eqn:E; simpl.
  2:{ repeat split; try lra; auto. lia. }
  apply andb_prop in E as [E _]. apply andb_prop in E as [_ E].
  apply Qle_bool_iff in E.
  destruct (parents !! id) as [parent |]; simpl.
  - destruct (IH parent (p / 2) (S d) 1) as (H0 & H1 & H2 & H3).
    { apply Qle_shift_div_l; [reflexivity | lra]. }
    assert (2 * (p / 2) == p) as Hhalf by field.
    repeat split; try lra; try lia. now constructor.
  - repeat split; try lra; try lia. now repeat constructor.
Qed.

(** X16: When every recorded inviter has an account, award_points_cascade
    returns without an exception, pays at most ten awards of at least 0.01
    points each, and pays in total at most twice the first award, base * (1 +
    0.1 * streak). *)
Theorem cascade_pays_at_most_twice_the_first_award (st : bot_data)
  (uid : string) (u : user) (base : Q) :
  users st !! uid = Some u ->
  uid <> ""%string ->
  map_Forall (fun _ parent => parent <> ""%string) (relationships st) ->
  map_Forall (fun _ parent => is_Some (users st !! parent)) (relationships st) ->
  0 <= base ->
  (0 <= default 0 (invite_streak u))%Z ->
  let first :=
    base * (1 + inject_Z (default 0%Z (invite_streak u)) * (1 # 10)) in
  exists plan,
    award_points_cascade uid base st = (Ok tt, pay plan st)
    /\ award_log (pay plan st) = award_log st ++ plan
    /\ (length plan <= 10)%nat
    /\ Forall (fun a => 1 # 100 <= award_points_of a) plan
    /\ total_awarded plan <= 2 * first.
Proof.
  intros Hu Hne Hp Hk Hbase Hstreak first.
  set (plan := cascade_plan (relationships st) 10 uid first 0
                 (1 + inject_Z (default 0%Z (invite_streak u)) * (1 # 10))).
  assert (Forall (fun a => is_Some (users st !! award_to a)) plan) as Hknown.
  { apply cascade_plan_known; auto; now rewrite Hu. }
  assert (0 <= first) as Hfirst.
  { unfold first.
    assert (0 <= inject_Z (default 0%Z (invite_streak u)))
      by (unfold Qle; simpl; lia).
    nra. }
  destruct (cascade_plan_total (relationships st) 10 uid first 0
              (1 + inject_Z (default 0%Z (invite_streak u)) * (1 # 10)) Hfirst)
    as (_ & Htotal & Hlen & Hmin).
  exists plan. split.
  - unfold award_points_cascade. unfold bind, user_of. rewrite Hu.
    unfold STREAK_BONUS_MULTIPLIER. apply cascade_loop_run.
    intros a Ha. rewrite Forall_forall in Hknown. now apply Hknown.
  - split; [now apply pay_log |]. repeat split; assumption.
Qed.

Lemma cascade_pays_at_most_twice_the_first_award_witness :
  exists plan,
    award_points_cascade "1" 10 chain5 = (Ok tt, pay plan chain5)
    /\ (length plan <= 10)%nat
    /\ total_awarded plan <= 20.
Proof.
  destruct (cascade_pays_at_most_twice_the_first_award chain5 "1"
              (fresh_user 1700000000) 10) as (plan & H1 & _ & H3 & _ & H5).
  - reflexivity.
  - discriminate.
  - apply map_Forall_to_list. vm_compute. repeat constructor; discriminate.
  - apply map_Forall_to_list. vm_compute. repeat constructor; eauto.
  - vm_compute. discriminate.
  - vm_compute. discriminate.
  - exists plan. split; [exact H1 |]. split; [exact H3 |].
    eapply Qle_trans; [exact H5 |]. vm_compute. discriminate.
Defined.

(** ** Levels call after call, and members without an inviter *)

Lemma calculate_level_xp_min (l : Z) : (1 <= l -> 100 <= calculate_level_xp l)%Z.
Proof.
  intros Hl. unfold calculate_level_xp, LEVEL_XP_REQUIRED.
  assert (0 <= l / 10)%Z by (apply Z.div_pos; lia). nia.
Qed.

Lemma check_level_up_run (st : bot_data) (uid : string) (u : user) :
  users st !! uid = Some u ->
  check_level_up uid st =
    if (calculate_level_xp (level u) <=? xp u)%Z
    then (Ok true,
          set_users
            (<[uid := set_xp (xp u - calculate_level_xp (level u))
                        (set_level (level u + 1) u)]> (users st)) st)
    else (Ok false, st).
Proof.
  intros H. unfold check_level_up. run. rewrite H. simpl.
  destruct (calculate_level_xp (level u) <=? xp u)%Z; [| reflexivity].
  simpl. rewrite H. simpl. rewrite lookup_insert_eq. unfold set_users. simpl.
  now rewrite insert_insert_eq.
Qed.

Lemma level_up_calls_settle (uid : string) (k : nat) :
  forall (st : bot_data) (u : user),
  users st !! uid = Some u ->
  (1 <= level u)%Z -> (0 <= xp u)%Z -> (Z.to_nat (xp u) <= k)%nat ->
  exists (n : nat) (u' : user),
    (100 * Z.of_nat n <= xp u)%Z
    /\ users (level_up_calls n uid st) !! uid = Some u'
    /\ level u' = (level u + Z.of_nat n)%Z
    /\ (0 <= xp u' < calculate_level_xp (level u'))%Z
    /\ check_level_up uid (level_up_calls n uid st)
       = (Ok false, level_up_calls n uid st).
Proof.
  induction k as [| k IH]; intros st u Hu Hl Hx Hk.
  - exists 0%nat, u. simpl. pose proof (calculate_level_xp_min _ Hl).
    repeat split; try lia; try assumption.
    rewrite (check_level_up_run _ _ _ Hu).
    destruct (Z.leb_spec (calculate_level_xp (level u)) (xp u)); [lia | reflexivity].
  - destruct (Z.leb_spec (calculate_level_xp (level u)) (xp u)) as [Hge | Hlt].
    + pose proof (calculate_level_xp_min _ Hl) as Hmin.
      pose proof (check_level_up_run st uid u Hu) as Hrun.
      rewrite (proj2 (Z.leb_le _ _) Hge) in Hrun.
      set (u1 := set_xp (xp u - calculate_level_xp (level u))
                   (set_level (level u + 1) u)) in *.
      set (st1 := set_users (<[uid := u1]> (users st)) st) in *.
      destruct (IH st1 u1) as (n & u' & Hn & Hu' & Hl' & Hx' & Hstop).
      { apply lookup_insert_eq. }
      { simpl. lia. }
      { simpl. lia. }
      { simpl. lia. }
      exists (S n), u'.
      assert (level_up_calls (S n) uid st = level_up_calls n uid st1) as E.
      { unfold level_up_calls. rewrite Nat.iter_succ_r.
        unfold state_after at 2. now rewrite Hrun. }
      rewrite E. simpl in Hn, Hl'.
      repeat split; try assumption; try lia.
    + exists 0%nat, u. simpl. repeat split; try lia; try assumption.
      rewrite (check_level_up_run _ _ _ Hu).
      destruct (Z.leb_spec (calculate_level_xp (level u)) (xp u));
        [lia | reflexivity].
Qed.

(** X17: Calling check_level_up again and again ends: after some n calls that
    each gain a level (n at most xp/100) the user is n levels higher with 0 <=
    xp < calculate_level_xp(level), and further calls return False and change
    nothing. *)
Theorem repeated_level_ups_settle (st : bot_data) (uid : string) (u : user) :
  users st !! uid = Some u ->
  (1 <= level u)%Z -> (0 <= xp u)%Z ->
  exists (n : nat) (u' : user),
    (100 * Z.of_nat n <= xp u)%Z
    /\ users (level_up_calls n uid st) !! uid = Some u'
    /\ level u' = (level u + Z.of_nat n)%Z
    /\ (0 <= xp u' < calculate_level_xp (level u'))%Z
    /\ check_level_up uid (level_up_calls n uid st)
       = (Ok false, level_up_calls n uid st).
Proof.
  intros Hu Hl Hx.
  exact (level_up_calls_settle uid (Z.to_nat (xp u)) st u Hu Hl Hx (le_n _)).
Qed.

Lemma repeated_level_ups_settle_witness :
  let st := one_user "7" (set_xp 350 (fresh_user 0)) in
  exists (n : nat) (u' : user),
    (100 * Z.of_nat n <= 350)%Z
    /\ users (level_up_calls n "7" st) !! "7" = Some u'
    /\ level u' = (1 + Z.of_nat n)%Z
    /\ (0 <= xp u' < calculate_level_xp (level u'))%Z.
Proof.
  intros st.
  destruct (repeated_level_ups_settle st "7" (set_xp 350 (fresh_user 0)))
    as (n & u' & H1 & H2 & H3 & H4 & _); [reflexivity | simpl; lia | simpl; lia |].
  exists n, u'. repeat split; try assumption; apply H4.
Defined.

Lemma welcome_stranger (st : bot_data) (member : string) (now : Q) :
  relationships st !! member = None ->
  welcome_member member now st
  = (Ok false,
     match users st !! member with
     | Some _ => st
     | None => set_users (<[member := fresh_user now]> (users st)) st
     end).
Proof.
  intros Hr. unfold welcome_member, init_user. run.
  destruct (users st !! member); simpl; now rewrite Hr.
Qed.

Lemma handle_new_member_strangers (members : list string) (now : Q) :
  forall st,
  Forall (fun m => relationships st !! m = None) members ->
  exists st',
    handle_new_member members now st = (Ok tt, st')
    /\ award_log st' = award_log st
    /\ relationships st' = relationships st
    /\ pending_wagers st' = pending_wagers st
    /\ (forall uid u, users st !! uid = Some u -> users st' !! uid = Some u)
    /\ (forall uid u, users st' !! uid = Some u ->
          users st !! uid = Some u \/ uid ∈ members /\ u = fresh_user now).
Proof.
  induction members as [| m members IH]; intros st Hall.
  - exists st. repeat split; auto.
  - inversion Hall as [| ? ? Hm Hrest]; subst.
    change (handle_new_member (m :: members) now)
      with (welcome_member m now ;;; handle_new_member members now).
    unfold bind. rewrite (welcome_stranger _ _ _ Hm).
    set (st1 := match users st !! m with
                | Some _ => st
                | None => set_users (<[m := fresh_user now]> (users st)) st
                end).
    assert (award_log st1 = award_log st /\ relationships st1 = relationships st
            /\ pending_wagers st1 = pending_wagers st
            /\ (forall uid u, users st !! uid = Some u -> users st1 !! uid = Some u)
            /\ (forall uid u, users st1 !! uid = Some u ->
                  users st !! uid = Some u \/ uid = m /\ u = fresh_user now))
      as (Ha & Hr & Hw & Hk & Hn).
    { unfold st1. destruct (users st !! m) eqn:Em; simpl; repeat split; auto.
      - intros uid u Hu. rewrite lookup_insert_ne; [exact Hu | congruence].
      - intros uid u Hu.
        apply lookup_insert_Some in Hu as [[<- <-] | [_ Hu]]; auto. }
    destruct (IH st1) as (st' & Hrun & Ha' & Hr' & Hw' & Hk' & Hn').
    { now rewrite Hr. }
    exists st'. rewrite Hrun.
    repeat split; try congruence; auto.
    intros uid u Hu. destruct (Hn' uid u Hu) as [H1 | [Hin ->]].
    + destruct (Hn uid u H1) as [H0 | [-> ->]]; [now left |].
      right. split; [left | reflexivity].
    + right. split; [now right | reflexivity].
Qed.

(** X18: Members who join without a recorded inviter award nothing:
    handle_new_member only creates their fresh accounts, and their leaving
    again changes nothing. *)
Theorem strangers_earn_and_cost_nothing (st : bot_data) (members : list string)
  (now later : Q) :
  Forall (fun m => relationships st !! m = None) members ->
  let joined := handle_new_member members now st in
  joined.1 = Ok tt
  /\ award_log joined.2 = award_log st
  /\ (forall uid u, users st !! uid = Some u -> users joined.2 !! uid = Some u)
  /\ (forall uid u, users joined.2 !! uid = Some u ->
        users st !! uid = Some u \/ uid ∈ members /\ u = fresh_user now)
  /\ Forall (fun m => handle_member_left m later joined.2 = (Ok tt, joined.2))
       members.
Proof.
  intros Hall joined.
  destruct (handle_new_member_strangers members now st Hall)
    as (st' & Hrun & Ha & Hr & _ & Hk & Hn).
  unfold joined. rewrite Hrun. simpl.
  repeat split; try assumption.
  apply Forall_forall. intros m Hm. rewrite Forall_forall in Hall.
  unfold handle_member_left. run. now rewrite Hr, (Hall m Hm).
Qed.

Lemma strangers_earn_and_cost_nothing_witness :
  let joined := handle_new_member ["8"; "9"]%string 1700000100 two_savers in
  joined.1 = Ok tt
  /\ award_log joined.2 = []
  /\ handle_member_left "8" 1700000200 joined.2 = (Ok tt, joined.2).
Proof.
  intros joined.
  destruct (strangers_earn_and_cost_nothing two_savers ["8"; "9"]%string
              1700000100 1700000200) as (H1 & H2 & _ & _ & H5).
  { repeat constructor. }
  split; [exact H1 |]. split; [exact H2 |]. now inversion H5.
Defined.

(** ** Invite links *)

Lemma own_active_relinked (user_id : string) (group_id : Z) (invite_data : invite) :
  own_active_invite user_id group_id (relinked user_id group_id invite_data)
  = false.
Proof.
  unfold relinked.
  destruct (own_active_invite user_id group_id invite_data) eqn:E; [| exact E].
  unfold own_active_invite. simpl. apply andb_false_r.
Qed.

Lemma cmd_newinvite_run (st : bot_data) (chat_type user_id : string)
  (group_id : Z) (now : Q) (code : string) (u : user) :
  chat_type ∉ ["private"; "channel"]%string ->
  users st !! user_id = Some u ->
  blacklisted_until u <= now ->
  cmd_newinvite chat_type user_id group_id now code st
  = (Ok (NewInviteCreated
           (length (List.filter
                      (fun entry => own_active_invite user_id group_id entry.2)
                      (map_to_list (invites st)))) code),
     set_invites
       (<[code := fresh_invite user_id group_id now]>
          (relinked user_id group_id <$> invites st)) st).
Proof.
  intros Hchat Hu Hfree. unfold cmd_newinvite.
  rewrite bool_decide_eq_false_2 by exact Hchat.
  unfold init_user, is_blacklisted. run. rewrite Hu. simpl. rewrite Hu. simpl.
  apply Qltb_ge in Hfree. rewrite Hfree. simpl. rewrite Hu. reflexivity.
Qed.

(** X19: After /newinvite in a group, the new code is the user's only active
    invite for that group: their earlier active invites for the group are
    deactivated, and every other invite is unchanged. *)
Theorem newinvite_leaves_one_active_link (st : bot_data)
  (chat_type user_id : string) (group_id : Z) (now : Q) (code : string)
  (u : user) :
  chat_type ∉ ["private"; "channel"]%string ->
  users st !! user_id = Some u ->
  blacklisted_until u <= now ->
  let renewed := state_after (cmd_newinvite chat_type user_id group_id now code) st in
  invites renewed !! code = Some (fresh_invite user_id group_id now)
  /\ (forall c invite_data,
        invites renewed !! c = Some invite_data ->
        own_active_invite user_id group_id invite_data = true -> c = code)
  /\ (forall c invite_data,
        c <> code ->
        invites st !! c = Some invite_data ->
        invites renewed !! c
        = Some (if own_active_invite user_id group_id invite_data
                then deactivated invite_data else invite_data))
  /\ (forall c, c <> code -> invites st !! c = None ->
        invites renewed !! c = None).
Proof.
  intros Hchat Hu Hfree renewed.
  unfold renewed, state_after.
  rewrite (cmd_newinvite_run st chat_type user_id group_id now code u Hchat Hu
             Hfree). simpl.
  split; [apply lookup_insert_eq |]. split; [| split].
  - intros c invite_data Hc Hown.
    destruct (decide (c = code)) as [-> | Hne]; [reflexivity |].
    rewrite lookup_insert_ne, lookup_fmap in Hc by congruence.
    destruct (invites st !! c) as [old |]; [| discriminate].
    injection Hc as <-. now rewrite own_active_relinked in Hown.
  - intros c invite_data Hne Hc.
    rewrite lookup_insert_ne, lookup_fmap, Hc by congruence. reflexivity.
  - intros c Hne Hc.
    rewrite lookup_insert_ne, lookup_fmap, Hc by congruence. reflexivity.
Qed.

Lemma links_ok_same (links0 links : gmap string invite) :
  same_links links0 links -> links_ok links0 -> links_ok links.
Proof.
  intros Hsame [Hempty Hone]. split.
  - specialize (Hsame ""%string). rewrite Hempty in Hsame.
    now destruct (links !! ""%string).
  - intros c1 c2 i1 i2 H1 H2 Ha1 Ha2 Hi Hg.
    pose proof (Hsame c1) as S1. pose proof (Hsame c2) as S2.
    rewrite H1 in S1. rewrite H2 in S2.
    destruct (links0 !! c1) as [j1 |] eqn:E1; [| discriminate].
    destruct (links0 !! c2) as [j2 |] eqn:E2; [| discriminate].
    injection S1 as S1a S1b S1c. injection S2 as S2a S2b S2c.
    apply (Hone c1 c2 j1 j2 E1 E2); congruence.
Qed.

Lemma head_filter_None {A} (P : A -> bool) (l : list A) :
  head (List.filter P l) = None -> forall x, x ∈ l -> P x = false.
Proof.
  intros H x Hx. destruct (P x) eqn:E; [| reflexivity].
  assert (x ∈ List.filter P l) as Hin.
  { apply list_elem_of_In, filter_In. split; [now apply list_elem_of_In | exact E]. }
  destruct (List.filter P l); [inversion Hin | discriminate].
Qed.

Lemma head_filter_Some {A} (P : A -> bool) (l : list A) (x : A) :
  head (List.filter P l) = Some x -> x ∈ l /\ P x = true.
Proof.
  intros H.
  assert (x ∈ List.filter P l) as Hin.
  { destruct (List.filter P l) as [| y l']; [discriminate |].
    injection H as ->. left. }
  apply list_elem_of_In, filter_In in Hin as [Hin HP].
  split; [now apply list_elem_of_In | exact HP].
Qed.

Lemma links_ok_fresh (links : gmap string invite) (user_id : string)
  (group_id : Z) (now : Q) (code : string) :
  code <> ""%string ->
  links_ok links ->
  (forall c invite_data, c <> code -> links !! c = Some invite_data ->
     own_active_invite user_id group_id invite_data = false) ->
  links_ok (<[code := fresh_invite user_id group_id now]> links).
Proof.
  intros Hcode [Hempty Hone] Hnone. split.
  - now rewrite lookup_insert_ne.
  - intros c1 c2 i1 i2 H1 H2 Ha1 Ha2 Hi Hg.
    destruct (decide (c1 = code)) as [-> | N1];
      destruct (decide (c2 = code)) as [-> | N2]; [reflexivity | | |].
    + rewrite lookup_insert_eq in H1. injection H1 as <-.
      rewrite lookup_insert_ne in H2 by congruence. simpl in *.
      specialize (Hnone c2 i2 N2 H2). unfold own_active_invite in Hnone.
      rewrite <- Hi, <- Hg, Ha2, String.eqb_refl, Z.eqb_refl in Hnone.
      discriminate.
    + rewrite lookup_insert_eq in H2. injection H2 as <-.
      rewrite lookup_insert_ne in H1 by congruence. simpl in *.
      specialize (Hnone c1 i1 N1 H1). unfold own_active_invite in Hnone.
      rewrite Hi, Hg, Ha1, String.eqb_refl, Z.eqb_refl in Hnone.
      discriminate.
    + rewrite lookup_insert_ne in H1, H2 by congruence.
      now apply (Hone c1 c2 i1 i2).
Qed.

Lemma links_ok_relinked (links : gmap string invite) (user_id : string)
  (group_id : Z) :
  links_ok links -> links_ok (relinked user_id group_id <$> links).
Proof.
  intros [Hempty Hone]. split.
  - now rewrite lookup_fmap, Hempty.
  - intros c1 c2 i1 i2 H1 H2 Ha1 Ha2 Hi Hg.
    rewrite lookup_fmap in H1, H2.
    destruct (links !! c1) as [j1 |] eqn:E1; [| discriminate].
    destruct (links !! c2) as [j2 |] eqn:E2; [| discriminate].
    injection H1 as <-. injection H2 as <-.
    unfold relinked in *.
    destruct (own_active_invite user_id group_id j1); [discriminate Ha1 |].
    destruct (own_active_invite user_id group_id j2); [discriminate Ha2 |].
    now apply (Hone c1 c2 j1 j2).
Qed.

Lemma keeps_links_cmd_newinvite (chat_type user_id : string) (group_id : Z)
  (now : Q) (code : string) :
  code <> ""%string ->
  keeps (fun st => links_ok (invites st))
    (cmd_newinvite chat_type user_id group_id now code).
Proof.
  intros Hcode st H. unfold cmd_newinvite.
  destruct (bool_decide _); [now apply wp_ret |].
  apply wp_bind, wp_init_user.
  assert (forall s, invites s = invites st ->
            wp (blocked <- is_blacklisted user_id now ;;
                if blocked then ret NewInviteBlocked
                else
                  known <- gets invites ;;
                  let old_links :=
                    length (List.filter
                              (fun entry => own_active_invite user_id group_id entry.2)
                              (map_to_list known)) in
                  modify (fun st =>
                    set_invites (relinked user_id group_id <$> invites st) st) ;;;
                  user_of user_id ;;;
                  modify (fun st =>
                    set_invites
                      (<[code := fresh_invite user_id group_id now]> (invites st))
                      st) ;;;
                  ret (NewInviteCreated old_links code))
              (fun _ s' => links_ok (invites s'))
              (fun s' => links_ok (invites s')) s) as Hrest.
  { intros s Hs. unfold is_blacklisted. apply wp_bind, wp_bind, wp_user_of.
    destruct (users s !! user_id); [| now rewrite Hs].
    apply wp_ret. destruct (Qltb _ _); [apply wp_ret; now rewrite Hs |].
    apply wp_bind, wp_gets, wp_bind, wp_modify, wp_bind, wp_user_of. simpl.
    destruct (users s !! user_id).
    - apply wp_bind, wp_modify, wp_ret. simpl. rewrite Hs.
      apply links_ok_fresh; [exact Hcode | now apply links_ok_relinked |].
      intros c invite_data _ Hc. rewrite lookup_fmap in Hc.
      destruct (invites st !! c); [| discriminate]. injection Hc as <-.
      apply own_active_relinked.
    - rewrite Hs. now apply links_ok_relinked. }
  destruct (users st !! user_id); now apply Hrest.
Qed.

Lemma keeps_links_cmd_invite (chat_type user_id : string) (group_id : Z)
  (now : Q) (code : string) :
  code <> ""%string ->
  keeps (fun st => links_ok (invites st))
    (cmd_invite chat_type user_id group_id now code).
Proof.
  intros Hcode st H. unfold cmd_invite.
  destruct (bool_decide _); [now apply wp_ret |].
  apply wp_bind, wp_init_user.
  assert (forall s, invites s = invites st ->
            wp (blocked <- is_blacklisted user_id now ;;
                if blocked then ret InviteBlocked
                else
                  known <- gets invites ;;
                  let found :=
                    head (List.filter
                            (fun entry => own_active_invite user_id group_id entry.2)
                            (map_to_list known)) in
                  match found with
                  | Some (existing_code, invite_data) =>
                      if negb (String.eqb existing_code "") then
                        heat <- calculate_heat_score user_id now ;;
                        user <- user_of user_id ;;
                        ret (InviteExisting existing_code
                               (i_total_uses invite_data) heat
                               (default 0%Z (invite_streak user)))
                      else
                        user_of user_id ;;;
                        modify (fun st =>
                          set_invites
                            (<[code := fresh_invite user_id group_id now]>
                               (invites st)) st) ;;;
                        heat <- calculate_heat_score user_id now ;;
                        ret (InviteCreated code heat)
                  | None =>
                      user_of user_id ;;;
                      modify (fun st =>
                        set_invites
                          (<[code := fresh_invite user_id group_id now]>
                             (invites st)) st) ;;;
                      heat <- calculate_heat_score user_id now ;;
                      ret (InviteCreated code heat)
                  end)
              (fun _ s' => links_ok (invites s'))
              (fun s' => links_ok (invites s')) s) as Hrest.
  { intros s Hs. unfold is_blacklisted, calculate_heat_score.
    apply wp_bind, wp_bind, wp_user_of.
    destruct (users s !! user_id) as [u |] eqn:Eu; [| now rewrite Hs].
    apply wp_ret. destruct (Qltb _ _); [apply wp_ret; now rewrite Hs |].
    apply wp_bind, wp_gets. cbv zeta.
    destruct (head _) as [[existing_code invite_data] |] eqn:Ehead.
    - apply head_filter_Some in Ehead as [Hin _].
      apply elem_of_map_to_list in Hin.
      destruct (String.eqb_spec existing_code "") as [-> | Hne]; simpl.
      + rewrite Hs in Hin. destruct H as [Hempty _]. congruence.
      + apply wp_bind, wp_bind, wp_user_of. rewrite Eu. apply wp_ret.
        apply wp_bind, wp_user_of. rewrite Eu. apply wp_ret. now rewrite Hs.
    - apply wp_bind, wp_user_of. rewrite Eu.
      apply wp_bind, wp_modify, wp_bind, wp_bind, wp_user_of. simpl.
      rewrite Eu. apply wp_ret, wp_ret. simpl. rewrite Hs.
      apply links_ok_fresh; [exact Hcode | exact H |].
      intros c invite_data _ Hc.
      apply (head_filter_None _ _ Ehead (c, invite_data)).
      apply elem_of_map_to_list. now rewrite Hs. }
  destruct (users st !! user_id); now apply Hrest.
Qed.

Lemma links_like_invites (links0 : gmap string invite) (s s' : bot_data) :
  invites s' = invites s -> links_like links0 s -> links_like links0 s'.
Proof. unfold links_like. now intros ->. Qed.

Lemma keeps_like_update (links0 : gmap string invite) (uid : string)
  (f : user -> user) :
  keeps (links_like links0) (update_user uid f).
Proof.
  intros st H. apply wp_update_user. now destruct (users st !! uid).
Qed.

Lemma keeps_like_init_user (links0 : gmap string invite) (uid : string)
  (now : Q) :
  keeps (links_like links0) (init_user uid now).
Proof.
  intros st H. apply wp_init_user. now destruct (users st !! uid).
Qed.

Lemma keeps_like_verify_answer (links0 : gmap string invite) (uid : string)
  (answer : text) (now : Q) :
  keeps (links_like links0) (verify_answer uid answer now).
Proof.
  intros st H. unfold verify_answer, drop_verification, blacklist_user.
  apply wp_bind, wp_gets.
  destruct (verifications st !! uid) as [verif |]; [| now apply wp_ret].
  destruct (Qltb _ _).
  { apply wp_bind, wp_modify, wp_ret. exact H. }
  apply wp_bind, wp_modify. cbv zeta.
  destruct (Text.eqb _ _).
  { apply wp_bind, wp_modify, wp_ret. exact H. }
  apply wp_bind. destruct (_ <=? _)%Z.
  - apply wp_bind, wp_update_user. simpl.
    destruct (users st !! uid); [| exact H].
    apply wp_modify, wp_ret. exact H.
  - apply wp_ret, wp_ret. exact H.
Qed.

Lemma keeps_like_cmd_start (links0 : gmap string invite) (user_id : string)
  (arg : option string) (now : Q) (sample : list nat) :
  keeps (links_like links0) (cmd_start user_id arg now sample).
Proof.
  intros st H. unfold cmd_start.
  eapply keeps_call; [apply keeps_like_init_user | exact H |].
  intros ? s1 H1. destruct arg as [invite_code |]; [| now apply wp_ret].
  apply wp_bind, wp_gets.
  destruct (invites s1 !! invite_code) as [invite_data |]; [| now apply wp_ret].
  destruct (negb _); [now apply wp_ret |].
  apply wp_bind, wp_gets.
  destruct (bool_decide _); [now apply wp_ret |].
  destruct (String.eqb _ _); [now apply wp_ret |].
  apply wp_bind. unfold create_verification, is_blacklisted.
  apply wp_bind, wp_bind, wp_user_of.
  destruct (users s1 !! user_id); [| exact H1].
  apply wp_ret. destruct (Qltb _ _).
  - apply wp_ret, wp_ret. exact H1.
  - apply wp_bind, wp_modify, wp_ret, wp_ret. exact H1.
Qed.

Section Links.

Variable pow095 : Q -> Q.

Lemma keeps_like_track_activity (links0 : gmap string invite) (uid : string)
  (now : Q) (today : string) :
  keeps (links_like links0) (track_activity pow095 uid now today).
Proof.
  intros st H.
  eapply wp_mono;
    [apply (keeps_graph_track_activity pow095 st uid now today st);
     now repeat split | |].
  - intros ? s' (Hi & _ & _). now apply (links_like_invites links0 st).
  - intros s' (Hi & _ & _). now apply (links_like_invites links0 st).
Qed.

Lemma keeps_like_handle_private_message (links0 : gmap string invite)
  (user_id : string) (message : text) (now : Q) (link_ok : bool)
  (today : string) :
  keeps (links_like links0)
    (handle_private_message pow095 user_id message now link_ok today).
Proof.
  intros st H. unfold handle_private_message.
  eapply keeps_call; [apply keeps_like_init_user | exact H |].
  intros ? s1 H1. cbv zeta.
  eapply keeps_call; [apply keeps_like_verify_answer | exact H1 |].
  intros verdict s2 H2. apply wp_bind, wp_gets.
  destruct (verdict.1 && _).
  - apply wp_bind, wp_gets.
    destruct (invites s2 !! default ""%string verdict.2) as [invite_data |] eqn:Ei;
      [| exact H2].
    apply wp_bind, wp_gets.
    destruct (relationships s2 !! user_id); [now apply wp_ret |].
    destruct link_ok; [| now apply wp_ret].
    apply wp_bind, wp_modify, wp_bind, wp_modify, wp_ret.
    unfold links_like, same_links in *. simpl.
    intros c. specialize (H2 c).
    destruct (decide (c = default ""%string verdict.2)) as [-> | Hne].
    + rewrite lookup_insert_eq. rewrite Ei in H2. rewrite <- H2. reflexivity.
    + now rewrite lookup_insert_ne.
  - destruct (negb verdict.1 && _).
    + destruct (_ <? _)%Z; now apply wp_ret.
    + apply wp_bind.
      eapply wp_mono; [apply (keeps_like_track_activity links0); exact H2 | |];
        intros; cbv beta; [now apply wp_ret | assumption].
Qed.

Lemma link_step_ok (st : bot_data) (ev : link_event) :
  sound_code ev -> links_ok (invites st) ->
  links_ok (invites (link_step pow095 st ev)).
Proof.
  intros Hcode H. destruct ev as [? ? ? ? code | ? ? ? ? code | ev]; simpl.
  - apply (keeps_state_after (fun s => links_ok (invites s)));
      [now apply keeps_links_cmd_invite | exact H].
  - apply (keeps_state_after (fun s => links_ok (invites s)));
      [now apply keeps_links_cmd_newinvite | exact H].
  - apply (links_ok_same (invites st)); [| exact H].
    destruct ev; simpl.
    + apply (keeps_state_after (links_like (invites st)));
        [apply keeps_like_cmd_start | now intros c].
    + apply (keeps_state_after (links_like (invites st)));
        [apply keeps_like_handle_private_message | now intros c].
Qed.

End Links.

(** X20: Through any sequence of /invite, /newinvite and invite redemptions
    (with non-empty new codes) a user never has two active invites for the
    same group. *)
Theorem one_active_link_per_group (pow095 : Q -> Q) (evs : list link_event)
  (st : bot_data) :
  links_ok (invites st) ->
  Forall sound_code evs ->
  forall c1 c2 i1 i2,
    invites (link_run pow095 evs st) !! c1 = Some i1 ->
    invites (link_run pow095 evs st) !! c2 = Some i2 ->
    i_active i1 = true -> i_active i2 = true ->
    i_inviter_id i1 = i_inviter_id i2 -> i_group_id i1 = i_group_id i2 ->
    c1 = c2.
Proof.
  intros H Hall.
  assert (links_ok (invites (link_run pow095 evs st))) as [_ Hone];
    [| exact Hone].
  revert st H. induction Hall as [| ev evs Hev _ IH]; intros st H; [exact H |].
  simpl. apply IH. now apply link_step_ok.
Qed.

Lemma one_active_link_per_group_witness :
  let evs :=
    [ EvInvite "group" "1" (-100) 1700000000 "LOVEAAAA";
      EvInvite "group" "1" (-100) 1700000100 "LOVECCCC";
      EvNewInvite "group" "1" (-100) 1700000200 "LOVEDDDD" ] in
  let st := link_run no_decay evs initialize_data in
  (i_active <$> invites st !! "LOVEAAAA") = Some false
  /\ invites st !! "LOVECCCC" = None
  /\ (i_active <$> invites st !! "LOVEDDDD") = Some true
  /\ forall c1 c2 i1 i2,
       invites st !! c1 = Some i1 -> invites st !! c2 = Some i2 ->
       i_active i1 = true -> i_active i2 = true ->
       i_inviter_id i1 = i_inviter_id i2 -> i_group_id i1 = i_group_id i2 ->
       c1 = c2.
Proof.
  intros evs st.
  split; [vm_compute; reflexivity |]. split; [vm_compute; reflexivity |].
  split; [vm_compute; reflexivity |].
  apply (one_active_link_per_group no_decay evs initialize_data).
  - split; [reflexivity |]. intros c1 c2 i1 i2 H1. simpl in H1.
    rewrite lookup_empty in H1. discriminate.
  - repeat constructor; discriminate.
Defined.

Lemma filter_none' {A} (f : A -> bool) (l : list A) :
  (forall x, x ∈ l -> f x = false) -> List.filter f l = [].
Proof.
  induction l as [| x l IH]; intros H; [reflexivity |]. simpl.
  rewrite (H x) by left. apply IH. intros y Hy. apply H. now right.
Qed.



(** X22: After the owner's /newinvite, /start with the old code is refused as
    deactivated and changes nothing, while /start with the new code issues a
    challenge. *)
Theorem replaced_link_is_refused (st : bot_data) (chat_type owner_id : string)
  (group_id : Z) (now later : Q) (old_code code visitor_id : string)
  (owner visitor : user) (old : invite) (sample : list nat) :
  chat_type ∉ ["private"; "channel"]%string ->
  users st !! owner_id = Some owner ->
  blacklisted_until owner <= now ->
  invites st !! old_code = Some old ->
  own_active_invite owner_id group_id old = true ->
  old_code <> code ->
  users st !! visitor_id = Some visitor ->
  visitor_id <> owner_id ->
  blacklisted_until visitor <= later ->
  relationships st !! visitor_id = None ->
  let renewed :=
    state_after (cmd_newinvite chat_type owner_id group_id now code) st in
  cmd_start visitor_id (Some old_code) later sample renewed
  = (Ok StartDeactivated, renewed)
  /\ exists question,
       (cmd_start visitor_id (Some code) later sample renewed).1
       = Ok (StartChallenge question).
Proof.
  intros Hchat Ho Hfree Hold Hown Hne Hv Hvo Hvfree Hrel renewed.
  assert (renewed
          = set_invites
              (<[code := fresh_invite owner_id group_id now]>
                 (relinked owner_id group_id <$> invites st)) st) as Er.
  { unfold renewed, state_after.
    now rewrite (cmd_newinvite_run st chat_type owner_id group_id now code owner
                   Hchat Ho Hfree). }
  apply Qltb_ge in Hvfree. apply String.eqb_neq in Hvo.
  rewrite Er. split; [| eexists];
    unfold cmd_start, init_user, create_verification, is_blacklisted; run;
    rewrite Hv; simpl.
  - rewrite lookup_insert_ne, lookup_fmap, Hold by congruence. simpl.
    unfold relinked. rewrite Hown. reflexivity.
  - rewrite lookup_insert_eq. simpl. rewrite Hrel. simpl.
    rewrite String.eqb_sym, Hvo. simpl. rewrite Hv. simpl.
    rewrite Hvfree. reflexivity.
Qed.

Lemma group_chat : "group"%string ∉ ["private"; "channel"]%string.
Proof. intros H. repeat (apply elem_of_cons in H as [H | H]; [discriminate |]). inversion H. Qed.

Lemma newinvite_leaves_one_active_link_witness :
  let renewed :=
    state_after (cmd_newinvite "group" "1" (-100) 1700000200 "LOVEDDDD") linked in
  invites renewed !! "LOVEDDDD" = Some (fresh_invite "1" (-100) 1700000200)
  /\ invites renewed !! "LOVEAAAA"
     = Some (deactivated (fresh_invite "1" (-100) 1700000000)).
Proof.
  intros renewed.
  destruct (newinvite_leaves_one_active_link linked "group" "1" (-100)
              1700000200 "LOVEDDDD" (fresh_user 1700000000) group_chat eq_refl
              ltac:(vm_compute; discriminate)) as (H1 & _ & H3 & _).
  split; [exact H1 |].
  exact (H3 "LOVEAAAA"%string (fresh_invite "1" (-100) 1700000000)
           ltac:(discriminate) eq_refl).
Defined.


Lemma replaced_link_is_refused_witness :
  let renewed :=
    state_after (cmd_newinvite "group" "1" (-100) 1700000200 "LOVEDDDD") linked in
  cmd_start "7" (Some "LOVEAAAA"%string) 1700000300 [0; 1; 2; 3]%nat renewed
  = (Ok StartDeactivated, renewed)
  /\ exists question,
       (cmd_start "7" (Some "LOVEDDDD"%string) 1700000300 [0; 1; 2; 3]%nat
          renewed).1
       = Ok (StartChallenge question).
Proof.
  intros renewed.
  assert ("7"%string <> "1"%string) as Hne by discriminate.
  assert ("LOVEAAAA"%string <> "LOVEDDDD"%string) as Hcode by discriminate.
  exact (replaced_link_is_refused linked "group" "1" (-100) 1700000200
           1700000300 "LOVEAAAA" "LOVEDDDD" "7" (fresh_user 1700000000)
           (fresh_user 1700000000) (fresh_invite "1" (-100) 1700000000)
           [0; 1; 2; 3]%nat group_chat eq_refl ltac:(vm_compute; discriminate)
           eq_refl eq_refl Hcode eq_refl Hne ltac:(vm_compute; discriminate)
           eq_refl).
Defined.

(** X23: /stats reports the counts while no invite exists, but raises KeyError
    'used' as soon as one does (for instance after a successful /newinvite),
    because it reads a key that no invite has. *)
Theorem stats_raise_once_a_link_exists (st : bot_data)
  (chat_type user_id : string) (group_id : Z) (now : Q) (code : string)
  (old_links : nat) :
  let renewed := cmd_newinvite chat_type user_id group_id now code st in
  (invites st = ∅ ->
   exists counted,
     cmd_stats st = (Ok counted, st)
     /\ total_users counted = size (users st)
     /\ total_invites counted = 0%nat
     /\ active_wagers counted = size (pending_wagers st))
  /\ (renewed.1 = Ok (NewInviteCreated old_links code) ->
      cmd_stats renewed.2 = (Raise (KeyError "used"), renewed.2)).
Proof.
  intros renewed. split.
  - intros Hempty. unfold cmd_stats. run. rewrite Hempty, map_to_list_empty.
    eexists. split; [reflexivity |]. simpl. now rewrite map_size_empty.
  - intros Hrun.
    assert (invites renewed.2 !! code
            = Some (fresh_invite user_id group_id now)) as Hcode.
    { revert Hrun. unfold renewed, cmd_newinvite.
      destruct (bool_decide _); [discriminate |].
      unfold init_user, is_blacklisted. run.
      match goal with
      | |- context [match users ?s !! user_id with _ => _ end] =>
          destruct (users s !! user_id) eqn:Eu
      end; simpl; [| discriminate].
      destruct (Qltb _ _); simpl; [discriminate |].
      rewrite Eu. simpl. intros _. apply lookup_insert_eq. }
    unfold cmd_stats. run.
    destruct (map_to_list (invites renewed.2)) eqn:El; [| reflexivity].
    apply map_to_list_empty_iff in El. rewrite El, lookup_empty in Hcode.
    discriminate.
Qed.

Lemma stats_raise_once_a_link_exists_witness :
  (exists counted, cmd_stats two_members = (Ok counted, two_members)
                   /\ total_users counted = 2%nat)
  /\ cmd_stats
       (state_after (cmd_newinvite "group" "1" (-100) 1700000200 "LOVEDDDD")
          two_members)
     = (Raise (KeyError "used"),
        state_after (cmd_newinvite "group" "1" (-100) 1700000200 "LOVEDDDD")
          two_members).
Proof.
  destruct (stats_raise_once_a_link_exists two_members "group" "1" (-100)
              1700000200 "LOVEDDDD" 0) as [Hnone Hsome].
  split.
  - destruct Hnone as (counted & Hc & Hn & _); [reflexivity |].
    exists counted. split; [exact Hc |]. rewrite Hn. vm_compute. reflexivity.
  - apply Hsome. vm_compute. reflexivity.
Defined.

(** ** Leaderboards *)


Section Sorting.

Context {A : Type} (above : A -> A -> bool).

Hypothesis above_asym : forall a b, above a b = true -> above b a = false.
Hypothesis above_neg_trans :
  forall a b c, above b a = false -> above c b = false -> above c a = false.







End Sorting.








(** ** The refactored bot: the invite manager *)

Section InviteManagerFacts.

Import InviteManager.

(** X25: InviteManager.use_invite succeeds exactly when the code exists and
    the user is not yet on its used_by_list, whether or not the invite is
    active; it then appends the user, adds one to total_uses and records the
    inviter, so that a second use by the same user fails and changes nothing;
    a failed call changes nothing. *)
Theorem use_invite_counts_a_guest_once (invite_code : string) (user_id : Z)
  (self : invite_manager) :
  let used := use_invite invite_code user_id self in
  (used.1 = true
   <-> exists invite_data,
         get_invite invite_code self = Some invite_data
         /\ user_id ∉ used_by_list invite_data)
  /\ (used.1 = false -> used.2 = self)
  /\ (used.1 = true ->
      exists invite_data invite_data',
        get_invite invite_code self = Some invite_data
        /\ get_invite invite_code used.2 = Some invite_data'
        /\ total_uses invite_data' = (total_uses invite_data + 1)%Z
        /\ used_by_list invite_data' = used_by_list invite_data ++ [user_id]
        /\ get_inviter user_id used.2 = Some (inviter_id invite_data)
        /\ use_invite invite_code user_id used.2 = (false, used.2)
        /\ (uses_counted self -> uses_counted used.2)).
Proof.
  unfold use_invite, get_invite, get_inviter.
  destruct (invites self !! invite_code) as [invite_data |] eqn:E; simpl.
  2: { split; [| split]; [| reflexivity | discriminate].
       split; [discriminate | intros (? & ? & _); discriminate]. }
  destruct (bool_decide (user_id ∈ used_by_list invite_data)) eqn:Eu; simpl.
  - apply bool_decide_eq_true_1 in Eu.
    split; [| split]; [| reflexivity | discriminate].
    split; [discriminate |]. intros (i & Hi & Hn). injection Hi as <-.
    now destruct Hn.
  - apply bool_decide_eq_false_1 in Eu.
    split; [| split]; [| discriminate |].
    + split; [intros _; now exists invite_data | reflexivity].
    + intros _. eexists _, _. split; [reflexivity |].
      rewrite !lookup_insert_eq. simpl.
      split; [reflexivity |]. split; [reflexivity |]. split; [reflexivity |].
      split; [reflexivity |]. split.
      * rewrite bool_decide_eq_true_2; [reflexivity |].
        apply elem_of_app. right. left.
      * unfold uses_counted. simpl. intros Hc.
        apply map_Forall_insert_2; [| exact Hc]. simpl.
        rewrite length_app, (Hc _ _ E). simpl. lia.
Qed.

Lemma map_to_list_fmap_elem {B C} (f : B -> C) (m : gmap string B)
  (entry : string * C) :
  entry ∈ map_to_list (f <$> m)
  <-> exists b, m !! entry.1 = Some b /\ entry.2 = f b.
Proof.
  destruct entry as [k c]. rewrite elem_of_map_to_list, lookup_fmap. simpl.
  destruct (m !! k) as [b |]; simpl; split.
  - intros [= <-]. now exists b.
  - intros (b' & [= <-] & ->). reflexivity.
  - discriminate.
  - intros (? & ? & _). discriminate.
Qed.

(** X26: After InviteManager.deactivate_user_invites no active invite of that
    user for that group is left, a second call returns 0 and changes nothing,
    the count is 0 exactly when there was no active invite, and all other
    invites are untouched. *)
Theorem deactivate_user_invites_clears (inviter group : Z)
  (self : invite_manager) :
  let cleared := deactivate_user_invites inviter group self in
  get_active_invite_for_user inviter group cleared.2 = None
  /\ deactivate_user_invites inviter group cleared.2 = (0%nat, cleared.2)
  /\ (cleared.1 = 0%nat
      <-> get_active_invite_for_user inviter group self = None)
  /\ (forall invite_code invite_data,
        get_invite invite_code self = Some invite_data ->
        get_invite invite_code cleared.2
        = Some (if active_for inviter group invite_data
                then set_active false invite_data else invite_data)).
Proof.
  unfold deactivate_user_invites, get_active_invite_for_user, get_invite.
  cbn [fst snd invites set_invites].
  set (off := fun invite_data : invite =>
                if active_for inviter group invite_data
                then set_active false invite_data else invite_data).
  assert (forall invite_data, active_for inviter group (off invite_data) = false)
    as Hoff.
  { intros i. unfold off. destruct (active_for inviter group i) eqn:Ei;
      [| exact Ei].
    unfold active_for. simpl. apply andb_false_r. }
  assert (List.filter (fun entry : string * invite =>
                         active_for inviter group entry.2)
            (map_to_list (off <$> invites self)) = []) as Hnone.
  { apply filter_none'. intros entry Hin.
    apply map_to_list_fmap_elem in Hin as (b & _ & ->). apply Hoff. }
  split; [now rewrite Hnone |]. split; [| split].
  - rewrite Hnone. simpl. f_equal. unfold set_invites. simpl. f_equal.
    apply map_eq. intros k. rewrite !lookup_fmap.
    destruct (invites self !! k) as [i |]; simpl; [| reflexivity].
    f_equal. unfold off at 1. now rewrite Hoff.
  - destruct (List.filter _ (map_to_list (invites self))); simpl;
      split; intros; (reflexivity || discriminate).
  - intros invite_code invite_data E. rewrite lookup_fmap, E. reflexivity.
Qed.

Lemma expired_entries (now : Q) (wagers : gmap string wager) (id : string)
  (w : wager) :
  (id, w) ∈ List.filter (fun entry : string * wager =>
                            Qltb (expires_at entry.2) now) (map_to_list wagers)
  <-> wagers !! id = Some w /\ expires_at w < now.
Proof.
  rewrite list_elem_of_In, filter_In, <- list_elem_of_In, elem_of_map_to_list.
  simpl. now rewrite Qltb_lt.
Qed.

Lemma swept_lookup (now : Q) (wagers : gmap string wager) (id : string) :
  foldr (fun (entry : string * wager) m => delete entry.1 m) wagers
    (List.filter (fun entry : string * wager => Qltb (expires_at entry.2) now)
       (map_to_list wagers)) !! id
  = match wagers !! id with
    | Some w => if Qltb (expires_at w) now then None else Some w
    | None => None
    end.
Proof.
  destruct (wagers !! id) as [w |] eqn:E.
  - destruct (Qltb (expires_at w) now) eqn:Ex.
    + apply foldr_delete_lookup_None. apply list_elem_of_fmap.
      exists (id, w). split; [reflexivity |].
      apply expired_entries. split; [exact E | now apply Qltb_lt].
    + rewrite foldr_delete_lookup_other; [exact E |].
      intros Hin. apply list_elem_of_fmap in Hin as ([id' w'] & Hid & Hin).
      simpl in Hid. subst id'. apply expired_entries in Hin as [E' Hlt].
      rewrite E in E'. injection E' as <-. apply Qltb_lt in Hlt. congruence.
  - rewrite foldr_delete_lookup_other; [exact E |].
    intros Hin. apply list_elem_of_fmap in Hin as ([id' w'] & Hid & Hin).
    simpl in Hid. subst id'. apply expired_entries in Hin as [E' _]. congruence.
Qed.

(** X27: InviteManager.cleanup_expired_wagers returns exactly the wagers with
    expires_at < now, keeps exactly those with now <= expires_at, leaves
    invites and relationships alone, and finds nothing on a second call at the
    same time. *)
Theorem cleanup_expired_wagers_splits (now : Q) (self : invite_manager) :
  let swept := cleanup_expired_wagers now self in
  (forall wager_id w,
     (wager_id, w) ∈ swept.1
     <-> get_wager wager_id self = Some w /\ expires_at w < now)
  /\ (forall wager_id w,
        get_wager wager_id swept.2 = Some w
        <-> get_wager wager_id self = Some w /\ now <= expires_at w)
  /\ invites swept.2 = invites self
  /\ relationships swept.2 = relationships self
  /\ cleanup_expired_wagers now swept.2 = ([], swept.2).
Proof.
  unfold cleanup_expired_wagers, get_wager.
  cbn [fst snd pending_wagers set_pending_wagers invites relationships].
  assert (forall wager_id w,
            foldr (fun (entry : string * wager) m => delete entry.1 m)
              (pending_wagers self)
              (List.filter
                 (fun entry : string * wager => Qltb (expires_at entry.2) now)
                 (map_to_list (pending_wagers self))) !! wager_id = Some w
            <-> pending_wagers self !! wager_id = Some w /\ now <= expires_at w)
    as Hkept.
  { intros wager_id w. rewrite swept_lookup.
    destruct (pending_wagers self !! wager_id) as [w' |]; [| split; [discriminate | intros [? _]; discriminate]].
    destruct (Qltb (expires_at w') now) eqn:Ex.
    - apply Qltb_lt in Ex. split; [discriminate |].
      intros [[= <-] Hle]. lra.
    - apply Qltb_ge in Ex. split; [intros [= <-]; now split | now intros [? _]]. }
  split; [intros wager_id w; apply expired_entries |].
  split; [exact Hkept |]. split; [reflexivity |]. split; [reflexivity |].
  rewrite filter_none'.
  - reflexivity.
  - intros [id w] Hin. simpl. apply elem_of_map_to_list in Hin.
    apply Hkept in Hin as [_ Hle]. now apply Qltb_ge.
Qed.

(** X28: In the refactored bot a fought duel is not removed: the stored wager
    has no wager_id key, so _execute_wager_duel calls remove_wager with the
    empty id, and the wager stays pending, marked accepted. *)
Theorem fought_duel_stays_pending (wager_id : string) (w : wager)
  (self : invite_manager) :
  wager_id <> ""%string ->
  get_wager wager_id self = Some w ->
  get_wager wager_id (fight_duel wager_id self)
  = Some (mk_wager (challenger_id w) (challenger_name w) (points w)
            (expires_at w) true).
Proof.
  intros Hid Hw. unfold fight_duel, accept_wager, remove_wager, get_wager in *.
  rewrite Hw. cbn [snd pending_wagers set_pending_wagers].
  destruct (<[wager_id := _]> (pending_wagers self) !! ""%string);
    cbn [snd pending_wagers set_pending_wagers].
  - rewrite lookup_delete_ne by congruence. apply lookup_insert_eq.
  - apply lookup_insert_eq.
Qed.

Lemma fought_duel_stays_pending_witness :
  get_wager "wager_1700000100_1" (fight_duel "wager_1700000100_1" one_wager)
  = Some (mk_wager 1 "Ann" 5 (1700000100 + 60) true).
Proof.
  apply (fought_duel_stays_pending "wager_1700000100_1"
           (mk_wager 1 "Ann" 5 (1700000100 + 60) false) one_wager).
  - discriminate.
  - reflexivity.
Defined.

End InviteManagerFacts.

(** ** The refactored bot: milestones *)

Section MessageHandlersFacts.

Import MessageHandlers.

Lemma milestones_loop_announced (successful : Z) (todo : list Z) :
  forall (reached : list Z) (stored : option (list Z)) (m : Z),
  m ∈ (milestones_loop successful todo reached stored).2
  <-> m ∈ todo /\ (m <= successful)%Z /\ m ∉ reached.
Proof.
  induction todo as [| h todo IH]; intros reached stored m; simpl.
  - split; [intros H; inversion H | intros [H _]; inversion H].
  - destruct ((h <=? successful)%Z && negb (bool_decide (h ∈ reached))) eqn:E.
    + apply andb_true_iff in E as [Hle Hn]. apply Z.leb_le in Hle.
      apply negb_true_iff, bool_decide_eq_false_1 in Hn.
      simpl. rewrite elem_of_cons, IH, elem_of_cons, not_elem_of_app.
      rewrite list_elem_of_singleton.
      destruct (decide (m = h)) as [-> | Hne]; [tauto |]. tauto.
    + rewrite IH, elem_of_cons.
      destruct (decide (m = h)) as [-> | Hne]; [| tauto].
      split; [tauto |]. intros (_ & Hle & Hn). exfalso.
      apply Z.leb_le in Hle. rewrite Hle in E.
      rewrite bool_decide_eq_false_2 in E by exact Hn. discriminate.
Qed.

Lemma milestones_loop_stored (successful : Z) (todo : list Z) :
  forall (reached : list Z) (stored : option (list Z)),
  (milestones_loop successful todo reached stored).1
  = match (milestones_loop successful todo reached stored).2 with
    | [] => stored
    | announced => Some (reached ++ announced)
    end.
Proof.
  induction todo as [| h todo IH]; intros reached stored; simpl;
    [reflexivity |].
  destruct ((h <=? successful)%Z && negb (bool_decide (h ∈ reached)));
    [| apply IH].
  simpl. rewrite IH.
  destruct (milestones_loop successful todo (reached ++ [h])
              (Some (reached ++ [h]))).2; [reflexivity |].
  now rewrite <- app_assoc.
Qed.

(** X29: MessageHandlers._check_milestones announces exactly the thresholds up
    to invites_successful that are not yet in milestones_reached, appends them
    to it, and announces nothing when run again; with nothing to announce the
    session is unchanged. *)
Theorem milestones_are_announced_once (successful : Z)
  (stored : option (list Z)) :
  let checked := check_milestones successful stored in
  (forall m, m ∈ checked.2
     <-> m ∈ MILESTONE_ANNOUNCES /\ (m <= successful)%Z
         /\ m ∉ default [] stored)
  /\ default [] checked.1 = default [] stored ++ checked.2
  /\ (checked.2 = [] -> checked.1 = stored)
  /\ check_milestones successful checked.1 = (checked.1, []).
Proof.
  intros checked.
  assert (forall m, m ∈ checked.2
            <-> m ∈ MILESTONE_ANNOUNCES /\ (m <= successful)%Z
                /\ m ∉ default [] stored) as Hann
    by (intros m; apply milestones_loop_announced).
  assert (checked.1 = match checked.2 with
                      | [] => stored
                      | announced => Some (default [] stored ++ announced)
                      end) as Hst
    by apply milestones_loop_stored.
  assert (default [] checked.1 = default [] stored ++ checked.2) as Hdef.
  { rewrite Hst. destruct checked.2; [now rewrite app_nil_r | reflexivity]. }
  split; [exact Hann |]. split; [exact Hdef |]. split.
  - intros E. now rewrite Hst, E.
  - assert ((check_milestones successful checked.1).2 = []) as Hnone.
    { destruct (check_milestones successful checked.1).2 as [| m l] eqn:E;
        [reflexivity | exfalso].
      assert (m ∈ (check_milestones successful checked.1).2) as Hm
        by (rewrite E; left).
      apply milestones_loop_announced in Hm as (Hin & Hle & Hn).
      apply Hn. rewrite Hdef. apply elem_of_app.
      destruct (decide (m ∈ default [] stored)) as [? | Hout]; [now left |].
      right. apply Hann. tauto. }
    rewrite (surjective_pairing (check_milestones successful checked.1)).
    rewrite Hnone. f_equal.
    unfold check_milestones. rewrite milestones_loop_stored.
    fold (check_milestones successful checked.1). now rewrite Hnone.
Qed.

End MessageHandlersFacts.

(** ** Resetting the leaderboard *)

(** X30: /resetleaderboard sets every balance and both point totals to zero
    but leaves the open wagers: a challenger who cancels afterwards gets the
    stake back and so holds points again. *)
Theorem reset_spares_open_wagers (pow095 : Q -> Q) (st : bot_data)
  (wager_id : string) (w : wager) (challenger : user) (later : Q)
  (coin : bool) :
  pending_wagers st !! wager_id = Some w ->
  later <= w_expires_at w ->
  users st !! w_challenger_id w = Some challenger ->
  let reset := cmd_resetleaderboard st in
  let closed :=
    handle_callback_query pow095 (w_challenger_id w) "cancel" wager_id later
      coin reset.2 in
  reset.1 = Ok tt
  /\ (forall uid, users reset.2 !! uid = reset_points <$> users st !! uid)
  /\ (forall uid u, users reset.2 !! uid = Some u ->
        lover_points u = 0 /\ total_points_earned u = 0
        /\ total_points_spent u = 0)
  /\ pending_wagers reset.2 = pending_wagers st
  /\ closed.1 = Ok CbCancelled
  /\ points_are (w_challenger_id w) (w_points w) closed.2.
Proof.
  intros Hw Hlater Hc reset closed.
  assert (forall uid, users reset.2 !! uid = reset_points <$> users st !! uid)
    as Hu by (intros uid; apply lookup_fmap).
  assert (pending_wagers reset.2 !! wager_id = Some w) as Hw' by exact Hw.
  assert (users reset.2 !! w_challenger_id w = Some (reset_points challenger))
    as Hc' by (rewrite Hu, Hc; reflexivity).
  pose proof (cancel_refunds pow095 reset.2 wager_id w _ later coin Hw' Hlater Hc')
    as Hcl.
  fold closed in Hcl.
  split; [reflexivity |]. split; [exact Hu |]. split.
  { intros uid u E. rewrite Hu in E.
    destruct (users st !! uid) as [u0 |]; [| discriminate].
    injection E as <-. now repeat split. }
  split; [reflexivity |]. rewrite Hcl. split; [reflexivity |].
  eexists. split; [apply lookup_insert_eq |]. simpl. ring.
Qed.

Lemma reset_spares_open_wagers_witness :
  let opened :=
    state_after (cmd_wager "1" "Ann" (Amount 5) 1700000100) two_savers in
  let reset := state_after cmd_resetleaderboard opened in
  points_are "1" 7 opened
  /\ points_are "1" 0 reset
  /\ points_are "1" 5
       (handle_callback_query no_decay "1" "cancel" "wager_1700000100_1"
          1700000130 true reset).2.
Proof.
  intros opened reset.
  set (w := mk_wager "1" "Ann" (round2 5) (1700000100 + 60) false).
  set (saver := default (fresh_user 0) (users opened !! "1")).
  assert (pending_wagers opened !! "wager_1700000100_1" = Some w) as Hw
    by (vm_compute; reflexivity).
  assert (1700000130 <= w_expires_at w) as Hlater by (vm_compute; discriminate).
  assert (users opened !! w_challenger_id w = Some saver) as Hc
    by (vm_compute; reflexivity).
  destruct (reset_spares_open_wagers no_decay opened "wager_1700000100_1" w
              saver 1700000130 true Hw Hlater Hc) as (_ & _ & _ & _ & _ & Hp).
  split; [| split].
  - exists saver. split; [vm_compute; reflexivity | vm_compute; reflexivity].
  - eexists. split; [vm_compute; reflexivity | vm_compute; reflexivity].
  - destruct Hp as (u & Hu & Hp). exists u. split; [exact Hu |].
    rewrite Hp. vm_compute. reflexivity.
Defined.
